(** * The runtime of the causal profiler: lib/runtime/profiler.cpp

    A shallow embedding of [profiler.cpp]: the global profiler object, the
    per-thread state, sample processing, the round transitions, the delay
    bookkeeping ([add_delays]), the delay snapshots, thread creation and
    shutdown, followed by the properties proved about them. The functions
    come first, as functions on the profiler and the state of the calling
    thread; then the threads that share the profiler, at two granularities:
    whole operations ([step]), and the atomic operations of
    [process_samples] one by one ([atomic_step]).

    Conventions.
    - A [size_t] is a [Z] in [0, 2^64); every arithmetic operation of the
      source on [size_t] is followed by [wrap], its reduction modulo 2^64.
    - A [line*] / [shared_ptr<line>] is an [option line]; [None] is the null
      pointer and two pointers are equal when they name the same line.
    - The fields of [profiler] and [thread_state] keep the names of the source.
    - What the headers declare ([SamplePeriod], [MinRoundSamples], the address
      map, the sleep primitive, the random distribution) is taken as a
      parameter, through the classes [Tunables] and [Collaborators]. *)

From stdpp Require Import base option list gmap strings.
From Stdlib Require Import ZArith Lia.

Open Scope Z_scope.

(** ** Machine integers *)

Definition size_modulus : Z := 2 ^ 64.

(** Reduction of an integer to the range of [size_t]. *)
Definition wrap (z : Z) : Z := z mod size_modulus.

(** The values a [size_t] variable can hold. *)
Definition is_size_t (z : Z) : Prop := 0 <= z < size_modulus.

(** ** Data model *)

(** A source line, identified by the address of its [line] object. *)
Definition line : Type := positive.

(** [perf_event::record]: a record of the sample ring buffer. *)
Record record := mk_record {
  is_sample : bool;
  get_ip : Z;
  get_callchain : list Z
}.

(** [perf_event]: the kernel sampler of one thread, as far as the profiler
    drives it (open or closed, counting or stopped, configured period). *)
Record perf_event := mk_perf_event {
  pe_open : bool;
  pe_running : bool;
  pe_sample_period : Z
}.

(** [timer]: the periodic timer raising the sample signal; [None] before
    [start_interval], the interval in nanoseconds after it. *)
Definition timer : Type := option Z.

(** [thread_state]: the fields of the per-thread state that [profiler.cpp]
    reads and writes. *)
Record thread_state := mk_thread_state {
  sampler : perf_event;
  process_timer : timer;
  delay_count : Z;
  excess_delay : Z;
  global_delay_snapshot : Z;
  local_delay_snapshot : Z
}.

(** [siglock::context]: the two modes in which the state latch is taken. *)
Inductive context := thread_context | signal_context.

(** A thread: its state together with the latch that guards it. *)
Record thread := mk_thread {
  latch_held : bool;
  state : thread_state
}.

(** The calls the profiler makes on the output sink, in the order made. *)
Inductive event :=
| ev_add_counter (name : string) (l : line)
| ev_startup (sample_period : Z)
| ev_start_round (l : line)
| ev_end_round (delays_in_round delay_size : Z)
| ev_shutdown.

(** [output]: the sink behind [_out], as the log of the calls it received and
    whether [delete _out] has run. *)
Record output := mk_output {
  out_filename : string;
  out_events : list event;
  out_deleted : bool
}.

(** One conversion of the format ["%f\t%lu\n"] written by [shutdown]. The
    [float] operand is kept as the quotient the source computes,
    [static_cast<float>(num) / den], without evaluating it. *)
Inductive stderr_item :=
| item_float_quotient (num den : Z)
| item_tab
| item_ulong (v : Z)
| item_newline.

(** [profiler]: the singleton. [line_samples] holds the sample counter that
    each [line] object carries ([line::add_sample]). *)
Record profiler := mk_profiler {
  _out : output;
  line_samples : gmap line Z;
  _selected_line : option line;
  _delay_size : Z;
  _global_delays : Z;
  _round_samples : Z;
  _round_start_delays : Z;
  _fixed_line : option line;
  _fixed_delay_size : Z;
  _generator : Z;
  _shutdown_run : bool;
  _start_time : Z;
  stderr : list stderr_item
}.

(** [thread_start_arg]: what [handle_pthread_create] hands to [start_thread].
    A thread function takes its argument and runs on the profiler and on its
    own thread, returning its result. *)
Definition thread_fn_t : Type := Z -> profiler * thread -> profiler * thread * Z.

Record thread_start_arg := mk_thread_start_arg {
  _fn : thread_fn_t;
  _arg : Z;
  _parent_delay_count : Z;
  _parent_excess_delay : Z
}.

(** Control flow of a loop body: go on with the loop, or return from the
    enclosing function. *)
Inductive flow (A : Type) :=
| Continue (a : A)
| Return (a : A).
Arguments Continue {A} a.
Arguments Return {A} a.

(** ** Parameters declared outside profiler.cpp *)

(** The compile-time constants of [profiler.h]. *)
Class Tunables := {
  SamplePeriod : Z;
  SampleWakeupCount : Z;
  MinRoundSamples : Z;
  SpeedupDivisions : Z
}.

(** The collaborators: [memory_map::find_line] by address and by name, the
    sleep primitive [wait] (requested nanoseconds to elapsed nanoseconds) and
    the distribution [_delay_dist] applied to the generator (its state to the
    drawn value and the next state). *)
Class Collaborators := {
  find_line : Z -> option line;
  find_line_by_name : string -> option line;
  wait : Z -> Z;
  delay_dist : Z -> Z * Z
}.

(** ** Field updates *)

Definition set_sampler (v : perf_event) (s : thread_state) : thread_state :=
  mk_thread_state v (process_timer s) (delay_count s) (excess_delay s)
    (global_delay_snapshot s) (local_delay_snapshot s).

Definition set_process_timer (v : timer) (s : thread_state) : thread_state :=
  mk_thread_state (sampler s) v (delay_count s) (excess_delay s)
    (global_delay_snapshot s) (local_delay_snapshot s).

Definition set_delay_count (v : Z) (s : thread_state) : thread_state :=
  mk_thread_state (sampler s) (process_timer s) v (excess_delay s)
    (global_delay_snapshot s) (local_delay_snapshot s).

Definition set_excess_delay (v : Z) (s : thread_state) : thread_state :=
  mk_thread_state (sampler s) (process_timer s) (delay_count s) v
    (global_delay_snapshot s) (local_delay_snapshot s).

Definition set_global_delay_snapshot (v : Z) (s : thread_state) : thread_state :=
  mk_thread_state (sampler s) (process_timer s) (delay_count s) (excess_delay s)
    v (local_delay_snapshot s).

Definition set_local_delay_snapshot (v : Z) (s : thread_state) : thread_state :=
  mk_thread_state (sampler s) (process_timer s) (delay_count s) (excess_delay s)
    (global_delay_snapshot s) v.

Definition set_state (v : thread_state) (t : thread) : thread :=
  mk_thread (latch_held t) v.

Definition set_out (v : output) (p : profiler) : profiler :=
  mk_profiler v (line_samples p) (_selected_line p) (_delay_size p)
    (_global_delays p) (_round_samples p) (_round_start_delays p)
    (_fixed_line p) (_fixed_delay_size p) (_generator p) (_shutdown_run p)
    (_start_time p) (stderr p).

Definition set_line_samples (v : gmap line Z) (p : profiler) : profiler :=
  mk_profiler (_out p) v (_selected_line p) (_delay_size p)
    (_global_delays p) (_round_samples p) (_round_start_delays p)
    (_fixed_line p) (_fixed_delay_size p) (_generator p) (_shutdown_run p)
    (_start_time p) (stderr p).

Definition set_selected_line (v : option line) (p : profiler) : profiler :=
  mk_profiler (_out p) (line_samples p) v (_delay_size p)
    (_global_delays p) (_round_samples p) (_round_start_delays p)
    (_fixed_line p) (_fixed_delay_size p) (_generator p) (_shutdown_run p)
    (_start_time p) (stderr p).

Definition set_delay_size (v : Z) (p : profiler) : profiler :=
  mk_profiler (_out p) (line_samples p) (_selected_line p) v
    (_global_delays p) (_round_samples p) (_round_start_delays p)
    (_fixed_line p) (_fixed_delay_size p) (_generator p) (_shutdown_run p)
    (_start_time p) (stderr p).

Definition set_global_delays (v : Z) (p : profiler) : profiler :=
  mk_profiler (_out p) (line_samples p) (_selected_line p) (_delay_size p)
    v (_round_samples p) (_round_start_delays p)
    (_fixed_line p) (_fixed_delay_size p) (_generator p) (_shutdown_run p)
    (_start_time p) (stderr p).

Definition set_round_samples (v : Z) (p : profiler) : profiler :=
  mk_profiler (_out p) (line_samples p) (_selected_line p) (_delay_size p)
    (_global_delays p) v (_round_start_delays p)
    (_fixed_line p) (_fixed_delay_size p) (_generator p) (_shutdown_run p)
    (_start_time p) (stderr p).

Definition set_round_start_delays (v : Z) (p : profiler) : profiler :=
  mk_profiler (_out p) (line_samples p) (_selected_line p) (_delay_size p)
    (_global_delays p) (_round_samples p) v
    (_fixed_line p) (_fixed_delay_size p) (_generator p) (_shutdown_run p)
    (_start_time p) (stderr p).

Definition set_fixed_line (v : option line) (p : profiler) : profiler :=
  mk_profiler (_out p) (line_samples p) (_selected_line p) (_delay_size p)
    (_global_delays p) (_round_samples p) (_round_start_delays p)
    v (_fixed_delay_size p) (_generator p) (_shutdown_run p)
    (_start_time p) (stderr p).

Definition set_fixed_delay_size (v : Z) (p : profiler) : profiler :=
  mk_profiler (_out p) (line_samples p) (_selected_line p) (_delay_size p)
    (_global_delays p) (_round_samples p) (_round_start_delays p)
    (_fixed_line p) v (_generator p) (_shutdown_run p)
    (_start_time p) (stderr p).

Definition set_generator (v : Z) (p : profiler) : profiler :=
  mk_profiler (_out p) (line_samples p) (_selected_line p) (_delay_size p)
    (_global_delays p) (_round_samples p) (_round_start_delays p)
    (_fixed_line p) (_fixed_delay_size p) v (_shutdown_run p)
    (_start_time p) (stderr p).

Definition set_shutdown_run (v : bool) (p : profiler) : profiler :=
  mk_profiler (_out p) (line_samples p) (_selected_line p) (_delay_size p)
    (_global_delays p) (_round_samples p) (_round_start_delays p)
    (_fixed_line p) (_fixed_delay_size p) (_generator p) v
    (_start_time p) (stderr p).

Definition set_start_time (v : Z) (p : profiler) : profiler :=
  mk_profiler (_out p) (line_samples p) (_selected_line p) (_delay_size p)
    (_global_delays p) (_round_samples p) (_round_start_delays p)
    (_fixed_line p) (_fixed_delay_size p) (_generator p) (_shutdown_run p)
    v (stderr p).

Definition set_stderr (v : list stderr_item) (p : profiler) : profiler :=
  mk_profiler (_out p) (line_samples p) (_selected_line p) (_delay_size p)
    (_global_delays p) (_round_samples p) (_round_start_delays p)
    (_fixed_line p) (_fixed_delay_size p) (_generator p) (_shutdown_run p)
    (_start_time p) v.

(** ** The collaborating objects *)

(** [perf_event::start], [perf_event::stop] and [perf_event::close]. *)
Definition perf_start (e : perf_event) : perf_event :=
  mk_perf_event (pe_open e) true (pe_sample_period e).

Definition perf_stop (e : perf_event) : perf_event :=
  mk_perf_event (pe_open e) false (pe_sample_period e).

Definition perf_close (e : perf_event) : perf_event :=
  mk_perf_event false (pe_running e) (pe_sample_period e).

(** A call on the sink [_out] appends to its log. *)
Definition emit (e : event) (p : profiler) : profiler :=
  set_out (mk_output (out_filename (_out p)) (out_events (_out p) ++ [e])
             (out_deleted (_out p))) p.

(** [delete _out]. *)
Definition delete_out (p : profiler) : profiler :=
  set_out (mk_output (out_filename (_out p)) (out_events (_out p)) true) p.

(** [line::add_sample]: one more sample attributed to the line. *)
Definition add_sample (l : line) (p : profiler) : profiler :=
  set_line_samples (<[l := default 0 (line_samples p !! l) + 1]> (line_samples p)) p.

(** Modelled from the spec: [thread_state::get] (thread_state.h and spinlock.h
    are not part of the sources). The state is handed out when the latch is
    free; in signal-context mode the call fails rather than waits when the
    thread already holds the latch. In thread-context mode a failure is what
    the [REQUIRE(state)] of every caller turns into an abort. *)
Definition thread_state_get (c : context) (t : thread) : option thread_state :=
  if latch_held t then None else Some (state t).

(** [std::atomic<line*>::compare_exchange_strong] on a location holding
    [cur]: whether the exchange happened, and the new content. *)
Definition compare_exchange_strong (cur expected desired : option line)
  : bool * option line :=
  if decide (cur = expected) then (true, desired) else (false, cur).

(** [std::atomic_flag::test_and_set]: the previous value; the flag is set. *)
Definition test_and_set (p : profiler) : bool * profiler :=
  (_shutdown_run p, set_shutdown_run true p).

(** ** The operations of profiler.cpp *)

Section Operations.
Context `{Tunables} `{Collaborators}.

(** The callchain walk of [find_containing_line]. *)
Fixpoint walk_callchain (chain : list Z) : option line :=
  match chain with
  | [] => None
  | pc :: rest =>
      match find_line pc with
      | Some l => Some l
      | None => walk_callchain rest
      end
  end.

(** [profiler::find_containing_line]. *)
Definition find_containing_line (sample : record) : option line :=
  if negb (is_sample sample) then None
  else match find_line (get_ip sample) with
       | Some l => Some l
       | None => walk_callchain (get_callchain sample)
       end.

(** [profiler::add_delays]. *)
Definition add_delays (p : profiler) (st : thread_state)
  : profiler * thread_state :=
  let global_delay_count := _global_delays p in
  let delay_size := _delay_size p in
  if delay_count st >? global_delay_count then
    (set_global_delays
       (wrap (_global_delays p + wrap (delay_count st - global_delay_count))) p,
     st)
  else if delay_count st <? global_delay_count then
    let time_to_wait :=
      wrap (wrap (global_delay_count - delay_count st) * delay_size) in
    if excess_delay st >? time_to_wait then
      (p, set_delay_count global_delay_count
            (set_excess_delay (wrap (excess_delay st - time_to_wait)) st))
    else
      let time_to_wait := wrap (time_to_wait - excess_delay st) in
      (p, set_delay_count global_delay_count
            (set_excess_delay (wrap (wait time_to_wait - time_to_wait)) st))
  else (p, st).

(** The start of a round, inside [process_samples]: the body of
    [if(_selected_line.compare_exchange_strong(expected, l.get()))] and its
    [else]. The result is the profiler and the local [current_line]. *)
Definition try_start_round (l : line) (p : profiler) : profiler * option line :=
  let '(swapped, selected) :=
    compare_exchange_strong (_selected_line p) None (Some l) in
  if swapped then
    let p := set_selected_line selected p in
    let current_line := Some l in
    let p := set_round_samples 0 p in
    let p := set_round_start_delays (_global_delays p) p in
    let p :=
      if negb (_fixed_delay_size p =? -1) then
        set_delay_size (wrap (_fixed_delay_size p)) p
      else
        let '(drawn, next) := delay_dist (_generator p) in
        let new_delay := wrap (Z.quot (wrap (drawn * SamplePeriod)) SpeedupDivisions) in
        set_delay_size new_delay (set_generator next p) in
    (emit (ev_start_round l) p, current_line)
  else
    (p, _selected_line p).

(** [++_round_samples]: the atomic increment; the value it returns is the
    new one. *)
Definition increment_round_samples (p : profiler) : Z * profiler :=
  let incremented := wrap (_round_samples p + 1) in
  (incremented, set_round_samples incremented p).

(** The second half of the loop body of [process_samples]:
    [if(current_line) { ... }], with the local variable [l] and
    [current_line] as they stand at that point. *)
Definition count_round_sample (l current_line : option line)
    (p : profiler) (st : thread_state) : profiler * thread_state :=
  match current_line with
  | Some c =>
      let st :=
        if decide (l = Some c) then set_delay_count (wrap (delay_count st + 1)) st
        else st in
      let '(incremented, p) := increment_round_samples p in
      if incremented =? MinRoundSamples then
        let p :=
          emit (ev_end_round (wrap (_global_delays p - _round_start_delays p))
                  (_delay_size p)) p in
        (set_selected_line None p, st)
      else (p, st)
  | None => (p, st)
  end.

(** The body of the loop of [process_samples] on one record. *)
Definition process_record (p : profiler) (st : thread_state) (r : record)
  : flow (profiler * thread_state) :=
  if is_sample r then
    let l := find_containing_line r in
    let p := match l with Some x => add_sample x p | None => p end in
    let current_line := _selected_line p in
    match current_line with
    | None =>
        let l := match _fixed_line p with Some f => Some f | None => l end in
        match l with
        | Some x =>
            let '(p, current_line) := try_start_round x p in
            Continue (count_round_sample l current_line p st)
        | None => Return (p, st)
        end
    | Some _ => Continue (count_round_sample l current_line p st)
    end
  else Continue (p, st).

(** The loop [for(perf_event::record r : state->sampler)] over the records
    [rs] that the sampler yields. *)
Fixpoint process_records (p : profiler) (st : thread_state) (rs : list record)
  : flow (profiler * thread_state) :=
  match rs with
  | [] => Continue (p, st)
  | r :: rest =>
      match process_record p st r with
      | Continue (p', st') => process_records p' st' rest
      | Return x => Return x
      end
  end.

(** [profiler::process_samples]; [rs] are the records buffered in the
    sampler of the thread when the call iterates over it. *)
Definition process_samples (p : profiler) (st : thread_state) (rs : list record)
  : profiler * thread_state :=
  let st := set_sampler (perf_stop (sampler st)) st in
  match process_records p st rs with
  | Return x => x
  | Continue (p, st) =>
      let '(p, st) := add_delays p st in
      (p, set_sampler (perf_start (sampler st)) st)
  end.

(** [profiler::samples_ready], the handler of the sample signal. *)
Definition samples_ready (p : profiler) (t : thread) (rs : list record)
  : profiler * thread :=
  match thread_state_get signal_context t with
  | Some st =>
      let '(p, st) := process_samples p st rs in
      (p, set_state st t)
  | None => (p, t)
  end.

(** [profiler::snapshot_delays]. [None] is the abort of [REQUIRE]. *)
Definition snapshot_delays (p : profiler) (t : thread) : option thread :=
  st ← thread_state_get thread_context t;
  let st := set_global_delay_snapshot (_global_delays p) st in
  let st := set_local_delay_snapshot (delay_count st) st in
  Some (set_state st t).

(** [profiler::skip_delays]. *)
Definition skip_delays (p : profiler) (t : thread) : option thread :=
  st ← thread_state_get thread_context t;
  let missed_delays := wrap (_global_delays p - global_delay_snapshot st) in
  Some (set_state
          (set_delay_count (wrap (local_delay_snapshot st + missed_delays)) st) t).

(** [profiler::catch_up]. *)
Definition catch_up (p : profiler) (t : thread) : option (profiler * thread) :=
  st ← thread_state_get thread_context t;
  let '(p, st) := add_delays p st in
  Some (p, set_state st t).

(** [profiler::begin_sampling]. *)
Definition begin_sampling (t : thread) : option thread :=
  st ← thread_state_get thread_context t;
  let st := set_sampler (mk_perf_event true false SamplePeriod) st in
  let st := set_process_timer (Some (SamplePeriod * SampleWakeupCount)) st in
  let st := set_sampler (perf_start (sampler st)) st in
  Some (set_state st t).

(** [profiler::end_sampling]. *)
Definition end_sampling (p : profiler) (t : thread) (rs : list record)
  : option (profiler * thread) :=
  st ← thread_state_get thread_context t;
  let '(p, st) := process_samples p st rs in
  let '(p, st) := add_delays p st in
  let st := set_sampler (perf_stop (sampler st)) st in
  let st := set_sampler (perf_close (sampler st)) st in
  Some (p, set_state st t).

(** [profiler::shutdown]; [now] is what [get_time()] returns. *)
Definition shutdown (p : profiler) (t : thread) (rs : list record) (now : Z)
  : option (profiler * thread) :=
  let '(was_set, p) := test_and_set p in
  if negb was_set then
    '(p, t) ← end_sampling p t rs;
    let p := emit ev_shutdown p in
    let p := delete_out p in
    if bool_decide (is_Some (_fixed_line p)) && negb (_fixed_delay_size p =? -1) then
      let runtime := wrap (now - _start_time p) in
      let delay_count := _global_delays p in
      let effective_time := wrap (runtime - wrap (delay_count * _fixed_delay_size p)) in
      Some (set_stderr
              (stderr p ++
               [item_float_quotient (_fixed_delay_size p) SamplePeriod;
                item_tab; item_ulong effective_time; item_newline]) p,
            t)
    else Some (p, t)
  else Some (p, t).

(** [profiler::register_counter], for the sampling counter of [startup]:
    a counter is its name and its line. *)
Definition register_counter (name : string) (l : line) (p : profiler) : profiler :=
  emit (ev_add_counter name l) p.

(** [profiler::startup]; [now] is what [get_time()] returns. The signal
    handlers it installs are [samples_ready] and [on_error]; the address map
    it builds from [scope] is the collaborator [find_line]; the warnings of
    [PREFER] and [WARNING] go to the log and are left out. *)
Definition startup (p : profiler) (t : thread)
    (output_filename : string) (source_progress_names : list string)
    (fixed_line_name : string) (fixed_speedup : Z) (now : Z)
  : option (profiler * thread) :=
  let p :=
    if negb (String.eqb fixed_line_name EmptyString) then
      set_fixed_line (find_line_by_name fixed_line_name) p
    else p in
  let p :=
    if (0 <=? fixed_speedup) && (fixed_speedup <=? 100) then
      set_fixed_delay_size (Z.quot (SamplePeriod * fixed_speedup) 100) p
    else p in
  let p := set_out (mk_output output_filename [] false) p in
  let p :=
    foldl (fun p line_name =>
             match find_line_by_name line_name with
             | Some l => register_counter line_name l p
             | None => p
             end) p source_progress_names in
  let p := set_start_time now p in
  let p := emit (ev_startup SamplePeriod) p in
  t ← begin_sampling t;
  Some (p, t).

(** [profiler::handle_pthread_create], up to the call of
    [real::pthread_create]: the argument handed to the new thread. *)
Definition handle_pthread_create (t : thread) (fn : thread_fn_t) (arg : Z)
  : option thread_start_arg :=
  st ← thread_state_get thread_context t;
  Some (mk_thread_start_arg fn arg (delay_count st) (excess_delay st)).

(** [profiler::start_thread], up to the call of the thread function: the
    thread at the moment [real_fn(real_arg)] is entered. *)
Definition start_thread_setup (arg : thread_start_arg) (t : thread)
  : option thread :=
  st ← thread_state_get thread_context t;
  let st := set_delay_count (_parent_delay_count arg) st in
  let st := set_excess_delay (_parent_excess_delay arg) st in
  begin_sampling (set_state st t).

(** [profiler::handle_pthread_exit], up to [real::pthread_exit]. *)
Definition handle_pthread_exit (p : profiler) (t : thread) (rs : list record)
  : option (profiler * thread) :=
  end_sampling p t rs.

(** [profiler::start_thread] on the new thread [t]: set-up, the thread
    function, then [pthread_exit(result)], which the interposition layer
    routes through [handle_pthread_exit]. *)
Definition start_thread (p : profiler) (arg : thread_start_arg) (t : thread)
    (rs : list record) : option (profiler * thread * Z) :=
  t ← start_thread_setup arg t;
  let real_fn := _fn arg in
  let real_arg := _arg arg in
  let '(p, t, result) := real_fn real_arg (p, t) in
  '(p, t) ← handle_pthread_exit p t rs;
  Some (p, t, result).

End Operations.

(** ** Several threads on one profiler *)

(** The threads of the process share the profiler object; each owns its
    [thread]. An execution is a schedule: a list of steps, each taken by one
    thread. A step is a call of the interface of the profiler, or, for a
    thread inside [process_samples], one iteration of its loop
    ([act_process_record]) or its final [add_delays], each taken as a whole:
    the iterations of different threads interleave, the operations inside
    one iteration do not. The interleaving of the atomic operations of an
    iteration is the subject of the machine that follows this one. *)

Definition tid : Type := nat.

Record system := mk_system {
  sys_profiler : profiler;
  sys_threads : gmap tid thread
}.

Inductive action :=
| act_process_record (r : record)
| act_add_delays
| act_samples_ready (rs : list record)
| act_snapshot_delays
| act_skip_delays
| act_catch_up
| act_begin_sampling
| act_end_sampling (rs : list record)
| act_shutdown (rs : list record) (now : Z)
| act_pthread_create (child : tid) (init : thread_state) (fn : thread_fn_t) (arg : Z)
| act_pthread_exit (rs : list record).

Definition schedule : Type := list (tid * action).

(** The state a loop body leaves, whichever way it leaves the loop. *)
Definition flow_value {A : Type} (f : flow A) : A :=
  match f with Continue a => a | Return a => a end.

Section Executions.
Context `{Tunables} `{Collaborators}.

Definition put_thread (who : tid) (t : thread) (p : profiler) (s : system)
  : system :=
  mk_system p (<[who := t]> (sys_threads s)).

(** One step of thread [who]; [None] when the thread does not exist, when a
    [REQUIRE] aborts the process, or when a thread is created under an
    identifier already in use. *)
Definition step (s : system) (who : tid) (a : action) : option system :=
  t ← sys_threads s !! who;
  let p := sys_profiler s in
  match a with
  | act_process_record r =>
      let '(p, st) := flow_value (process_record p (state t) r) in
      Some (put_thread who (set_state st t) p s)
  | act_add_delays =>
      let '(p, st) := add_delays p (state t) in
      Some (put_thread who (set_state st t) p s)
  | act_samples_ready rs =>
      let '(p, t) := samples_ready p t rs in
      Some (put_thread who t p s)
  | act_snapshot_delays =>
      t ← snapshot_delays p t; Some (put_thread who t p s)
  | act_skip_delays =>
      t ← skip_delays p t; Some (put_thread who t p s)
  | act_catch_up =>
      '(p, t) ← catch_up p t; Some (put_thread who t p s)
  | act_begin_sampling =>
      t ← begin_sampling t; Some (put_thread who t p s)
  | act_end_sampling rs =>
      '(p, t) ← end_sampling p t rs; Some (put_thread who t p s)
  | act_shutdown rs now =>
      '(p, t) ← shutdown p t rs now; Some (put_thread who t p s)
  | act_pthread_create child init fn arg =>
      new_arg ← handle_pthread_create t fn arg;
      match sys_threads s !! child with
      | Some _ => None
      | None =>
          c ← start_thread_setup new_arg (mk_thread false init);
          Some (put_thread child c p s)
      end
  | act_pthread_exit rs =>
      '(p, t) ← handle_pthread_exit p t rs; Some (put_thread who t p s)
  end.

(** A schedule, step after step. *)
Fixpoint run (s : system) (sched : schedule) : option system :=
  match sched with
  | [] => Some s
  | (who, a) :: rest => s' ← step s who a; run s' rest
  end.

End Executions.

(** ** The atomic operations of process_samples *)

(** A [step] above takes a whole iteration of the loop of [process_samples],
    or a whole [add_delays], at once. In the source the iteration is a
    sequence of atomic operations on the shared profiler (the load of
    [_selected_line], the exchange, the stores that set a round up, the
    calls on the sink, the increment of [_round_samples], the clearing
    store), and another thread can run between any two of them. The machine
    of this section interleaves these operations one by one, under
    sequential consistency, the default of [std::atomic].

    A [point] is where a thread stands inside [process_samples]: the
    operation it is about to perform, with the local variables that are live
    there ([rs], the records the loop has not reached; the locals [l] and
    [current_line]; a value loaded for a store or a call that follows). The
    plain members [_fixed_line] and [_fixed_delay_size], which only
    [startup] writes, are read within the operation that uses them; what a
    thread computes on its own locals goes with the operation that
    follows. *)
Inductive point :=
| outside
| at_record (rs : list record)
| at_add_sample (x : line) (rs : list record)
| at_load_selected (l : option line) (rs : list record)
| at_fixed_line (l : option line) (rs : list record)
| at_exchange (x : line) (rs : list record)
| at_reset_samples (x : line) (rs : list record)
| at_load_start_delays (x : line) (rs : list record)
| at_store_start_delays (x : line) (loaded : Z) (rs : list record)
| at_fixed_delay_size (x : line) (rs : list record)
| at_store_fixed_size (x : line) (rs : list record)
| at_draw_delay (x : line) (rs : list record)
| at_store_delay (x : line) (new_delay : Z) (rs : list record)
| at_start_round (x : line) (rs : list record)
| at_reload_selected (x : line) (rs : list record)
| at_round_sample (l current_line : option line) (rs : list record)
| at_end_load_global (rs : list record)
| at_end_load_start (global : Z) (rs : list record)
| at_end_load_size (global start : Z) (rs : list record)
| at_end_round (delays_in_round delay_size : Z) (rs : list record)
| at_clear_selected (rs : list record)
| at_add_delays_global
| at_add_delays_size (global_delay_count : Z)
| at_add_delays_update (global_delay_count delay_size : Z)
| at_resume.

(** Whether a thread is inside [process_samples]. *)
Definition inside (pt : point) : bool :=
  match pt with outside => false | _ => true end.

(** The points between the exchange that selected a line and the reset of
    [_round_samples], and those between the increment that reached
    [MinRoundSamples] and the store that clears the selected line. *)
Definition resetting (pt : point) : bool :=
  match pt with at_reset_samples _ _ => true | _ => false end.

Definition closing (pt : point) : bool :=
  match pt with
  | at_end_load_global _ | at_end_load_start _ _ | at_end_load_size _ _ _
  | at_end_round _ _ _ | at_clear_selected _ => true
  | _ => false
  end.

Definition in_transition (pt : point) : bool := resetting pt || closing pt.

Section AtomicOperations.
Context `{Tunables} `{Collaborators}.

(** The operation a thread at [pt] performs, on the shared profiler and its
    own state, and the point it reaches. The comments give the lines of
    [profiler.cpp]. The three loads of line 347 are arguments of one call,
    whose order the language leaves open; they are taken as written. *)
Definition atomic_operation (p : profiler) (st : thread_state) (pt : point)
  : profiler * thread_state * point :=
  match pt with
  | outside => (p, st, outside)
  (* 282-285: the next record of the buffer; find_containing_line. After
     the last record, add_delays (358). *)
  | at_record [] => (p, st, at_add_delays_global)
  | at_record (r :: rs) =>
      if is_sample r then
        match find_containing_line r with
        | Some x => (p, st, at_add_sample x rs)
        | None => (p, st, at_load_selected None rs)
        end
      else (p, st, at_record rs)
  (* 288: l->add_sample(). *)
  | at_add_sample x rs => (add_sample x p, st, at_load_selected (Some x) rs)
  (* 292-295: _selected_line.load(). *)
  | at_load_selected l rs =>
      match _selected_line p with
      | None => (p, st, at_fixed_line l rs)
      | Some c => (p, st, at_round_sample l (Some c) rs)
      end
  (* 297-302: the fixed line replaces l; 328-330: return without a line. *)
  | at_fixed_line l rs =>
      let l := match _fixed_line p with Some f => Some f | None => l end in
      match l with
      | Some x => (p, st, at_exchange x rs)
      | None => (p, st, outside)
      end
  (* 305: _selected_line.compare_exchange_strong(expected, l.get()). *)
  | at_exchange x rs =>
      let '(swapped, selected) :=
        compare_exchange_strong (_selected_line p) None (Some x) in
      if swapped then (set_selected_line selected p, st, at_reset_samples x rs)
      else (p, st, at_reload_selected x rs)
  (* 310: _round_samples.store(0). *)
  | at_reset_samples x rs => (set_round_samples 0 p, st, at_load_start_delays x rs)
  (* 311: _global_delays.load(), then _round_start_delays.store(...). *)
  | at_load_start_delays x rs => (p, st, at_store_start_delays x (_global_delays p) rs)
  | at_store_start_delays x loaded rs =>
      (set_round_start_delays loaded p, st, at_fixed_delay_size x rs)
  (* 314: if(_fixed_delay_size != -1). *)
  | at_fixed_delay_size x rs =>
      if negb (_fixed_delay_size p =? -1) then (p, st, at_store_fixed_size x rs)
      else (p, st, at_draw_delay x rs)
  (* 315: _delay_size.store(_fixed_delay_size). *)
  | at_store_fixed_size x rs =>
      (set_delay_size (wrap (_fixed_delay_size p)) p, st, at_start_round x rs)
  (* 317: the draw from the generator and the new delay. *)
  | at_draw_delay x rs =>
      let '(drawn, next) := delay_dist (_generator p) in
      let new_delay := wrap (Z.quot (wrap (drawn * SamplePeriod)) SpeedupDivisions) in
      (set_generator next p, st, at_store_delay x new_delay rs)
  (* 318: _delay_size.store(new_delay). *)
  | at_store_delay x new_delay rs => (set_delay_size new_delay p, st, at_start_round x rs)
  (* 322: _out->start_round(current_line). *)
  | at_start_round x rs =>
      (emit (ev_start_round x) p, st, at_round_sample (Some x) (Some x) rs)
  (* 326: _selected_line.load() after an exchange that failed. *)
  | at_reload_selected x rs => (p, st, at_round_sample (Some x) (_selected_line p) rs)
  (* 334-345: the delay this thread earns, then ++_round_samples. *)
  | at_round_sample l current_line rs =>
      match current_line with
      | Some c =>
          let st :=
            if decide (l = Some c) then set_delay_count (wrap (delay_count st + 1)) st
            else st in
          let '(incremented, p) := increment_round_samples p in
          if incremented =? MinRoundSamples then (p, st, at_end_load_global rs)
          else (p, st, at_record rs)
      | None => (p, st, at_record rs)
      end
  (* 347: _global_delays.load(), _round_start_delays.load(),
     _delay_size.load(), then _out->end_round(...). *)
  | at_end_load_global rs => (p, st, at_end_load_start (_global_delays p) rs)
  | at_end_load_start global rs =>
      (p, st, at_end_load_size global (_round_start_delays p) rs)
  | at_end_load_size global start rs =>
      (p, st, at_end_round (wrap (global - start)) (_delay_size p) rs)
  | at_end_round delays_in_round delay_size rs =>
      (emit (ev_end_round delays_in_round delay_size) p, st, at_clear_selected rs)
  (* 350: _selected_line.store(nullptr). *)
  | at_clear_selected rs => (set_selected_line None p, st, at_record rs)
  (* 366, 367: the two loads of add_delays. *)
  | at_add_delays_global => (p, st, at_add_delays_size (_global_delays p))
  | at_add_delays_size global_delay_count =>
      (p, st, at_add_delays_update global_delay_count (_delay_size p))
  (* 370-389: the atomic add to _global_delays, or the pause. *)
  | at_add_delays_update global_delay_count delay_size =>
      if delay_count st >? global_delay_count then
        (set_global_delays
           (wrap (_global_delays p + wrap (delay_count st - global_delay_count))) p,
         st, at_resume)
      else if delay_count st <? global_delay_count then
        let time_to_wait :=
          wrap (wrap (global_delay_count - delay_count st) * delay_size) in
        if excess_delay st >? time_to_wait then
          (p, set_delay_count global_delay_count
                (set_excess_delay (wrap (excess_delay st - time_to_wait)) st),
           at_resume)
        else
          let time_to_wait := wrap (time_to_wait - excess_delay st) in
          (p, set_delay_count global_delay_count
                (set_excess_delay (wrap (wait time_to_wait - time_to_wait)) st),
           at_resume)
      else (p, st, at_resume)
  (* 361: state->sampler.start(). *)
  | at_resume => (p, set_sampler (perf_start (sampler st)) st, outside)
  end.

(** [n] operations of one thread with no operation of another thread in
    between; [None] when the thread leaves [process_samples] before. *)
Fixpoint alone (n : nat) (p : profiler) (st : thread_state) (pt : point)
  : option (profiler * thread_state * point) :=
  match n with
  | O => Some (p, st, pt)
  | S n =>
      if inside pt then
        let '(p, st, pt) := atomic_operation p st pt in alone n p st pt
      else None
  end.

End AtomicOperations.

(** Where the loop of [process_samples] leaves a thread: at [pt] when it
    goes on, outside the function when it returns. *)
Definition after_loop (f : flow (profiler * thread_state)) (pt : point)
  : profiler * thread_state * point :=
  match f with
  | Continue (p, st) => (p, st, pt)
  | Return (p, st) => (p, st, outside)
  end.

(** A thread of the machine: its state and the point it stands at. *)
Record worker := mk_worker {
  w_state : thread_state;
  w_point : point
}.

Record machine := mk_machine {
  m_profiler : profiler;
  m_workers : gmap tid worker
}.

(** What the scheduler lets a thread do next: enter [process_samples] on
    the records buffered in its sampler, or perform its next operation. *)
Inductive move :=
| call_process_samples (rs : list record)
| next_operation.

Definition interleaving : Type := list (tid * move).

Definition operations (who : tid) (n : nat) : interleaving :=
  replicate n (who, next_operation).

(** The two transitions of a round: a thread's exchange selects a line; a
    thread's increment makes [_round_samples] equal to [MinRoundSamples]. *)
Inductive transition :=
| round_begun (who : tid) (x : line)
| round_ended (who : tid).

(** The transition a thread has just performed, by the point it reached:
    [at_reset_samples] is entered by a successful exchange only,
    [at_end_load_global] by an increment that returned [MinRoundSamples]
    only. *)
Definition transition_at (who : tid) (pt : point) : list transition :=
  match pt with
  | at_reset_samples x _ => [round_begun who x]
  | at_end_load_global _ => [round_ended who]
  | _ => []
  end.

(** Whether the transitions alternate, each round begun once and ended
    once: [Some] of whether a round is left open; [None] when a round is
    begun inside a round or ended outside one. *)
Fixpoint rounds_alternate (open : bool) (ts : list transition) : option bool :=
  match ts with
  | [] => Some open
  | round_begun _ _ :: rest => if open then None else rounds_alternate true rest
  | round_ended _ :: rest => if open then rounds_alternate false rest else None
  end.

Section AtomicExecutions.
Context `{Tunables} `{Collaborators}.

(** One move of thread [who]; [None] when the thread does not exist, when it
    calls [process_samples] from inside it, or has no operation to perform.
    The call stops the sampler (280) and stands at the head of the loop. *)
Definition atomic_step (m : machine) (who : tid) (a : move) : option machine :=
  w ← m_workers m !! who;
  match a with
  | call_process_samples rs =>
      if inside (w_point w) then None
      else
        let st := set_sampler (perf_stop (sampler (w_state w))) (w_state w) in
        Some (mk_machine (m_profiler m)
                (<[who := mk_worker st (at_record rs)]> (m_workers m)))
  | next_operation =>
      if inside (w_point w) then
        let '(p, st, pt) := atomic_operation (m_profiler m) (w_state w) (w_point w) in
        Some (mk_machine p (<[who := mk_worker st pt]> (m_workers m)))
      else None
  end.

Fixpoint atomic_run (m : machine) (sched : interleaving) : option machine :=
  match sched with
  | [] => Some m
  | (who, a) :: rest => m' ← atomic_step m who a; atomic_run m' rest
  end.

Definition point_of (m : machine) (who : tid) : point :=
  from_option w_point outside (m_workers m !! who).

(** The transitions of the rounds along an interleaving, in order. *)
Fixpoint transitions (m : machine) (sched : interleaving) : list transition :=
  match sched with
  | [] => []
  | (who, a) :: rest =>
      match atomic_step m who a with
      | Some m' => transition_at who (point_of m' who) ++ transitions m' rest
      | None => []
      end
  end.

(** What an operation does to the selected line and to the counter of the
    round: the exchange that selects a line, the reset of the counter, the
    increment, the clearing store, or neither of these. *)
Inductive round_effect (p : profiler) (pt : point) (p' : profiler) (pt' : point) : Prop :=
| effect_begin (x : line) (rs : list record) :
    pt = at_exchange x rs -> _selected_line p = None ->
    _selected_line p' = Some x -> _round_samples p' = _round_samples p ->
    pt' = at_reset_samples x rs -> round_effect p pt p' pt'
| effect_reset (x : line) (rs : list record) :
    pt = at_reset_samples x rs ->
    _selected_line p' = _selected_line p -> _round_samples p' = 0 ->
    in_transition pt' = false -> round_effect p pt p' pt'
| effect_count (l : option line) (c : line) (rs : list record) :
    pt = at_round_sample l (Some c) rs ->
    _selected_line p' = _selected_line p ->
    _round_samples p' = wrap (_round_samples p + 1) ->
    pt' = (if wrap (_round_samples p + 1) =? MinRoundSamples
           then at_end_load_global rs else at_record rs) ->
    round_effect p pt p' pt'
| effect_clear (rs : list record) :
    pt = at_clear_selected rs ->
    _selected_line p' = None -> _round_samples p' = _round_samples p ->
    in_transition pt' = false -> round_effect p pt p' pt'
| effect_none :
    _selected_line p' = _selected_line p -> _round_samples p' = _round_samples p ->
    resetting pt = false -> resetting pt' = false ->
    closing pt' = closing pt -> (forall rs, pt <> at_clear_selected rs) ->
    (forall rs, pt' <> at_end_load_global rs) ->
    round_effect p pt p' pt'.

(** The protocol of the rounds between the threads: at most one thread is
    in a transition; while one is, a line is selected and the counter is at
    [MinRoundSamples] or above; with no line selected the counter is there
    too; and the counter is there in these two cases only. *)
Definition round_protocol (m : machine) : Prop :=
  (forall i j wi wj,
      m_workers m !! i = Some wi -> m_workers m !! j = Some wj ->
      in_transition (w_point wi) = true -> in_transition (w_point wj) = true -> i = j) /\
  (forall i w,
      m_workers m !! i = Some w -> in_transition (w_point w) = true ->
      is_Some (_selected_line (m_profiler m)) /\
      MinRoundSamples <= _round_samples (m_profiler m)) /\
  (_selected_line (m_profiler m) = None ->
   MinRoundSamples <= _round_samples (m_profiler m)) /\
  (MinRoundSamples <= _round_samples (m_profiler m) ->
   _selected_line (m_profiler m) = None \/
   exists i w, m_workers m !! i = Some w /\ in_transition (w_point w) = true) /\
  0 <= _round_samples (m_profiler m).

(** [round_open b m]: a round is begun and not ended ([b] true) exactly
    when a line is selected and no thread is closing the round. *)
Definition round_open (b : bool) (m : machine) : Prop :=
  (b = true ->
   is_Some (_selected_line (m_profiler m)) /\
   forall i w, m_workers m !! i = Some w -> closing (w_point w) = false) /\
  (b = false ->
   _selected_line (m_profiler m) = None \/
   exists i w, m_workers m !! i = Some w /\ closing (w_point w) = true).

(** What a thread about to store a delay size holds, and the range of the
    delay size. *)
Definition delay_in_hand (p : profiler) (pt : point) : Prop :=
  match pt with
  | at_store_fixed_size _ _ => _fixed_delay_size p <> -1
  | at_store_delay _ new_delay _ => 0 <= new_delay <= SamplePeriod
  | _ => True
  end.

Definition delay_size_in_range (p : profiler) : Prop :=
  (_fixed_delay_size p = -1 \/ 0 <= _fixed_delay_size p <= SamplePeriod) /\
  0 <= _delay_size p <= SamplePeriod.

Definition delays_in_range (m : machine) : Prop :=
  delay_size_in_range (m_profiler m) /\
  forall i w, m_workers m !! i = Some w -> delay_in_hand (m_profiler m) (w_point w).

End AtomicExecutions.

(** ** The delay counts on the machine *)

(** The global count a thread compares its delay count with: inside
    [add_delays], the value it loaded (366); elsewhere, the count itself. *)
Definition reference (g : Z) (pt : point) : Z :=
  match pt with
  | at_add_delays_size loaded | at_add_delays_update loaded _ => loaded
  | _ => g
  end.

(** The delays a thread holds beyond its reference: what its next
    [add_delays] may add to the global count. *)
Definition held (g : Z) (w : worker) : Z :=
  Z.max 0 (delay_count (w_state w) - reference g (w_point w)).

(** A sum over the threads. *)
Definition sum_workers (f : worker -> Z) (ws : gmap tid worker) : Z :=
  map_fold (fun _ w acc => f w + acc) 0 ws.

Definition delays_held (m : machine) : Z :=
  sum_workers (held (_global_delays (m_profiler m))) (m_workers m).

(** [delays_fit m budget]: the counters are not negative, no thread has
    loaded more than the global count, and the global count, the delays the
    threads hold and [budget] further delays fit in [size_t]. *)
Definition delays_fit (m : machine) (budget : Z) : Prop :=
  0 <= budget /\
  (forall i w, m_workers m !! i = Some w ->
     0 <= delay_count (w_state w) /\
     0 <= reference (_global_delays (m_profiler m)) (w_point w)
       <= _global_delays (m_profiler m)) /\
  0 <= _global_delays (m_profiler m) /\
  _global_delays (m_profiler m) + delays_held m + budget < size_modulus.

(** What an operation does to the delay counts. *)
Inductive delay_effect (p : profiler) (st : thread_state) (pt : point)
    (p' : profiler) (st' : thread_state) (pt' : point) : Prop :=
| effect_earn :
    _global_delays p' = _global_delays p ->
    delay_count st' = wrap (delay_count st + 1) ->
    reference (_global_delays p) pt = _global_delays p ->
    reference (_global_delays p) pt' = _global_delays p ->
    delay_effect p st pt p' st' pt'
| effect_add (loaded delay_size : Z) :
    pt = at_add_delays_update loaded delay_size -> loaded < delay_count st ->
    _global_delays p' = wrap (_global_delays p + wrap (delay_count st - loaded)) ->
    delay_count st' = delay_count st -> pt' = at_resume ->
    delay_effect p st pt p' st' pt'
| effect_level (loaded delay_size : Z) :
    pt = at_add_delays_update loaded delay_size -> delay_count st <= loaded ->
    _global_delays p' = _global_delays p ->
    delay_count st' = loaded -> pt' = at_resume ->
    delay_effect p st pt p' st' pt'
| effect_keep :
    _global_delays p' = _global_delays p -> delay_count st' = delay_count st ->
    reference (_global_delays p) pt' = reference (_global_delays p) pt ->
    delay_effect p st pt p' st' pt'.

(** The delay counts of the threads, from one state to a later one: every
    thread is still there and its count has not gone down. *)
Definition counts_kept (ws ws' : gmap tid worker) : Prop :=
  forall i w, ws !! i = Some w ->
    exists w', ws' !! i = Some w' /\ delay_count (w_state w) <= delay_count (w_state w').

(** ** Invariants of the state *)

(** The [size_t] fields hold values of [size_t]. *)
Definition wf_thread_state (st : thread_state) : Prop :=
  is_size_t (delay_count st) /\ is_size_t (excess_delay st).

Definition wf_profiler (p : profiler) : Prop :=
  is_size_t (_global_delays p) /\ is_size_t (_delay_size p) /\
  is_size_t (_round_samples p) /\ is_size_t (_round_start_delays p).

Definition wf_system (s : system) : Prop :=
  wf_profiler (sys_profiler s) /\
  map_Forall (fun _ t => wf_thread_state (state t)) (sys_threads s).

(** The rounds in a log of the sink: [Some true] when the log ends inside a
    round, [Some false] when it ends between rounds, [None] when a round
    starts inside a round or ends outside one. [open] tells whether a round
    is in progress where the log begins. *)
Fixpoint round_status (open : bool) (log : list event) : option bool :=
  match log with
  | [] => Some open
  | ev_start_round _ :: rest => if open then None else round_status true rest
  | ev_end_round _ _ :: rest => if open then round_status false rest else None
  | _ :: rest => round_status open rest
  end.

(** The log of the sink and the selected line agree: a round is open in the
    log exactly when a line is selected. *)
Definition rounds_consistent (p : profiler) : Prop :=
  round_status false (out_events (_out p)) =
    Some (bool_decide (is_Some (_selected_line p))).

(** ** Relations between the states before and after a step *)

(** What one iteration of the loop leaves alone: the sampler, the timer, the
    excess delay and the snapshots of the thread; the configuration, the
    global delay count, the shutdown flag and standard error of the
    profiler. *)
Definition same_thread_frame (st st' : thread_state) : Prop :=
  sampler st' = sampler st /\ process_timer st' = process_timer st /\
  excess_delay st' = excess_delay st /\
  global_delay_snapshot st' = global_delay_snapshot st /\
  local_delay_snapshot st' = local_delay_snapshot st.

Definition same_profiler_frame (p p' : profiler) : Prop :=
  _fixed_line p' = _fixed_line p /\ _fixed_delay_size p' = _fixed_delay_size p /\
  _global_delays p' = _global_delays p /\ _shutdown_run p' = _shutdown_run p /\
  _start_time p' = _start_time p /\ stderr p' = stderr p /\
  out_deleted (_out p') = out_deleted (_out p).

(** What [add_delays], [process_samples] and [end_sampling] leave alone in
    the profiler: the configuration, the shutdown flag, standard error and
    the liveness of the sink. *)
Definition same_session (p p' : profiler) : Prop :=
  _fixed_line p' = _fixed_line p /\ _fixed_delay_size p' = _fixed_delay_size p /\
  _shutdown_run p' = _shutdown_run p /\ _start_time p' = _start_time p /\
  stderr p' = stderr p /\ out_deleted (_out p') = out_deleted (_out p).

(** Whether a line is selected. *)
Definition selected (p : profiler) : bool := bool_decide (is_Some (_selected_line p)).

(** [round_step p p']: from [p] to [p'] the sink has received further calls
    only, and among them the round calls alternate, from whether a line is
    selected in [p] to whether one is selected in [p']. *)
Definition round_step (p p' : profiler) : Prop :=
  exists new,
    out_events (_out p') = out_events (_out p) ++ new /\
    round_status (selected p) new = Some (selected p').

(** [advances p st p' st']: from well-formed [(p, st)] the step reaches
    well-formed [(p', st')] and [_global_delays] has not gone down. *)
Definition advances (p : profiler) (st : thread_state)
    (p' : profiler) (st' : thread_state) : Prop :=
  wf_profiler p -> wf_thread_state st ->
  wf_profiler p' /\ wf_thread_state st' /\ _global_delays p <= _global_delays p'.

(** The line of the end-to-end report of [shutdown], for the time [now] and
    the global delay count [g]. *)
Definition end_to_end_report `{Tunables} (p : profiler) (now g : Z) : list stderr_item :=
  [item_float_quotient (_fixed_delay_size p) SamplePeriod;
   item_tab;
   item_ulong (wrap (wrap (now - _start_time p) - wrap (g * _fixed_delay_size p)));
   item_newline].

(** ** Further relations and abbreviations *)

(** The fields of the profiler that sample processing and the delay engine
    work on: all but the sink, the shutdown flag and standard error. *)
Definition same_counters (p p' : profiler) : Prop :=
  line_samples p' = line_samples p /\ _selected_line p' = _selected_line p /\
  _delay_size p' = _delay_size p /\ _global_delays p' = _global_delays p /\
  _round_samples p' = _round_samples p /\
  _round_start_delays p' = _round_start_delays p /\
  _fixed_line p' = _fixed_line p /\ _fixed_delay_size p' = _fixed_delay_size p /\
  _generator p' = _generator p /\ _start_time p' = _start_time p.

(** The line a round started by a sample opens on: the fixed line when one
    is configured, else the line the sample resolves to. *)
Definition round_target (fixed sampled : option line) : option line :=
  match fixed with Some f => Some f | None => sampled end.

(** [same_settings p p']: the two states agree on all but the sample
    counters of the lines and the sink. *)
Definition same_settings (p p' : profiler) : Prop :=
  _selected_line p' = _selected_line p /\ _delay_size p' = _delay_size p /\
  _global_delays p' = _global_delays p /\ _round_samples p' = _round_samples p /\
  _round_start_delays p' = _round_start_delays p /\
  _fixed_line p' = _fixed_line p /\ _fixed_delay_size p' = _fixed_delay_size p /\
  _generator p' = _generator p /\ _start_time p' = _start_time p.

(** The counters [startup] registers for the progress names: one for each
    name the address map resolves, in the order of the names. *)
Definition registered_counters `{Collaborators} (names : list string) : list event :=
  omap (fun name => ev_add_counter name <$> find_line_by_name name) names.

(** ** A small configuration, used by the examples *)

(** Two lines: addresses 100..199 belong to line 1, addresses 200..299 to
    line 2, every other address is out of scope. Rounds last three samples. *)
Definition demo_tunables : Tunables := {|
  SamplePeriod := 1000000;
  SampleWakeupCount := 10;
  MinRoundSamples := 3;
  SpeedupDivisions := 20
|}.

Definition demo_find_line (pc : Z) : option line :=
  if (100 <=? pc) && (pc <? 200) then Some 1%positive
  else if (200 <=? pc) && (pc <? 300) then Some 2%positive
  else None.

Definition demo_collaborators : Collaborators := {|
  find_line := demo_find_line;
  find_line_by_name := fun name =>
    if String.eqb name "main.c:1" then Some 1%positive
    else if String.eqb name "main.c:2" then Some 2%positive
    else None;
  wait := fun ns => ns + 7;
  delay_dist := fun g => (5, g + 1)
|}.

(** Modelled from the spec: the profiler object before [startup] (profiler.h
    is not part of the sources): no line selected, the counters at zero, the
    fixed delay size at the sentinel -1. *)
Definition fresh_profiler : profiler := {|
  _out := mk_output EmptyString [] false;
  line_samples := ∅;
  _selected_line := None;
  _delay_size := 0;
  _global_delays := 0;
  _round_samples := 0;
  _round_start_delays := 0;
  _fixed_line := None;
  _fixed_delay_size := -1;
  _generator := 0;
  _shutdown_run := false;
  _start_time := 0;
  stderr := []
|}.

Definition fresh_thread_state : thread_state := {|
  sampler := mk_perf_event false false 0;
  process_timer := None;
  delay_count := 0;
  excess_delay := 0;
  global_delay_snapshot := 0;
  local_delay_snapshot := 0
|}.

Definition fresh_thread : thread := mk_thread false fresh_thread_state.

(** A sample outside every known line, and samples in line 1 and line 2. *)
Definition sample_out_of_scope : record := mk_record true 7 [8; 9].
Definition sample_in_line_1 : record := mk_record true 150 [].
Definition sample_in_line_2 : record := mk_record true 7 [8; 250].

(** A thread that lags two delays behind, and one that is three ahead. *)
Definition demo_profiler : profiler :=
  set_delay_size 250000 (set_global_delays 5 fresh_profiler).

Definition lagging_state : thread_state :=
  set_excess_delay 100 (set_delay_count 3 fresh_thread_state).

Definition leading_state : thread_state :=
  set_delay_count 8 fresh_thread_state.

(** A running sampler put to a stop, as [process_samples] begins. *)
Definition stopped (st : thread_state) : thread_state :=
  set_sampler (perf_stop (sampler st)) st.

(** A buffer that opens a round on line 1 and closes it: three samples. *)
Definition round_buffer : list record :=
  [sample_in_line_1; sample_in_line_2; sample_in_line_1].

Definition after_round : profiler * thread_state :=
  flow_value (@process_records demo_tunables demo_collaborators
                fresh_profiler (stopped fresh_thread_state) round_buffer).

(** A thread caught inside a critical section, and a parent with delays. *)
Definition busy_thread : thread := mk_thread true lagging_state.

Definition parent_thread : thread := mk_thread false lagging_state.

Definition echo_fn : thread_fn_t := fun arg world => (world, arg).

(** A profiler in end-to-end mode: line 1 fixed at half the sample period,
    started at time 1000, four delays issued. *)
Definition end_to_end_profiler : profiler :=
  set_start_time 1000
    (set_fixed_delay_size 500000
       (set_fixed_line (Some 1%positive) (set_global_delays 4 fresh_profiler))).

(** Two threads on a fresh profiler, and an execution in which their loop
    iterations interleave: thread 0 samples line 1 twice, thread 1 samples
    line 2 in between, then both reconcile their delays. *)
Definition two_threads : system :=
  mk_system fresh_profiler (<[0%nat := fresh_thread]> (<[1%nat := fresh_thread]> ∅)).

Definition interleaved : schedule :=
  [(0%nat, act_process_record sample_in_line_1);
   (1%nat, act_process_record sample_in_line_2);
   (0%nat, act_process_record sample_in_line_1);
   (0%nat, act_add_delays);
   (1%nat, act_add_delays)].

Definition two_threads_after : system :=
  default two_threads (@run demo_tunables demo_collaborators two_threads interleaved).

(** The two threads once thread 0 has shut the profiler down. *)
Definition two_threads_shut_down : system :=
  default two_threads
    (@step demo_tunables demo_collaborators two_threads 0%nat (act_shutdown [] 2000)).

(** A round open on line 1 with no sample counted yet, and a buffer with
    one sample in the line and one out of scope. *)
Definition round_open_profiler : profiler :=
  set_selected_line (Some 1%positive) demo_profiler.

Definition mixed_buffer : list record := [sample_in_line_1; sample_out_of_scope].

(** The two threads on the profiler in end-to-end mode, and where the
    interleaved execution takes them. *)
Definition fixed_threads : system :=
  mk_system end_to_end_profiler (sys_threads two_threads).

Definition fixed_threads_after : system :=
  default fixed_threads (@run demo_tunables demo_collaborators fixed_threads interleaved).

(** A session: [startup] at time 1000 with two progress names, of which the
    map knows one, line 1 fixed at a speedup of 50; then the sample handler
    of the main thread on a buffer, then [shutdown] at time 5000000. *)
Definition session_names : list string := ["main.c:2"; "lib.c:9"].

Definition session_opened : profiler * thread :=
  default (fresh_profiler, fresh_thread)
    (@startup demo_tunables demo_collaborators fresh_profiler fresh_thread
       "profile.coz" session_names "main.c:1" 50 1000).

Definition session_threads : gmap tid thread := <[0%nat := snd session_opened]> ∅.

Definition session_schedule : schedule := [(0%nat, act_samples_ready round_buffer)].

Definition session_running : system :=
  default two_threads
    (@run demo_tunables demo_collaborators
       (mk_system (fst session_opened) session_threads) session_schedule).

Definition session_closed : system :=
  default two_threads
    (@step demo_tunables demo_collaborators session_running 0%nat
       (act_shutdown [] 5000000)).

(** Two threads outside [process_samples] on a fresh profiler, each about to
    find three samples of line 1 in its buffer. *)
Definition line_1_buffer : list record :=
  [sample_in_line_1; sample_in_line_1; sample_in_line_1].

Definition two_workers : machine :=
  mk_machine fresh_profiler
    (<[0%nat := mk_worker fresh_thread_state outside]>
       (<[1%nat := mk_worker fresh_thread_state outside]> ∅)).

(** An interleaving of their operations: thread 0 goes up to and including
    its exchange (305), five operations; thread 1 processes its three
    samples, loads the arguments and calls [end_round] (347), sixteen
    operations; thread 0 resumes at the reset of the counter (310), sets the
    round up, counts its three samples and calls [end_round], twenty
    operations. Then both clear the selected line, run [add_delays] and
    restart their samplers. *)
Definition race_until_both_close : interleaving :=
  [(0%nat, call_process_samples line_1_buffer);
   (1%nat, call_process_samples line_1_buffer)] ++
  operations 0%nat 5 ++ operations 1%nat 16 ++ operations 0%nat 20.

Definition race_finish : interleaving := operations 1%nat 6 ++ operations 0%nat 6.

Definition racing : interleaving := race_until_both_close ++ race_finish.

Definition both_closing : machine :=
  default two_workers
    (@atomic_run demo_tunables demo_collaborators two_workers race_until_both_close).

Definition after_race : machine :=
  default two_workers
    (@atomic_run demo_tunables demo_collaborators both_closing race_finish).

(** The same two threads after a completed round, the counter at the length
    of a round, and the same interleaving up to the operations thread 1 has
    left: its three samples do not reach the length again. *)
Definition between_rounds : machine :=
  mk_machine (set_round_samples 3 fresh_profiler) (m_workers two_workers).

Definition overlapping : interleaving :=
  [(0%nat, call_process_samples line_1_buffer);
   (1%nat, call_process_samples line_1_buffer)] ++
  operations 0%nat 5 ++ operations 1%nat 12 ++ operations 0%nat 20 ++
  operations 1%nat 5 ++ operations 0%nat 6.

Definition after_overlap : machine :=
  default between_rounds
    (@atomic_run demo_tunables demo_collaborators between_rounds overlapping).

(** ** Proof automation *)

(** Splitting a goal of [advances], and one of [wf_profiler]; closing a goal
    [is_size_t] on a literal. *)
Ltac split_advances := split; [|split].
Ltac split_wf_profiler := unfold wf_profiler; simpl; split; [|split; [|split]].
Ltac solve_size_t := unfold is_size_t, size_modulus; simpl; lia.

(** A lookup in the workers after the update of thread [who]: the updated
    thread, or another one. *)
Ltac at_worker i who Hi :=
  destruct (decide (i = who)) as [->|?];
  [rewrite lookup_insert_eq in Hi; inversion Hi; subst; clear Hi
  |rewrite lookup_insert_ne in Hi by congruence].

(** * Properties *)

(** ** Arithmetic of [size_t] *)

Lemma size_modulus_pos : 0 < size_modulus.
Proof. reflexivity. Qed.

Lemma wrap_is_size_t (z : Z) : is_size_t (wrap z).
Proof. unfold is_size_t, wrap. apply Z.mod_pos_bound, size_modulus_pos. Qed.

Lemma wrap_id (z : Z) : is_size_t z -> wrap z = z.
Proof. unfold is_size_t, wrap. intros Hz. apply Z.mod_small, Hz. Qed.

Lemma wrap_wrap (z : Z) : wrap (wrap z) = wrap z.
Proof. apply wrap_id, wrap_is_size_t. Qed.

(** A difference of two [size_t] values that does not go below zero, and a
    sum that gives the larger operand back, are exact. *)
Lemma wrap_sub_le (a b : Z) : is_size_t a -> is_size_t b -> b <= a -> wrap (a - b) = a - b.
Proof. unfold is_size_t. intros Ha Hb Hle. apply wrap_id. unfold is_size_t. lia. Qed.

Lemma wrap_add_back (a b : Z) :
  is_size_t a -> is_size_t b -> b <= a -> wrap (b + wrap (a - b)) = a.
Proof.
  intros Ha Hb Hle. rewrite wrap_sub_le by assumption.
  replace (b + (a - b)) with a by lia. apply wrap_id, Ha.
Qed.

(** Two integers less than 2^64 apart with the same reduction are equal. *)
Lemma wrap_eq_close (a b : Z) :
  wrap a = wrap b -> - size_modulus < a - b < size_modulus -> a = b.
Proof.
  unfold wrap. intros Heq Hclose.
  assert (Hm : size_modulus <> 0) by (unfold size_modulus; lia).
  pose proof (Z.div_mod a size_modulus Hm) as Ha.
  pose proof (Z.div_mod b size_modulus Hm) as Hb.
  assert (Hdiff : a - b = size_modulus * (a / size_modulus - b / size_modulus)) by lia.
  assert (Hquot : a / size_modulus - b / size_modulus = 0) by nia.
  lia.
Qed.

Create HintDb size_t.
#[local] Hint Resolve wrap_is_size_t : size_t.

Section DelayEngine.
Context `{Collaborators}.

(** The three branches of [add_delays], one lemma each. *)
Lemma add_delays_ahead (p : profiler) (st : thread_state) :
  is_size_t (delay_count st) -> is_size_t (_global_delays p) ->
  delay_count st > _global_delays p ->
  add_delays p st = (set_global_delays (delay_count st) p, st).
Proof.
  intros Hc Hg Hgt. unfold add_delays.
  destruct (Z.gtb_spec (delay_count st) (_global_delays p)); [|lia].
  rewrite wrap_add_back by (assumption || lia). reflexivity.
Qed.

Lemma add_delays_level (p : profiler) (st : thread_state) :
  delay_count st = _global_delays p -> add_delays p st = (p, st).
Proof.
  intros Heq. unfold add_delays. rewrite Heq.
  rewrite Z.gtb_ltb, Z.ltb_irrefl. reflexivity.
Qed.

Lemma add_delays_behind (p : profiler) (st : thread_state) :
  is_size_t (delay_count st) -> is_size_t (excess_delay st) ->
  is_size_t (_global_delays p) ->
  delay_count st < _global_delays p ->
  let g := _global_delays p in
  let w := wrap ((g - delay_count st) * _delay_size p) in
  add_delays p st =
    if excess_delay st >? w then
      (p, set_delay_count g (set_excess_delay (excess_delay st - w) st))
    else
      (p, set_delay_count g
            (set_excess_delay
               (wrap (wait (w - excess_delay st) - (w - excess_delay st))) st)).
Proof.
  intros Hc He Hg Hlt g w. unfold add_delays.
  destruct (Z.gtb_spec (delay_count st) (_global_delays p)); [lia|].
  destruct (Z.ltb_spec (delay_count st) (_global_delays p)); [|lia].
  rewrite (wrap_sub_le (_global_delays p) (delay_count st)) by (assumption || lia).
  fold g. fold w.
  assert (Hw : is_size_t w) by apply wrap_is_size_t.
  destruct (Z.gtb_spec (excess_delay st) w).
  - rewrite wrap_sub_le by (assumption || lia). reflexivity.
  - rewrite (wrap_sub_le w (excess_delay st)) by (assumption || lia). reflexivity.
Qed.

(** C2. [add_delays] reconciles a thread with the global delay count [g]
    read at its start, with [d] the delay size. Ahead ([delay_count > g]):
    [delay_count - g] is added to [_global_delays] and the thread is left as
    it is. Behind ([delay_count < g]): with [w = (g - delay_count) * d] in
    [size_t] arithmetic, either [excess_delay > w], and [w] is taken off
    [excess_delay], or the thread sleeps [w - excess_delay] and the
    oversleep (elapsed minus requested time) becomes [excess_delay]; in both
    cases [delay_count] becomes [g] and the profiler is left as it is.
    Level: nothing changes. [w] is the exact product whenever that fits a
    [size_t]. *)
Theorem add_delays_spec (p : profiler) (st : thread_state) :
  is_size_t (delay_count st) -> is_size_t (excess_delay st) ->
  is_size_t (_global_delays p) ->
  let g := _global_delays p in
  let d := _delay_size p in
  let w := wrap ((g - delay_count st) * d) in
  (delay_count st > g ->
     add_delays p st = (set_global_delays (g + (delay_count st - g)) p, st)) /\
  (delay_count st < g -> excess_delay st > w ->
     add_delays p st =
       (p, set_delay_count g (set_excess_delay (excess_delay st - w) st))) /\
  (delay_count st < g -> excess_delay st <= w ->
     let requested := w - excess_delay st in
     add_delays p st =
       (p, set_delay_count g
             (set_excess_delay (wrap (wait requested - requested)) st))) /\
  (delay_count st = g -> add_delays p st = (p, st)) /\
  (is_size_t ((g - delay_count st) * d) -> w = (g - delay_count st) * d).
Proof.
  intros Hc He Hg g d w. repeat split.
  - intros Hgt. rewrite add_delays_ahead by assumption.
    replace (g + (delay_count st - g)) with (delay_count st) by lia. reflexivity.
  - intros Hlt Hex. rewrite add_delays_behind by assumption. cbv zeta.
    fold g d w. destruct (Z.gtb_spec (excess_delay st) w); [reflexivity | lia].
  - intros Hlt Hex requested. rewrite add_delays_behind by assumption. cbv zeta.
    fold g d w. destruct (Z.gtb_spec (excess_delay st) w); [lia | reflexivity].
  - intros Heq. apply add_delays_level, Heq.
  - intros Hfit. apply wrap_id, Hfit.
Qed.

End DelayEngine.

(** ** The state latch *)

Lemma thread_state_get_free (c : context) (t : thread) :
  latch_held t = false -> thread_state_get c t = Some (state t).
Proof. intros Hfree. unfold thread_state_get. rewrite Hfree. reflexivity. Qed.

Lemma thread_state_get_held (c : context) (t : thread) :
  latch_held t = true -> thread_state_get c t = None.
Proof. intros Hheld. unfold thread_state_get. rewrite Hheld. reflexivity. Qed.

Lemma set_state_same (t : thread) : set_state (state t) t = t.
Proof. destruct t; reflexivity. Qed.

(** ** Delay snapshots *)

Section Snapshots.

(** [skip_delays] reads the two snapshots and the global count only. *)
Lemma skip_delays_result (p : profiler) (t : thread) :
  latch_held t = false ->
  skip_delays p t =
    Some (set_state
            (set_delay_count
               (wrap (local_delay_snapshot (state t) +
                      wrap (_global_delays p - global_delay_snapshot (state t))))
               (state t)) t).
Proof.
  intros Hfree. unfold skip_delays.
  rewrite (thread_state_get_free _ _ Hfree). reflexivity.
Qed.

(** C5. [snapshot_delays()] followed by [skip_delays()] on an untouched
    thread: the snapshots hold the global count and the [delay_count] of the
    moment of the snapshot, and [skip_delays], reading the global count
    [_global_delays p'] of its own moment, leaves
    [delay_count = local_delay_snapshot + (global_delays_now -
    global_delay_snapshot)] in [size_t] arithmetic; the equation is exact
    when the global count has not gone down and the sum fits a [size_t]. *)
Theorem snapshot_then_skip (p p' : profiler) (t : thread) :
  latch_held t = false ->
  exists t1 t2,
    snapshot_delays p t = Some t1 /\
    skip_delays p' t1 = Some t2 /\
    global_delay_snapshot (state t1) = _global_delays p /\
    local_delay_snapshot (state t1) = delay_count (state t) /\
    delay_count (state t2) =
      wrap (local_delay_snapshot (state t1) +
            wrap (_global_delays p' - global_delay_snapshot (state t1))) /\
    (is_size_t (_global_delays p) -> is_size_t (_global_delays p') ->
     is_size_t (delay_count (state t)) ->
     _global_delays p <= _global_delays p' ->
     delay_count (state t) + (_global_delays p' - _global_delays p) < size_modulus ->
     delay_count (state t2) =
       local_delay_snapshot (state t1) +
       (_global_delays p' - global_delay_snapshot (state t1))).
Proof.
  intros Hfree.
  eexists. eexists. split.
  { unfold snapshot_delays. rewrite (thread_state_get_free _ _ Hfree). reflexivity. }
  split.
  { apply skip_delays_result. exact Hfree. }
  simpl. repeat split.
  intros Hg Hg' Hc Hle Hfit.
  rewrite (wrap_sub_le (_global_delays p') (_global_delays p)) by assumption.
  apply wrap_id. unfold is_size_t in *. lia.
Qed.

End Snapshots.

(** ** The sample signal *)

Section SampleSignal.
Context `{Tunables} `{Collaborators}.

(** C9. A thread that already holds its latch gets no state from
    [thread_state::get] in signal-context mode; and when the handler gets no
    state, [samples_ready] returns with the profiler and the thread exactly
    as they were, whatever is buffered: no sample is processed, no counter
    moves, nothing reaches the sink, and as a step of an execution it leaves
    the whole system as it is. *)
Theorem samples_ready_latch_held (p : profiler) (t : thread) (rs : list record) :
  (latch_held t = true -> thread_state_get signal_context t = None) /\
  (thread_state_get signal_context t = None ->
   samples_ready p t rs = (p, t) /\
   forall (s : system) (who : tid),
     sys_threads s !! who = Some t ->
     step s who (act_samples_ready rs) = Some s).
Proof.
  split; [apply thread_state_get_held|].
  intros Hnone. split.
  - unfold samples_ready. rewrite Hnone. reflexivity.
  - intros s who Ht. unfold step. rewrite Ht. simpl.
    unfold samples_ready. rewrite Hnone. unfold put_thread.
    rewrite insert_id by exact Ht. destruct s; reflexivity.
Qed.

(** With the latch free the handler is [process_samples] on the state. *)
Lemma samples_ready_latch_free (p : profiler) (t : thread) (rs : list record) :
  latch_held t = false ->
  samples_ready p t rs =
    (fst (process_samples p (state t) rs),
     set_state (snd (process_samples p (state t) rs)) t).
Proof.
  intros Hfree. unfold samples_ready. rewrite (thread_state_get_free _ _ Hfree).
  destruct (process_samples p (state t) rs); reflexivity.
Qed.

End SampleSignal.

(** ** Thread creation *)

Section ThreadCreation.
Context `{Tunables} `{Collaborators}.

(** [begin_sampling] leaves the delay fields alone. *)
Lemma begin_sampling_delays (t t' : thread) :
  begin_sampling t = Some t' ->
  delay_count (state t') = delay_count (state t) /\
  excess_delay (state t') = excess_delay (state t) /\
  latch_held t' = latch_held t.
Proof.
  unfold begin_sampling. intros Hb.
  destruct (thread_state_get thread_context t) as [st|] eqn:Hget; [|discriminate].
  simpl in Hb. inversion Hb; subst; clear Hb. simpl.
  unfold thread_state_get in Hget. destruct (latch_held t); [discriminate|].
  inversion Hget; subst. repeat split.
Qed.

(** C8. A thread created through [handle_pthread_create]: the wrapped
    argument carries the parent's [delay_count] and [excess_delay] of the
    moment of the call, [start_thread] copies them into the state of the new
    thread, and the thread function is entered on that state: [start_thread]
    is the thread function applied to the thread so set up, followed by the
    exit path. *)
Theorem child_inherits_delays (p : profiler) (parent child : thread)
    (fn : thread_fn_t) (arg : Z) (rs : list record) :
  latch_held parent = false -> latch_held child = false ->
  exists new_arg entered,
    handle_pthread_create parent fn arg = Some new_arg /\
    start_thread_setup new_arg child = Some entered /\
    delay_count (state entered) = delay_count (state parent) /\
    excess_delay (state entered) = excess_delay (state parent) /\
    start_thread p new_arg child rs =
      (let '(p', t', result) := fn arg (p, entered) in
       '(p', t') ← handle_pthread_exit p' t' rs;
       Some (p', t', result)).
Proof.
  intros Hparent Hchild.
  unfold handle_pthread_create. rewrite (thread_state_get_free _ _ Hparent). simpl.
  set (new_arg := mk_thread_start_arg fn arg (delay_count (state parent))
                    (excess_delay (state parent))).
  assert (Hsetup : exists entered, start_thread_setup new_arg child = Some entered).
  { unfold start_thread_setup, begin_sampling.
    rewrite (thread_state_get_free _ _ Hchild). simpl.
    unfold thread_state_get. simpl. rewrite Hchild. simpl. eexists. reflexivity. }
  destruct Hsetup as [entered Hentered].
  exists new_arg, entered. split; [reflexivity|]. split; [exact Hentered|].
  assert (Hfields := Hentered). unfold start_thread_setup in Hfields.
  rewrite (thread_state_get_free _ _ Hchild) in Hfields. simpl in Hfields.
  apply begin_sampling_delays in Hfields. simpl in Hfields.
  destruct Hfields as (Hcount & Hexcess & _).
  split; [exact Hcount|]. split; [exact Hexcess|].
  unfold start_thread. rewrite Hentered. reflexivity.
Qed.

End ThreadCreation.

(** ** Sample processing *)

Section SampleProcessing.
Context `{Tunables} `{Collaborators}.

Lemma count_round_sample_frame (l c : option line) (p : profiler) (st : thread_state) :
  same_profiler_frame p (fst (count_round_sample l c p st)) /\
  same_thread_frame st (snd (count_round_sample l c p st)).
Proof.
  unfold count_round_sample, same_profiler_frame, same_thread_frame.
  destruct c as [c|]; simpl; [|repeat split].
  destruct (decide (l = Some c)), (_ =? MinRoundSamples); simpl; repeat split.
Qed.

Lemma try_start_round_frame (l : line) (p : profiler) :
  same_profiler_frame p (fst (try_start_round l p)).
Proof.
  unfold try_start_round, compare_exchange_strong, same_profiler_frame.
  destruct (decide (_selected_line p = None)); simpl; [|repeat split].
  destruct (_fixed_delay_size p =? -1); simpl.
  - destruct (delay_dist (_generator p)); simpl. repeat split.
  - repeat split.
Qed.

Lemma same_profiler_frame_trans (p1 p2 p3 : profiler) :
  same_profiler_frame p1 p2 -> same_profiler_frame p2 p3 -> same_profiler_frame p1 p3.
Proof.
  unfold same_profiler_frame.
  intros (?&?&?&?&?&?&?) (?&?&?&?&?&?&?). split_and?; congruence.
Qed.

Lemma same_thread_frame_trans (s1 s2 s3 : thread_state) :
  same_thread_frame s1 s2 -> same_thread_frame s2 s3 -> same_thread_frame s1 s3.
Proof.
  unfold same_thread_frame.
  intros (?&?&?&?&?) (?&?&?&?&?). split_and?; congruence.
Qed.

Lemma add_sample_frame (l : line) (p : profiler) : same_profiler_frame p (add_sample l p).
Proof. unfold same_profiler_frame. repeat split. Qed.

Lemma process_record_frame (p : profiler) (st : thread_state) (r : record) :
  same_profiler_frame p (fst (flow_value (process_record p st r))) /\
  same_thread_frame st (snd (flow_value (process_record p st r))).
Proof.
  unfold process_record.
  destruct (is_sample r); [|split; repeat split].
  set (p0 := match find_containing_line r with
             | Some x => add_sample x p | None => p end).
  assert (Hp0 : same_profiler_frame p p0).
  { subst p0. destruct (find_containing_line r); [apply add_sample_frame|repeat split]. }
  destruct (_selected_line p0) as [c|] eqn:Hsel.
  - simpl. destruct (count_round_sample_frame (find_containing_line r) (Some c) p0 st).
    split; [eapply same_profiler_frame_trans; eassumption | assumption].
  - set (l := match _fixed_line p0 with
              | Some f => Some f | None => find_containing_line r end).
    destruct l as [x|] eqn:Hl; simpl; [|split; [assumption | repeat split]].
    pose proof (try_start_round_frame x p0) as Hstart.
    destruct (try_start_round x p0) as [p1 current_line]. simpl in *.
    destruct (count_round_sample_frame (Some x) current_line p1 st).
    split; [|assumption].
    eapply same_profiler_frame_trans; [exact Hp0|].
    eapply same_profiler_frame_trans; eassumption.
Qed.

Lemma process_records_frame (rs : list record) (p : profiler) (st : thread_state) :
  same_profiler_frame p (fst (flow_value (process_records p st rs))) /\
  same_thread_frame st (snd (flow_value (process_records p st rs))).
Proof.
  revert p st. induction rs as [|r rest IH]; intros p st; simpl.
  - split; repeat split.
  - pose proof (process_record_frame p st r) as [Hp Hst].
    destruct (process_record p st r) as [[p1 st1]|[p1 st1]]; simpl in *.
    + destruct (IH p1 st1). split;
        [eapply same_profiler_frame_trans | eapply same_thread_frame_trans]; eassumption.
    + split; assumption.
Qed.

(** The loop over a buffer split in two. *)
Lemma process_records_app (pre rest : list record) (p : profiler) (st : thread_state) :
  process_records p st (pre ++ rest) =
    match process_records p st pre with
    | Continue (p1, st1) => process_records p1 st1 rest
    | Return x => Return x
    end.
Proof.
  revert p st. induction pre as [|r pre IH]; intros p st; simpl; [reflexivity|].
  destruct (process_record p st r) as [[p1 st1]|x]; [apply IH | reflexivity].
Qed.

(** A sample that resolves to no line, met between rounds and without a
    fixed line, takes the [return] of the loop body, with nothing changed. *)
Lemma process_record_out_of_scope (p : profiler) (st : thread_state) (r : record) :
  is_sample r = true -> find_containing_line r = None ->
  _selected_line p = None -> _fixed_line p = None ->
  process_record p st r = Return (p, st).
Proof.
  intros Hs Hl Hsel Hfixed. unfold process_record.
  rewrite Hs, Hl, Hsel, Hfixed. reflexivity.
Qed.

Lemma add_delays_sampler (p : profiler) (st : thread_state) :
  sampler (snd (add_delays p st)) = sampler st.
Proof.
  unfold add_delays.
  destruct (delay_count st >? _global_delays p); [reflexivity|].
  destruct (delay_count st <? _global_delays p); [|reflexivity].
  destruct (excess_delay st >? _); reflexivity.
Qed.

(** C10. [process_samples] on a buffer [pre ++ r :: rest] whose prefix
    [pre] the loop gets through, and whose sample [r] resolves to no line
    while no line is selected and no fixed line is configured: the call
    returns the state [(p1, st1)] that the iterations over [pre] left. The
    records [rest] play no part, the final [add_delays] and the restart of
    the sampler are not reached: the global delay count and the excess delay
    are as before the call and the sampler is left stopped. A call that gets
    through its buffer, as the one on [pre] alone, does run [add_delays] on
    that state and restarts the sampler. *)
Theorem process_samples_returns_early (p p1 : profiler) (st st1 : thread_state)
    (pre rest : list record) (r : record) :
  process_records p (set_sampler (perf_stop (sampler st)) st) pre = Continue (p1, st1) ->
  is_sample r = true -> find_containing_line r = None ->
  _selected_line p1 = None -> _fixed_line p = None ->
  process_samples p st (pre ++ r :: rest) = (p1, st1) /\
  pe_running (sampler st1) = false /\
  _global_delays p1 = _global_delays p /\
  excess_delay st1 = excess_delay st /\
  process_samples p st pre =
    (fst (add_delays p1 st1),
     set_sampler (perf_start (sampler (snd (add_delays p1 st1)))) (snd (add_delays p1 st1))) /\
  pe_running (sampler (snd (process_samples p st pre))) = true.
Proof.
  intros Hpre Hs Hl Hsel Hfixed.
  pose proof (process_records_frame pre p (set_sampler (perf_stop (sampler st)) st))
    as [Hp Hst].
  rewrite Hpre in Hp, Hst. simpl in Hp, Hst.
  destruct Hp as (Hfix & _ & Hglobal & _). destruct Hst as (Hsampler & _ & Hexcess & _).
  assert (Hfull : process_samples p st pre =
    (fst (add_delays p1 st1),
     set_sampler (perf_start (sampler (snd (add_delays p1 st1)))) (snd (add_delays p1 st1)))).
  { unfold process_samples. rewrite Hpre. destruct (add_delays p1 st1); reflexivity. }
  split_and?.
  - unfold process_samples. rewrite process_records_app, Hpre. simpl.
    rewrite process_record_out_of_scope; [reflexivity|assumption..|congruence].
  - rewrite Hsampler. reflexivity.
  - exact Hglobal.
  - rewrite Hexcess. reflexivity.
  - exact Hfull.
  - rewrite Hfull. reflexivity.
Qed.

End SampleProcessing.

(** ** Shutdown *)

Section Shutdown.
Context `{Tunables} `{Collaborators}.

Lemma same_session_refl (p : profiler) : same_session p p.
Proof. repeat split. Qed.

Lemma same_session_trans (p1 p2 p3 : profiler) :
  same_session p1 p2 -> same_session p2 p3 -> same_session p1 p3.
Proof.
  unfold same_session. intros (?&?&?&?&?&?) (?&?&?&?&?&?). split_and?; congruence.
Qed.

Lemma same_profiler_frame_session (p p' : profiler) :
  same_profiler_frame p p' -> same_session p p'.
Proof.
  unfold same_profiler_frame, same_session. intros (?&?&?&?&?&?&?). split_and?; assumption.
Qed.

Lemma add_delays_session (p : profiler) (st : thread_state) :
  same_session p (fst (add_delays p st)).
Proof.
  unfold add_delays.
  destruct (delay_count st >? _global_delays p); [repeat split|].
  destruct (delay_count st <? _global_delays p); [|repeat split].
  destruct (excess_delay st >? _); repeat split.
Qed.

Lemma process_samples_session (p : profiler) (st : thread_state) (rs : list record) :
  same_session p (fst (process_samples p st rs)).
Proof.
  unfold process_samples.
  pose proof (process_records_frame rs p (set_sampler (perf_stop (sampler st)) st))
    as [Hp _].
  apply same_profiler_frame_session in Hp.
  destruct (process_records p _ rs) as [[p1 st1]|[p1 st1]]; simpl in *; [|exact Hp].
  pose proof (add_delays_session p1 st1) as Hadd.
  destruct (add_delays p1 st1) as [p2 st2]; simpl in *.
  eapply same_session_trans; eassumption.
Qed.

(** [end_sampling] goes through when the latch is free, keeps the session
    data and leaves the sampler stopped and closed. *)
Lemma end_sampling_total (p : profiler) (t : thread) (rs : list record) :
  latch_held t = false ->
  exists p' t',
    end_sampling p t rs = Some (p', t') /\ same_session p p' /\
    latch_held t' = false /\
    pe_running (sampler (state t')) = false /\ pe_open (sampler (state t')) = false.
Proof.
  intros Hfree. unfold end_sampling. rewrite (thread_state_get_free _ _ Hfree). simpl.
  pose proof (process_samples_session p (state t) rs) as Hps.
  destruct (process_samples p (state t) rs) as [p1 st1]. simpl in Hps.
  pose proof (add_delays_session p1 st1) as Hadd.
  destruct (add_delays p1 st1) as [p2 st2]. simpl in Hadd.
  eexists. eexists. split; [reflexivity|]. simpl.
  split; [eapply same_session_trans; eassumption|]. repeat split. exact Hfree.
Qed.

(** A call that finds the flag set does nothing, on any thread. *)
Lemma shutdown_after_shutdown (p : profiler) (t : thread) (rs : list record) (now : Z) :
  _shutdown_run p = true -> shutdown p t rs now = Some (p, t).
Proof.
  intros Hrun. unfold shutdown, test_and_set. rewrite Hrun. simpl.
  destruct p; simpl in *. subst. reflexivity.
Qed.

(** The call that finds the flag clear: the teardown, step by step. *)
Lemma shutdown_first (p : profiler) (t : thread) (rs : list record) (now : Z) :
  _shutdown_run p = false -> latch_held t = false ->
  exists pe t1,
    end_sampling (set_shutdown_run true p) t rs = Some (pe, t1) /\
    shutdown p t rs now =
      Some (mk_profiler
              (mk_output (out_filename (_out pe)) (out_events (_out pe) ++ [ev_shutdown]) true)
              (line_samples pe) (_selected_line pe) (_delay_size pe)
              (_global_delays pe) (_round_samples pe) (_round_start_delays pe)
              (_fixed_line p) (_fixed_delay_size p) (_generator pe) true (_start_time p)
              (stderr p ++
               (if bool_decide (is_Some (_fixed_line p)) && negb (_fixed_delay_size p =? -1)
                then end_to_end_report p now (_global_delays pe) else [])),
            t1) /\
    pe_running (sampler (state t1)) = false /\ pe_open (sampler (state t1)) = false.
Proof.
  intros Hrun Hfree.
  destruct (end_sampling_total (set_shutdown_run true p) t rs Hfree)
    as (pe & t1 & Hend & Hsess & _ & Hstopped & Hclosed).
  exists pe, t1. split; [exact Hend|]. split; [|split; assumption].
  unfold shutdown, test_and_set. rewrite Hrun. simpl. rewrite Hend. simpl.
  destruct Hsess as (Hfl & Hfs & Hsr & Hst & Herr & _). simpl in *.
  unfold emit, delete_out, set_out, set_stderr, end_to_end_report. simpl.
  rewrite Hfl, Hfs, Hst, Herr, Hsr.
  destruct (bool_decide (is_Some (_fixed_line p)) && negb (_fixed_delay_size p =? -1));
    simpl; [reflexivity|].
  rewrite app_nil_r. reflexivity.
Qed.

End Shutdown.

(** ** Rounds *)

Lemma round_status_app (open : bool) (log1 log2 : list event) :
  round_status open (log1 ++ log2) =
    match round_status open log1 with
    | Some mid => round_status mid log2
    | None => None
    end.
Proof.
  revert open. induction log1 as [|e log1 IH]; intros open; simpl; [reflexivity|].
  destruct e, open; simpl; try apply IH; reflexivity.
Qed.

Lemma round_step_same (p p' : profiler) :
  out_events (_out p') = out_events (_out p) -> _selected_line p' = _selected_line p ->
  round_step p p'.
Proof.
  intros Hev Hsel. exists []. rewrite app_nil_r. split; [exact Hev|].
  unfold selected. rewrite Hsel. reflexivity.
Qed.

Lemma round_step_refl (p : profiler) : round_step p p.
Proof. apply round_step_same; reflexivity. Qed.

Lemma round_step_trans (p1 p2 p3 : profiler) :
  round_step p1 p2 -> round_step p2 p3 -> round_step p1 p3.
Proof.
  intros (n1 & Hev1 & Hst1) (n2 & Hev2 & Hst2). exists (n1 ++ n2). split.
  - rewrite Hev2, Hev1, app_assoc. reflexivity.
  - rewrite round_status_app, Hst1. exact Hst2.
Qed.

Section Rounds.
Context `{Tunables} `{Collaborators}.

(** The end of a round, as the loop body performs it: the sample that makes
    [_round_samples] equal to [MinRoundSamples] logs [end_round] with the
    delays of the round and the delay size, and clears the selected line;
    any other sample only counts. *)
Lemma count_round_sample_last (l : option line) (c : line)
    (p : profiler) (st : thread_state) :
  wrap (_round_samples p + 1) = MinRoundSamples ->
  fst (count_round_sample l (Some c) p st) =
    set_selected_line None
      (emit (ev_end_round (wrap (_global_delays p - _round_start_delays p))
               (_delay_size p))
         (set_round_samples MinRoundSamples p)).
Proof.
  intros Hlast. unfold count_round_sample. simpl. rewrite Hlast, Z.eqb_refl.
  destruct (decide (l = Some c)); reflexivity.
Qed.

Lemma count_round_sample_not_last (l : option line) (c : line)
    (p : profiler) (st : thread_state) :
  wrap (_round_samples p + 1) <> MinRoundSamples ->
  fst (count_round_sample l (Some c) p st) =
    set_round_samples (wrap (_round_samples p + 1)) p.
Proof.
  intros Hnot. unfold count_round_sample. simpl.
  destruct (Z.eqb_spec (wrap (_round_samples p + 1)) MinRoundSamples); [contradiction|].
  destruct (decide (l = Some c)); reflexivity.
Qed.

Lemma count_round_sample_round_step (l : option line) (c : line)
    (p : profiler) (st : thread_state) :
  _selected_line p = Some c ->
  round_step p (fst (count_round_sample l (Some c) p st)).
Proof.
  intros Hsel.
  destruct (Z.eq_dec (wrap (_round_samples p + 1)) MinRoundSamples) as [Hlast|Hnot].
  - rewrite count_round_sample_last by exact Hlast.
    eexists. split; [reflexivity|]. unfold selected. rewrite Hsel. reflexivity.
  - rewrite count_round_sample_not_last by exact Hnot.
    apply round_step_same; reflexivity.
Qed.

Lemma count_round_sample_none (l : option line) (p : profiler) (st : thread_state) :
  count_round_sample l None p st = (p, st).
Proof. reflexivity. Qed.

(** The start of a round from a state without selected line: the exchange
    succeeds, [start_round] is logged and the line is selected. *)
Lemma try_start_round_round_step (x : line) (p : profiler) :
  _selected_line p = None ->
  round_step p (fst (try_start_round x p)) /\
  snd (try_start_round x p) = Some x /\
  _selected_line (fst (try_start_round x p)) = Some x /\
  out_events (_out (fst (try_start_round x p))) =
    out_events (_out p) ++ [ev_start_round x].
Proof.
  intros Hsel. unfold try_start_round, compare_exchange_strong. rewrite Hsel.
  destruct (decide (None = None)) as [_|Hne]; [|contradiction]. simpl.
  assert (Hgoal : forall q : profiler,
    out_events (_out q) = out_events (_out p) -> _selected_line q = Some x ->
    round_step p (emit (ev_start_round x) q) /\ Some x = Some x /\
    _selected_line (emit (ev_start_round x) q) = Some x /\
    out_events (_out (emit (ev_start_round x) q)) =
      out_events (_out p) ++ [ev_start_round x]).
  { intros q Hev Hq. split_and?; [|reflexivity|exact Hq|simpl; rewrite Hev; reflexivity].
    exists [ev_start_round x]. split; [simpl; rewrite Hev; reflexivity|].
    unfold selected. rewrite Hsel. simpl. rewrite Hq. reflexivity. }
  destruct (_fixed_delay_size p =? -1); simpl.
  - destruct (delay_dist (_generator p)) as [drawn next]. simpl.
    apply Hgoal; reflexivity.
  - apply Hgoal; reflexivity.
Qed.

Lemma process_record_round_step (p : profiler) (st : thread_state) (r : record) :
  round_step p (fst (flow_value (process_record p st r))).
Proof.
  unfold process_record.
  destruct (is_sample r); [|apply round_step_refl].
  set (p0 := match find_containing_line r with
             | Some x => add_sample x p | None => p end).
  assert (Hp0 : round_step p p0).
  { subst p0. destruct (find_containing_line r); [|apply round_step_refl].
    apply round_step_same; reflexivity. }
  destruct (_selected_line p0) as [c|] eqn:Hsel.
  - simpl. eapply round_step_trans; [exact Hp0|].
    apply count_round_sample_round_step, Hsel.
  - set (l := match _fixed_line p0 with
              | Some f => Some f | None => find_containing_line r end).
    destruct l as [x|] eqn:Hl; simpl; [|exact Hp0].
    destruct (try_start_round_round_step x p0 Hsel) as (Hstart & Hcur & Hnow & _).
    destruct (try_start_round x p0) as [p1 current_line]. simpl in *. subst current_line.
    eapply round_step_trans; [exact Hp0|].
    eapply round_step_trans; [exact Hstart|].
    apply count_round_sample_round_step, Hnow.
Qed.

Lemma process_records_round_step (rs : list record) (p : profiler) (st : thread_state) :
  round_step p (fst (flow_value (process_records p st rs))).
Proof.
  revert p st. induction rs as [|r rest IH]; intros p st; simpl; [apply round_step_refl|].
  pose proof (process_record_round_step p st r) as Hr.
  destruct (process_record p st r) as [[p1 st1]|[p1 st1]]; simpl in *; [|exact Hr].
  eapply round_step_trans; [exact Hr | apply IH].
Qed.

Lemma add_delays_round_step (p : profiler) (st : thread_state) :
  round_step p (fst (add_delays p st)).
Proof.
  unfold add_delays.
  destruct (delay_count st >? _global_delays p); [apply round_step_same; reflexivity|].
  destruct (delay_count st <? _global_delays p); [|apply round_step_refl].
  destruct (excess_delay st >? _); apply round_step_refl.
Qed.

Lemma process_samples_round_step (p : profiler) (st : thread_state) (rs : list record) :
  round_step p (fst (process_samples p st rs)).
Proof.
  unfold process_samples.
  pose proof (process_records_round_step rs p (set_sampler (perf_stop (sampler st)) st))
    as Hloop.
  destruct (process_records p _ rs) as [[p1 st1]|[p1 st1]]; simpl in *; [|exact Hloop].
  pose proof (add_delays_round_step p1 st1) as Hadd.
  destruct (add_delays p1 st1) as [p2 st2]; simpl in *.
  eapply round_step_trans; eassumption.
Qed.

Lemma end_sampling_round_step (p p' : profiler) (t t' : thread) (rs : list record) :
  end_sampling p t rs = Some (p', t') -> round_step p p'.
Proof.
  unfold end_sampling. destruct (thread_state_get thread_context t) as [st|]; [|discriminate].
  simpl. pose proof (process_samples_round_step p st rs) as Hps.
  destruct (process_samples p st rs) as [p1 st1]. simpl in Hps.
  pose proof (add_delays_round_step p1 st1) as Hadd.
  destruct (add_delays p1 st1) as [p2 st2]. simpl in Hadd.
  intros Heq. inversion Heq; subst. eapply round_step_trans; eassumption.
Qed.

Lemma shutdown_round_step (p p' : profiler) (t t' : thread) (rs : list record) (now : Z) :
  shutdown p t rs now = Some (p', t') -> round_step p p'.
Proof.
  unfold shutdown, test_and_set. destruct (_shutdown_run p) eqn:Hrun; simpl.
  - intros Heq. inversion Heq; subst. apply round_step_same; reflexivity.
  - destruct (end_sampling (set_shutdown_run true p) t rs) as [[pe te]|] eqn:Hend;
      [|discriminate]. simpl.
    apply end_sampling_round_step in Hend.
    assert (Hbase : round_step p pe).
    { eapply round_step_trans; [|exact Hend]. apply round_step_same; reflexivity. }
    assert (Hdown : round_step pe (delete_out (emit ev_shutdown pe))).
    { exists [ev_shutdown]. split; reflexivity. }
    destruct (_ && _); intros Heq; inversion Heq; subst.
    + eapply round_step_trans; [exact Hbase|].
      eapply round_step_trans; [exact Hdown|]. apply round_step_same; reflexivity.
    + eapply round_step_trans; eassumption.
Qed.

End Rounds.

(** ** The global delay count *)

Lemma advances_refl (p : profiler) (st : thread_state) : advances p st p st.
Proof. intros Hp Hst. split_advances; [assumption..|lia]. Qed.

Lemma advances_trans (p1 p2 p3 : profiler) (s1 s2 s3 : thread_state) :
  advances p1 s1 p2 s2 -> advances p2 s2 p3 s3 -> advances p1 s1 p3 s3.
Proof.
  intros H12 H23 Hp Hs. destruct (H12 Hp Hs) as (Hp2 & Hs2 & Hle12).
  destruct (H23 Hp2 Hs2) as (Hp3 & Hs3 & Hle23). split_advances; [assumption..|lia].
Qed.

Lemma advances_sampler (p : profiler) (st : thread_state) (e : perf_event) :
  advances p st p (set_sampler e st).
Proof. intros Hp Hst. split_advances; [assumption..|lia]. Qed.

Section GlobalDelays.
Context `{Tunables} `{Collaborators}.

Lemma add_delays_advances (p : profiler) (st : thread_state) :
  advances p st (fst (add_delays p st)) (snd (add_delays p st)).
Proof.
  intros Hp Hst. pose proof Hp as (Hg & Hd & Hrs & Hrd). pose proof Hst as (Hc & He).
  unfold add_delays.
  destruct (Z.gtb_spec (delay_count st) (_global_delays p)) as [Hgt|Hle]; simpl.
  - rewrite wrap_add_back by (assumption || lia).
    split_advances; [split_wf_profiler; assumption|assumption|simpl; lia].
  - destruct (Z.ltb_spec (delay_count st) (_global_delays p)) as [Hlt|Hge]; simpl;
      [|split_advances; [assumption..|lia]].
    destruct (excess_delay st >? _); simpl;
      (split_advances; [assumption|split; [exact Hg|apply wrap_is_size_t]|lia]).
Qed.

Lemma count_round_sample_advances (l c : option line) (p : profiler) (st : thread_state) :
  advances p st (fst (count_round_sample l c p st)) (snd (count_round_sample l c p st)).
Proof.
  intros Hp Hst. pose proof Hp as (Hg & Hd & Hrs & Hrd). pose proof Hst as (Hc & He).
  unfold count_round_sample. destruct c as [c|]; simpl; [|split_advances; [assumption..|lia]].
  assert (Hst' : wf_thread_state
            (if decide (l = Some c) then set_delay_count (wrap (delay_count st + 1)) st
             else st)).
  { destruct (decide (l = Some c)); [|exact Hst]. split; [apply wrap_is_size_t|exact He]. }
  destruct (_ =? MinRoundSamples); simpl;
    (split_advances; [split_wf_profiler; auto with size_t|exact Hst'|simpl; lia]).
Qed.

Lemma try_start_round_advances (x : line) (p : profiler) (st : thread_state) :
  advances p st (fst (try_start_round x p)) st.
Proof.
  intros Hp Hst. pose proof Hp as (Hg & Hd & Hrs & Hrd).
  unfold try_start_round, compare_exchange_strong.
  destruct (decide (_selected_line p = None)); simpl; [|split_advances; [assumption..|lia]].
  assert (Hzero : is_size_t 0) by (unfold is_size_t, size_modulus; lia).
  destruct (_fixed_delay_size p =? -1); simpl.
  - destruct (delay_dist (_generator p)) as [drawn next]. simpl.
    split_advances; [split_wf_profiler; auto with size_t|exact Hst|simpl; lia].
  - split_advances; [split_wf_profiler; auto with size_t|exact Hst|simpl; lia].
Qed.

Lemma process_record_advances (p : profiler) (st : thread_state) (r : record) :
  advances p st (fst (flow_value (process_record p st r)))
    (snd (flow_value (process_record p st r))).
Proof.
  unfold process_record.
  destruct (is_sample r); [|apply advances_refl].
  set (p0 := match find_containing_line r with
             | Some x => add_sample x p | None => p end).
  assert (Hp0 : advances p st p0 st).
  { subst p0. destruct (find_containing_line r); [|apply advances_refl].
    intros Hp Hst. split_advances; [exact Hp|exact Hst|simpl; lia]. }
  destruct (_selected_line p0) as [c|] eqn:Hsel.
  - eapply advances_trans; [exact Hp0|].
    exact (count_round_sample_advances (find_containing_line r) (Some c) p0 st).
  - set (l := match _fixed_line p0 with
              | Some f => Some f | None => find_containing_line r end).
    destruct l as [x|] eqn:Hl; [|exact Hp0].
    pose proof (try_start_round_advances x p0 st) as Hstart.
    destruct (try_start_round x p0) as [p1 current_line].
    eapply advances_trans; [exact Hp0|].
    eapply advances_trans; [exact Hstart|].
    exact (count_round_sample_advances (Some x) current_line p1 st).
Qed.

Lemma process_records_advances (rs : list record) (p : profiler) (st : thread_state) :
  advances p st (fst (flow_value (process_records p st rs)))
    (snd (flow_value (process_records p st rs))).
Proof.
  revert p st. induction rs as [|r rest IH]; intros p st; simpl; [apply advances_refl|].
  pose proof (process_record_advances p st r) as Hr.
  destruct (process_record p st r) as [[p1 st1]|[p1 st1]]; simpl in *; [|exact Hr].
  eapply advances_trans; [exact Hr | apply IH].
Qed.

Lemma process_samples_advances (p : profiler) (st : thread_state) (rs : list record) :
  advances p st (fst (process_samples p st rs)) (snd (process_samples p st rs)).
Proof.
  unfold process_samples.
  eapply advances_trans; [apply (advances_sampler p st (perf_stop (sampler st)))|].
  pose proof (process_records_advances rs p (set_sampler (perf_stop (sampler st)) st))
    as Hloop.
  destruct (process_records p _ rs) as [[p1 st1]|[p1 st1]]; simpl in *; [|exact Hloop].
  eapply advances_trans; [exact Hloop|].
  pose proof (add_delays_advances p1 st1) as Hadd.
  destruct (add_delays p1 st1) as [p2 st2]; simpl in *.
  eapply advances_trans; [exact Hadd|]. apply advances_sampler.
Qed.

Lemma end_sampling_advances (p p' : profiler) (t t' : thread) (rs : list record) :
  end_sampling p t rs = Some (p', t') -> advances p (state t) p' (state t').
Proof.
  unfold end_sampling, thread_state_get. destruct (latch_held t); [discriminate|]. simpl.
  pose proof (process_samples_advances p (state t) rs) as Hps.
  destruct (process_samples p (state t) rs) as [p1 st1]. simpl in Hps.
  pose proof (add_delays_advances p1 st1) as Hadd.
  destruct (add_delays p1 st1) as [p2 st2]. simpl in Hadd.
  intros Heq. inversion Heq; subst. simpl.
  eapply advances_trans; [exact Hps|].
  eapply advances_trans; [exact Hadd|].
  eapply advances_trans; apply advances_sampler.
Qed.

Lemma shutdown_advances (p p' : profiler) (t t' : thread) (rs : list record) (now : Z) :
  shutdown p t rs now = Some (p', t') -> advances p (state t) p' (state t').
Proof.
  unfold shutdown, test_and_set. destruct (_shutdown_run p) eqn:Hrun; simpl.
  - intros Heq. inversion Heq; subst.
    intros Hp Hst. split_advances; [exact Hp|exact Hst|simpl; lia].
  - destruct (end_sampling (set_shutdown_run true p) t rs) as [[pe te]|] eqn:Hend;
      [|discriminate]. simpl.
    apply end_sampling_advances in Hend.
    assert (Hbase : advances p (state t) pe (state te)).
    { intros Hp Hst. apply Hend; assumption. }
    destruct (_ && _); intros Heq; inversion Heq; subst;
      (eapply advances_trans; [exact Hbase|]);
      (intros Hp Hst; split_advances; [exact Hp|exact Hst|simpl; lia]).
Qed.

End GlobalDelays.

(** ** Executions *)

Section ExecutionInvariants.
Context `{Tunables} `{Collaborators}.

Lemma end_sampling_session (p p' : profiler) (t t' : thread) (rs : list record) :
  end_sampling p t rs = Some (p', t') -> same_session p p'.
Proof.
  intros Hend. assert (Hfree : latch_held t = false).
  { unfold end_sampling, thread_state_get in Hend.
    destruct (latch_held t); [discriminate|reflexivity]. }
  destruct (end_sampling_total p t rs Hfree) as (p2 & t2 & Hend2 & Hsess & _).
  rewrite Hend in Hend2. inversion Hend2; subst. exact Hsess.
Qed.

Lemma shutdown_sets_flag (p p' : profiler) (t t' : thread) (rs : list record) (now : Z) :
  shutdown p t rs now = Some (p', t') -> _shutdown_run p' = true.
Proof.
  unfold shutdown, test_and_set. destruct (_shutdown_run p) eqn:Hrun; simpl.
  - intros Heq. inversion Heq; subst. reflexivity.
  - destruct (end_sampling (set_shutdown_run true p) t rs) as [[pe te]|] eqn:Hend;
      [|discriminate]. simpl.
    apply end_sampling_session in Hend. destruct Hend as (_ & _ & Hflag & _).
    simpl in Hflag.
    destruct (_ && _); intros Heq; inversion Heq; subst; simpl; exact Hflag.
Qed.

(** What every step does: it reads the thread [who], writes one thread and
    the profiler; the round calls it makes alternate, the shutdown flag stays
    set once set, and well-formedness and the order of the global delay count
    are kept. *)
Lemma step_inv (s s' : system) (who : tid) (a : action) :
  step s who a = Some s' ->
  exists t who' t',
    sys_threads s !! who = Some t /\
    s' = mk_system (sys_profiler s') (<[who' := t']> (sys_threads s)) /\
    round_step (sys_profiler s) (sys_profiler s') /\
    (_shutdown_run (sys_profiler s) = true -> _shutdown_run (sys_profiler s') = true) /\
    advances (sys_profiler s) (state t) (sys_profiler s') (state t').
Proof.
  unfold step. destruct (sys_threads s !! who) as [t|] eqn:Ht; [|discriminate]. simpl.
  intros Hstep. exists t.
  destruct a as [r| |rs| | | | |rs|rs now|child init fn arg|rs].
  - (* one iteration of the loop *)
    pose proof (process_record_round_step (sys_profiler s) (state t) r) as Hround.
    pose proof (process_record_frame (sys_profiler s) (state t) r) as [Hframe _].
    pose proof (process_record_advances (sys_profiler s) (state t) r) as Hadv.
    destruct (flow_value (process_record (sys_profiler s) (state t) r)) as [p1 st1].
    inversion Hstep; subst; clear Hstep. simpl in *.
    exists who, (set_state st1 t).
    split_and?; [reflexivity|reflexivity|exact Hround| |exact Hadv].
    destruct Hframe as (_ & _ & _ & Hflag & _). congruence.
  - (* add_delays *)
    pose proof (add_delays_round_step (sys_profiler s) (state t)) as Hround.
    pose proof (add_delays_session (sys_profiler s) (state t)) as Hsess.
    pose proof (add_delays_advances (sys_profiler s) (state t)) as Hadv.
    destruct (add_delays (sys_profiler s) (state t)) as [p1 st1].
    inversion Hstep; subst; clear Hstep. simpl in *.
    exists who, (set_state st1 t).
    split_and?; [reflexivity|reflexivity|exact Hround| |exact Hadv].
    destruct Hsess as (_ & _ & Hflag & _). congruence.
  - (* samples_ready *)
    unfold samples_ready, thread_state_get in Hstep.
    destruct (latch_held t).
    + inversion Hstep; subst; clear Hstep. simpl.
      exists who, t.
      split_and?; [reflexivity|reflexivity|apply round_step_refl|trivial|apply advances_refl].
    + pose proof (process_samples_round_step (sys_profiler s) (state t) rs) as Hround.
      pose proof (process_samples_session (sys_profiler s) (state t) rs) as Hsess.
      pose proof (process_samples_advances (sys_profiler s) (state t) rs) as Hadv.
      destruct (process_samples (sys_profiler s) (state t) rs) as [p1 st1].
      inversion Hstep; subst; clear Hstep. simpl in *.
      exists who, (set_state st1 t).
      split_and?; [reflexivity|reflexivity|exact Hround| |exact Hadv].
      destruct Hsess as (_ & _ & Hflag & _). congruence.
  - (* snapshot_delays *)
    unfold snapshot_delays, thread_state_get in Hstep.
    destruct (latch_held t); [discriminate|]. simpl in Hstep.
    inversion Hstep; subst; clear Hstep. simpl.
    eexists who, _.
    split_and?; [reflexivity|reflexivity|apply round_step_refl|trivial|].
    intros Hp Hst. split_advances; [exact Hp|exact Hst|lia].
  - (* skip_delays *)
    unfold skip_delays, thread_state_get in Hstep.
    destruct (latch_held t); [discriminate|]. simpl in Hstep.
    inversion Hstep; subst; clear Hstep. simpl.
    eexists who, _.
    split_and?; [reflexivity|reflexivity|apply round_step_refl|trivial|].
    intros Hp [Hc He]. split_advances; [exact Hp| |lia].
    split; [apply wrap_is_size_t|exact He].
  - (* catch_up *)
    unfold catch_up, thread_state_get in Hstep.
    destruct (latch_held t); [discriminate|]. simpl in Hstep.
    pose proof (add_delays_round_step (sys_profiler s) (state t)) as Hround.
    pose proof (add_delays_session (sys_profiler s) (state t)) as Hsess.
    pose proof (add_delays_advances (sys_profiler s) (state t)) as Hadv.
    destruct (add_delays (sys_profiler s) (state t)) as [p1 st1].
    inversion Hstep; subst; clear Hstep. simpl in *.
    exists who, (set_state st1 t).
    split_and?; [reflexivity|reflexivity|exact Hround| |exact Hadv].
    destruct Hsess as (_ & _ & Hflag & _). congruence.
  - (* begin_sampling *)
    unfold begin_sampling, thread_state_get in Hstep.
    destruct (latch_held t); [discriminate|]. simpl in Hstep.
    inversion Hstep; subst; clear Hstep. simpl.
    eexists who, _.
    split_and?; [reflexivity|reflexivity|apply round_step_refl|trivial|].
    intros Hp Hst. split_advances; [exact Hp|exact Hst|lia].
  - (* end_sampling *)
    destruct (end_sampling (sys_profiler s) t rs) as [[p1 t1]|] eqn:Hend;
      [|discriminate]. simpl in Hstep.
    inversion Hstep; subst; clear Hstep. simpl.
    exists who, t1. split_and?; [reflexivity|reflexivity| | |].
    + eapply end_sampling_round_step, Hend.
    + apply end_sampling_session in Hend. destruct Hend as (_ & _ & Hflag & _). congruence.
    + eapply end_sampling_advances, Hend.
  - (* shutdown *)
    destruct (shutdown (sys_profiler s) t rs now) as [[p1 t1]|] eqn:Hdown;
      [|discriminate]. simpl in Hstep.
    inversion Hstep; subst; clear Hstep. simpl.
    exists who, t1. split_and?; [reflexivity|reflexivity| | |].
    + eapply shutdown_round_step, Hdown.
    + intros _. eapply shutdown_sets_flag, Hdown.
    + eapply shutdown_advances, Hdown.
  - (* pthread_create *)
    unfold handle_pthread_create, thread_state_get in Hstep.
    destruct (latch_held t); [discriminate|]. simpl in Hstep.
    destruct (sys_threads s !! child); [discriminate|].
    unfold start_thread_setup, begin_sampling, thread_state_get in Hstep.
    simpl in Hstep. inversion Hstep; subst; clear Hstep. simpl.
    eexists child, _.
    split_and?; [reflexivity|reflexivity|apply round_step_refl|trivial|].
    intros Hp Hst. split_advances; [exact Hp|exact Hst|lia].
  - (* pthread_exit *)
    unfold handle_pthread_exit in Hstep.
    destruct (end_sampling (sys_profiler s) t rs) as [[p1 t1]|] eqn:Hend;
      [|discriminate]. simpl in Hstep.
    inversion Hstep; subst; clear Hstep. simpl.
    exists who, t1. split_and?; [reflexivity|reflexivity| | |].
    + eapply end_sampling_round_step, Hend.
    + apply end_sampling_session in Hend. destruct Hend as (_ & _ & Hflag & _). congruence.
    + eapply end_sampling_advances, Hend.
Qed.

Lemma step_wf (s s' : system) (who : tid) (a : action) :
  step s who a = Some s' -> wf_system s ->
  wf_system s' /\
  _global_delays (sys_profiler s) <= _global_delays (sys_profiler s').
Proof.
  intros Hstep [Hp Hthreads].
  destruct (step_inv s s' who a Hstep) as (t & who' & t' & Ht & Hs' & _ & _ & Hadv).
  destruct (Hadv Hp (Hthreads who t Ht)) as (Hp' & Hst' & Hle).
  split; [|exact Hle]. split; [exact Hp'|].
  rewrite Hs'. simpl. apply map_Forall_insert_2; assumption.
Qed.

Lemma run_wf (sched : schedule) (s s' : system) :
  run s sched = Some s' -> wf_system s ->
  wf_system s' /\
  _global_delays (sys_profiler s) <= _global_delays (sys_profiler s').
Proof.
  revert s. induction sched as [|[who a] rest IH]; intros s; simpl.
  - intros Heq Hwf. inversion Heq; subst. split; [exact Hwf|lia].
  - destruct (step s who a) as [s1|] eqn:Hstep; [|discriminate]. simpl.
    intros Hrun Hwf. destruct (step_wf s s1 who a Hstep Hwf) as [Hwf1 Hle1].
    destruct (IH s1 Hrun Hwf1) as [Hwf' Hle']. split; [exact Hwf'|lia].
Qed.

Lemma run_round_step (sched : schedule) (s s' : system) :
  run s sched = Some s' -> round_step (sys_profiler s) (sys_profiler s').
Proof.
  revert s. induction sched as [|[who a] rest IH]; intros s; simpl.
  - intros Heq. inversion Heq; subst. apply round_step_refl.
  - destruct (step s who a) as [s1|] eqn:Hstep; [|discriminate]. simpl.
    intros Hrun. destruct (step_inv s s1 who a Hstep) as (_ & _ & _ & _ & _ & Hround & _).
    eapply round_step_trans; [exact Hround | apply IH, Hrun].
Qed.

(** Invariant of the rounds: in every state an execution reaches from a
    state where the log and the selected line agree, they agree. *)
Lemma run_rounds_consistent (sched : schedule) (s s' : system) :
  run s sched = Some s' -> rounds_consistent (sys_profiler s) ->
  rounds_consistent (sys_profiler s').
Proof.
  intros Hrun Hcons. destruct (run_round_step sched s s' Hrun) as (new & Hnew & Hstatus).
  unfold rounds_consistent in *. rewrite Hnew, round_status_app, Hcons. exact Hstatus.
Qed.

Lemma run_keeps_flag (sched : schedule) (s s' : system) :
  run s sched = Some s' -> _shutdown_run (sys_profiler s) = true ->
  _shutdown_run (sys_profiler s') = true.
Proof.
  revert s. induction sched as [|[who a] rest IH]; intros s; simpl.
  - intros Heq. inversion Heq; subst. trivial.
  - destruct (step s who a) as [s1|] eqn:Hstep; [|discriminate]. simpl.
    intros Hrun Hflag.
    destruct (step_inv s s1 who a Hstep) as (_ & _ & _ & _ & _ & _ & Hkeep & _).
    apply (IH s1 Hrun), Hkeep, Hflag.
Qed.

End ExecutionInvariants.

(** ** The claims about executions *)

Section Sessions.
Context `{Tunables} `{Collaborators}.

Lemma startup_counters_global (names : list string) (p : profiler) :
  _global_delays
    (foldl (fun p line_name =>
              match find_line_by_name line_name with
              | Some l => register_counter line_name l p
              | None => p
              end) p names) = _global_delays p.
Proof.
  revert p. induction names as [|name names IH]; intros p; simpl; [reflexivity|].
  rewrite IH. destruct (find_line_by_name name); reflexivity.
Qed.

Lemma startup_global_delays (p p' : profiler) (t t' : thread)
    (output_filename : string) (source_progress_names : list string)
    (fixed_line_name : string) (fixed_speedup now : Z) :
  startup p t output_filename source_progress_names fixed_line_name fixed_speedup now
    = Some (p', t') ->
  _global_delays p' = _global_delays p.
Proof.
  unfold startup. destruct (begin_sampling t) as [t1|]; [|discriminate]. simpl.
  intros Heq. inversion Heq; subst; clear Heq. simpl.
  rewrite startup_counters_global. simpl.
  destruct (negb _), (_ && _); reflexivity.
Qed.

(** C4. [_global_delays] never goes down. Along every execution, whatever
    the threads, their steps and the interleaving, the count at the end is at
    least the count at the start, hence so between any two of its states;
    [startup] leaves the count as it is. The state is assumed well formed:
    the counters hold values of [size_t]. *)
Theorem global_delays_monotone (s s' : system) (sched : schedule) :
  wf_system s -> run s sched = Some s' ->
  _global_delays (sys_profiler s) <= _global_delays (sys_profiler s') /\
  wf_system s' /\
  (forall (t t1 : thread) (p1 : profiler) (output_filename : string)
          (source_progress_names : list string) (fixed_line_name : string)
          (fixed_speedup now : Z),
      startup (sys_profiler s) t output_filename source_progress_names
        fixed_line_name fixed_speedup now = Some (p1, t1) ->
      _global_delays p1 = _global_delays (sys_profiler s)).
Proof.
  intros Hwf Hrun. destruct (run_wf sched s s' Hrun Hwf) as [Hwf' Hle].
  split; [exact Hle|]. split; [exact Hwf'|].
  intros t t1 p1 f names fl fs now Hstart. eapply startup_global_delays, Hstart.
Qed.

(** A sample processed while a line is selected. *)
Lemma process_record_in_round (p : profiler) (st : thread_state) (r : record) (c : line) :
  is_sample r = true -> _selected_line p = Some c ->
  let p' := fst (flow_value (process_record p st r)) in
  if decide (wrap (_round_samples p + 1) = MinRoundSamples) then
    out_events (_out p') =
      out_events (_out p) ++
        [ev_end_round (wrap (_global_delays p - _round_start_delays p)) (_delay_size p)] /\
    _selected_line p' = None
  else
    out_events (_out p') = out_events (_out p) /\ _selected_line p' = Some c.
Proof.
  intros Hs Hsel. unfold process_record. rewrite Hs.
  set (p0 := match find_containing_line r with
             | Some x => add_sample x p | None => p end).
  assert (Hp0 : _selected_line p0 = Some c /\ out_events (_out p0) = out_events (_out p) /\
                _round_samples p0 = _round_samples p /\
                _global_delays p0 = _global_delays p /\
                _round_start_delays p0 = _round_start_delays p /\
                _delay_size p0 = _delay_size p).
  { subst p0. destruct (find_containing_line r); simpl; repeat split; exact Hsel. }
  destruct Hp0 as (Hsel0 & Hev0 & Hrs0 & Hg0 & Hrd0 & Hd0). rewrite Hsel0.
  cbv zeta. cbn [flow_value].
  destruct (decide (wrap (_round_samples p + 1) = MinRoundSamples)) as [Hlast|Hnot].
  - rewrite count_round_sample_last by (rewrite Hrs0; exact Hlast). simpl.
    rewrite Hev0, Hg0, Hrd0, Hd0. split; reflexivity.
  - rewrite count_round_sample_not_last by (rewrite Hrs0; exact Hnot). simpl.
    split; assumption.
Qed.

(** C6. The [shutdown] that tears down (flag clear, latch free) appends to
    standard error, exactly when a fixed line is set and
    [_fixed_delay_size] is not the sentinel -1, the one line
    ["%f\t%lu\n"]: the quotient of [_fixed_delay_size] by [SamplePeriod] as
    a [float], a tab, the effective time
    [(now - _start_time) - _global_delays * _fixed_delay_size] in [size_t]
    arithmetic, a newline; otherwise it writes nothing. The effective time
    is the exact difference when the delays fit in the run time. *)
Theorem shutdown_end_to_end_report (p : profiler) (t : thread)
    (rs : list record) (now : Z) :
  _shutdown_run p = false -> latch_held t = false ->
  exists p' t',
    shutdown p t rs now = Some (p', t') /\
    (is_Some (_fixed_line p) /\ _fixed_delay_size p <> -1 ->
     stderr p' =
       stderr p ++
         [item_float_quotient (_fixed_delay_size p) SamplePeriod;
          item_tab;
          item_ulong (wrap (wrap (now - _start_time p) -
                            wrap (_global_delays p' * _fixed_delay_size p)));
          item_newline]) /\
    (~ (is_Some (_fixed_line p) /\ _fixed_delay_size p <> -1) ->
     stderr p' = stderr p) /\
    (is_size_t now -> is_size_t (_start_time p) -> _start_time p <= now ->
     0 <= _global_delays p' * _fixed_delay_size p <= now - _start_time p ->
     wrap (wrap (now - _start_time p) - wrap (_global_delays p' * _fixed_delay_size p)) =
       (now - _start_time p) - _global_delays p' * _fixed_delay_size p).
Proof.
  intros Hrun Hfree.
  destruct (shutdown_first p t rs now Hrun Hfree) as (pe & t1 & _ & Hdown & _).
  eexists. exists t1. split; [exact Hdown|]. simpl. split_and?.
  - intros [Hline Hsize].
    rewrite bool_decide_eq_true_2 by exact Hline.
    destruct (Z.eqb_spec (_fixed_delay_size p) (-1)); [contradiction|]. reflexivity.
  - intros Hnot.
    destruct (bool_decide (is_Some (_fixed_line p))) eqn:Hline;
      [|simpl; apply app_nil_r].
    destruct (Z.eqb_spec (_fixed_delay_size p) (-1)); simpl; [apply app_nil_r|].
    exfalso. apply Hnot. split; [|assumption].
    apply bool_decide_eq_true_1 in Hline. exact Hline.
  - intros Hnow Hstart Hle Hfit. unfold is_size_t in *.
    rewrite (wrap_id (now - _start_time p)) by (unfold is_size_t; lia).
    rewrite (wrap_id (_global_delays pe * _fixed_delay_size p)) by (unfold is_size_t; lia).
    apply wrap_id. unfold is_size_t. lia.
Qed.

(** C7. [shutdown] is idempotent. The call that finds the flag clear sets
    it and tears down: [end_sampling] on the calling thread, the shutdown
    call on the sink, the destruction of the sink, the end-to-end report
    when configured. A call that finds the flag set returns at once, with
    the profiler and the thread as they were, on any thread and even with
    the latch held. In an execution, once a [shutdown] has run, every later
    [shutdown] step of any thread leaves the whole system as it is. *)
Theorem shutdown_idempotent :
  (forall (p : profiler) (t : thread) (rs : list record) (now : Z),
      _shutdown_run p = false -> latch_held t = false ->
      exists pe t1 p1,
        end_sampling (set_shutdown_run true p) t rs = Some (pe, t1) /\
        shutdown p t rs now = Some (p1, t1) /\
        out_events (_out p1) = out_events (_out pe) ++ [ev_shutdown] /\
        out_deleted (_out p1) = true /\
        _shutdown_run p1 = true /\
        pe_open (sampler (state t1)) = false /\
        stderr p1 =
          stderr p ++
            (if bool_decide (is_Some (_fixed_line p)) && negb (_fixed_delay_size p =? -1)
             then end_to_end_report p now (_global_delays pe) else [])) /\
  (forall (p : profiler) (t : thread) (rs : list record) (now : Z),
      _shutdown_run p = true -> shutdown p t rs now = Some (p, t)) /\
  (forall (s s1 s2 : system) (who who2 : tid) (rs rs2 : list record) (now now2 : Z)
          (sched : schedule),
      step s who (act_shutdown rs now) = Some s1 ->
      run s1 sched = Some s2 ->
      is_Some (sys_threads s2 !! who2) ->
      step s2 who2 (act_shutdown rs2 now2) = Some s2).
Proof.
  split_and?.
  - intros p t rs now Hrun Hfree.
    destruct (shutdown_first p t rs now Hrun Hfree) as (pe & t1 & Hend & Hdown & _ & Hclosed).
    exists pe, t1. eexists. split; [exact Hend|]. split; [exact Hdown|].
    simpl. split_and?; try reflexivity. exact Hclosed.
  - intros p t rs now Hrun. apply shutdown_after_shutdown, Hrun.
  - intros s s1 s2 who who2 rs rs2 now now2 sched Hfirst Hrun [t2 Ht2].
    assert (Hflag : _shutdown_run (sys_profiler s2) = true).
    { apply (run_keeps_flag sched s1 s2 Hrun).
      unfold step in Hfirst. destruct (sys_threads s !! who) as [t|]; [|discriminate].
      simpl in Hfirst.
      destruct (shutdown (sys_profiler s) t rs now) as [[p1 t1]|] eqn:Hdown;
        [|discriminate].
      simpl in Hfirst. inversion Hfirst; subst. simpl.
      eapply shutdown_sets_flag, Hdown. }
    unfold step. rewrite Ht2. simpl.
    rewrite shutdown_after_shutdown by exact Hflag. simpl.
    unfold put_thread. rewrite insert_id by exact Ht2. destruct s2; reflexivity.
Qed.

End Sessions.

(** * Further properties of the code *)

(** ** Resolving a sample to a line *)

Section Resolution.
Context `{Collaborators}.

Lemma walk_callchain_first_hit (chain : list Z) (l : line) :
  walk_callchain chain = Some l <->
  exists before pc after,
    chain = before ++ pc :: after /\
    Forall (fun a => find_line a = None) before /\
    find_line pc = Some l.
Proof.
  induction chain as [|a rest IH]; simpl.
  - split; [discriminate|]. intros (before & pc & after & Heq & _).
    destruct before; discriminate.
  - destruct (find_line a) as [la|] eqn:Ha.
    + split.
      * intros Heq. inversion Heq; subst. exists [], a, rest. split_and?; [reflexivity|constructor|exact Ha].
      * intros (before & pc & after & Heq & Hnone & Hpc).
        destruct before as [|b before]; simpl in Heq; inversion Heq; subst.
        -- congruence.
        -- inversion Hnone; subst. congruence.
    + rewrite IH. split.
      * intros (before & pc & after & Heq & Hnone & Hpc).
        exists (a :: before), pc, after. split_and?; [rewrite Heq; reflexivity| |exact Hpc].
        constructor; assumption.
      * intros (before & pc & after & Heq & Hnone & Hpc).
        destruct before as [|b before]; simpl in Heq; inversion Heq; subst.
        -- congruence.
        -- inversion Hnone; subst. exists before, pc, after. split_and?; done.
Qed.

Lemma walk_callchain_no_hit (chain : list Z) :
  walk_callchain chain = None <-> Forall (fun a => find_line a = None) chain.
Proof.
  induction chain as [|a rest IH]; simpl.
  - split; [constructor|reflexivity].
  - destruct (find_line a) as [la|] eqn:Ha.
    + split; [discriminate|]. intros Hall. inversion Hall; subst. congruence.
    + rewrite IH. split; [intros Hrest; constructor; assumption|].
      intros Hall. inversion Hall; subst. assumption.
Qed.

(** X1. [find_containing_line] gives the line of the first address, among
    the instruction pointer followed by the callchain in order, that the
    address map knows; it gives no line exactly when the record is not a
    sample or the map knows none of these addresses. *)
Theorem find_containing_line_first_hit (r : record) :
  (forall l : line,
      find_containing_line r = Some l <->
      is_sample r = true /\
      exists before pc after,
        get_ip r :: get_callchain r = before ++ pc :: after /\
        Forall (fun a => find_line a = None) before /\
        find_line pc = Some l) /\
  (find_containing_line r = None <->
   is_sample r = false \/
   Forall (fun a => find_line a = None) (get_ip r :: get_callchain r)).
Proof.
  assert (Hwalk : find_containing_line r =
                  if is_sample r then walk_callchain (get_ip r :: get_callchain r) else None).
  { unfold find_containing_line. destruct (is_sample r); simpl; [|reflexivity].
    destruct (find_line (get_ip r)); reflexivity. }
  rewrite Hwalk. destruct (is_sample r); split.
  - intros l. rewrite walk_callchain_first_hit. split; [intros Hhit; split; [reflexivity|exact Hhit]|].
    intros [_ Hhit]. exact Hhit.
  - rewrite walk_callchain_no_hit. split; [intros Hall; right; exact Hall|].
    intros [Hno|Hall]; [discriminate|exact Hall].
  - intros l. split; [discriminate|]. intros [Hno _]. discriminate.
  - split; [intros _; left; reflexivity|reflexivity].
Qed.

End Resolution.

(** ** Reconciling a thread with the global delay count *)

Section Reconciliation.
Context `{Collaborators}.

(** [add_delays] leaves the thread level with the global count. *)
Lemma add_delays_reaches_level (p : profiler) (st : thread_state) :
  is_size_t (delay_count st) -> is_size_t (_global_delays p) ->
  delay_count (snd (add_delays p st)) = _global_delays (fst (add_delays p st)).
Proof.
  intros Hc Hg. unfold add_delays.
  destruct (Z.gtb_spec (delay_count st) (_global_delays p)) as [Hgt|Hle]; simpl.
  - rewrite wrap_add_back by (assumption || lia). reflexivity.
  - destruct (Z.ltb_spec (delay_count st) (_global_delays p)) as [Hlt|Hge]; simpl; [|lia].
    destruct (excess_delay st >? _); reflexivity.
Qed.

(** X2. After [add_delays] the thread is level with the global delay
    count, whichever branch was taken, and a second [add_delays] right after
    changes nothing: it adds no delay and requests no pause. *)
Theorem add_delays_levels (p : profiler) (st : thread_state) :
  is_size_t (delay_count st) -> is_size_t (_global_delays p) ->
  delay_count (snd (add_delays p st)) = _global_delays (fst (add_delays p st)) /\
  add_delays (fst (add_delays p st)) (snd (add_delays p st)) = add_delays p st.
Proof.
  intros Hc Hg. pose proof (add_delays_reaches_level p st Hc Hg) as Hlevel.
  split; [exact Hlevel|].
  rewrite add_delays_level by exact Hlevel. destruct (add_delays p st); reflexivity.
Qed.

(** X3. The pause of a thread that is behind, accounted for: the credit it
    had plus the time it slept in the call equals the delay it owed,
    [w = (g - delay_count) * d], plus the credit it is left with. It sleeps
    only when its credit does not exceed [w], and then for what the credit
    does not cover. The sleep primitive is assumed to report at least the
    requested time, as a [size_t]. *)
Theorem add_delays_pays_the_delay (p : profiler) (st : thread_state) :
  is_size_t (delay_count st) -> is_size_t (excess_delay st) ->
  is_size_t (_global_delays p) ->
  delay_count st < _global_delays p ->
  let w := wrap ((_global_delays p - delay_count st) * _delay_size p) in
  let slept := if excess_delay st >? w then 0 else wait (w - excess_delay st) in
  (excess_delay st <= w -> w - excess_delay st <= wait (w - excess_delay st) < size_modulus) ->
  excess_delay st + slept = w + excess_delay (snd (add_delays p st)) /\
  is_size_t (excess_delay (snd (add_delays p st))).
Proof.
  intros Hc He Hg Hlt w slept Hwait.
  rewrite add_delays_behind by assumption. cbv zeta. fold w.
  assert (Hw : is_size_t w) by apply wrap_is_size_t.
  subst slept. destruct (Z.gtb_spec (excess_delay st) w) as [Hgt|Hle]; simpl.
  - split; [lia|]. unfold is_size_t in *. lia.
  - specialize (Hwait Hle).
    rewrite wrap_id by (unfold is_size_t in *; lia).
    split; [lia|]. unfold is_size_t in *. lia.
Qed.

End Reconciliation.

(** ** The loop over the buffer *)

Section Buffers.
Context `{Tunables} `{Collaborators}.

Lemma process_record_not_sample (p : profiler) (st : thread_state) (r : record) :
  is_sample r = false -> process_record p st r = Continue (p, st).
Proof. intros Hs. unfold process_record. rewrite Hs. reflexivity. Qed.

(** X4. Records that are not samples play no part: the loop over a buffer
    and the loop over its samples alone end in the same way with the same
    state, and so does [process_samples]. *)
Theorem process_samples_ignores_other_records (p : profiler) (st : thread_state)
    (rs : list record) :
  process_records p st rs =
    process_records p st (filter (fun r => is_sample r = true) rs) /\
  process_samples p st rs =
    process_samples p st (filter (fun r => is_sample r = true) rs).
Proof.
  assert (Hloop : forall p st,
    process_records p st rs
    = process_records p st (filter (fun r => is_sample r = true) rs)).
  { clear p st. induction rs as [|r rest IH]; intros p st; [reflexivity|].
    destruct (is_sample r) eqn:Hs.
    - rewrite filter_cons_True by exact Hs. simpl.
      destruct (process_record p st r) as [[p1 st1]|x]; [apply IH|reflexivity].
    - rewrite filter_cons_False by congruence. simpl.
      rewrite process_record_not_sample by exact Hs. apply IH. }
  split; [apply Hloop|]. unfold process_samples. rewrite <- Hloop. reflexivity.
Qed.

(** The sample counters after one iteration. *)
Lemma count_round_sample_line_samples (l c : option line) (p : profiler) (st : thread_state) :
  line_samples (fst (count_round_sample l c p st)) = line_samples p.
Proof.
  unfold count_round_sample. destruct c as [c|]; simpl; [|reflexivity].
  destruct (decide (l = Some c)), (_ =? MinRoundSamples); reflexivity.
Qed.

Lemma try_start_round_line_samples (x : line) (p : profiler) :
  line_samples (fst (try_start_round x p)) = line_samples p.
Proof.
  unfold try_start_round, compare_exchange_strong.
  destruct (decide (_selected_line p = None)); simpl; [|reflexivity].
  destruct (_fixed_delay_size p =? -1); simpl; [|reflexivity].
  destruct (delay_dist (_generator p)); reflexivity.
Qed.

Lemma process_record_line_samples (p : profiler) (st : thread_state) (r : record) :
  line_samples (fst (flow_value (process_record p st r))) =
    match find_containing_line r with
    | Some x => <[x := default 0 (line_samples p !! x) + 1]> (line_samples p)
    | None => line_samples p
    end.
Proof.
  unfold process_record. destruct (is_sample r) eqn:Hs.
  - set (p0 := match find_containing_line r with
               | Some x => add_sample x p | None => p end).
    assert (Hp0 : line_samples p0 =
                  match find_containing_line r with
                  | Some x => <[x := default 0 (line_samples p !! x) + 1]> (line_samples p)
                  | None => line_samples p
                  end).
    { subst p0. destruct (find_containing_line r); reflexivity. }
    rewrite <- Hp0. destruct (_selected_line p0) as [c|].
    + apply (count_round_sample_line_samples (find_containing_line r) (Some c) p0 st).
    + destruct (match _fixed_line p0 with
                | Some f => Some f | None => find_containing_line r end) as [x|];
        [|reflexivity].
      pose proof (try_start_round_line_samples x p0) as Hstart.
      destruct (try_start_round x p0) as [p1 current_line]. simpl in *.
      rewrite <- Hstart.
      apply (count_round_sample_line_samples (Some x) current_line p1 st).
  - simpl. unfold find_containing_line. rewrite Hs. reflexivity.
Qed.

(** X5. Attribution of samples: when the loop gets through the buffer, the
    sample counter of every line has grown by the number of records of the
    buffer that [find_containing_line] resolves to that line, whatever rounds
    started or ended on the way. *)
Theorem process_records_attributes_samples (rs : list record) (p p' : profiler)
    (st st' : thread_state) (l : line) :
  process_records p st rs = Continue (p', st') ->
  default 0 (line_samples p' !! l) =
    default 0 (line_samples p !! l) +
    Z.of_nat (length (filter (fun r => find_containing_line r = Some l) rs)).
Proof.
  revert p st. induction rs as [|r rest IH]; intros p st; simpl.
  - intros Heq. inversion Heq; subst. simpl. lia.
  - pose proof (process_record_line_samples p st r) as Hone.
    destruct (process_record p st r) as [[p1 st1]|x]; [|discriminate]. simpl in Hone.
    intros Hrest. rewrite (IH p1 st1 Hrest), Hone.
    destruct (find_containing_line r) as [x|] eqn:Hline.
    + destruct (decide (x = l)) as [->|Hne].
      * rewrite filter_cons_True by exact Hline. rewrite lookup_insert_eq.
        cbn [from_option length id]. lia.
      * rewrite filter_cons_False by congruence. rewrite lookup_insert_ne by exact Hne. lia.
    + rewrite filter_cons_False by congruence. lia.
Qed.

(** One sample processed while line [c] is selected and the round goes on. *)
Lemma process_record_counts (p : profiler) (st : thread_state) (r : record) (c : line) :
  is_sample r = true -> _selected_line p = Some c ->
  is_size_t (_round_samples p) -> is_size_t (delay_count st) ->
  _round_samples p + 1 < MinRoundSamples -> MinRoundSamples <= size_modulus ->
  delay_count st + 1 < size_modulus ->
  exists p' st',
    process_record p st r = Continue (p', st') /\
    _selected_line p' = Some c /\
    _round_samples p' = _round_samples p + 1 /\
    delay_count st' =
      delay_count st + (if decide (find_containing_line r = Some c) then 1 else 0) /\
    out_events (_out p') = out_events (_out p) /\
    _global_delays p' = _global_delays p.
Proof.
  intros Hs Hsel Hrs Hdc Hround Hmin Hfit. unfold process_record. rewrite Hs.
  set (p0 := match find_containing_line r with
             | Some x => add_sample x p | None => p end).
  assert (Hp0 : _selected_line p0 = Some c /\ _round_samples p0 = _round_samples p /\
                out_events (_out p0) = out_events (_out p) /\
                _global_delays p0 = _global_delays p).
  { subst p0. destruct (find_containing_line r); simpl; repeat split; exact Hsel. }
  destruct Hp0 as (Hsel0 & Hrs0 & Hev0 & Hg0). rewrite Hsel0.
  unfold count_round_sample, increment_round_samples. rewrite Hrs0.
  assert (Hinc : wrap (_round_samples p + 1) = _round_samples p + 1).
  { apply wrap_id. unfold is_size_t in *. lia. }
  rewrite Hinc. destruct (Z.eqb_spec (_round_samples p + 1) MinRoundSamples); [lia|].
  eexists. eexists. split; [reflexivity|]. simpl.
  split_and?; try assumption; try reflexivity.
  destruct (decide (find_containing_line r = Some c)); simpl; [|lia].
  apply wrap_id. unfold is_size_t in *. lia.
Qed.

(** X6. A buffer of samples processed inside a round that it does not
    finish: every sample counts towards the round, in or out of scope, and
    the thread earns one delay for each sample in the selected line and for
    no other. Nothing reaches the sink and the global count stays. *)
Theorem process_records_in_round (rs : list record) (p : profiler) (st : thread_state)
    (c : line) :
  Forall (fun r => is_sample r = true) rs ->
  _selected_line p = Some c ->
  is_size_t (_round_samples p) -> is_size_t (delay_count st) ->
  _round_samples p + Z.of_nat (length rs) < MinRoundSamples ->
  MinRoundSamples <= size_modulus ->
  delay_count st + Z.of_nat (length rs) < size_modulus ->
  exists p' st',
    process_records p st rs = Continue (p', st') /\
    _selected_line p' = Some c /\
    _round_samples p' = _round_samples p + Z.of_nat (length rs) /\
    delay_count st' =
      delay_count st +
      Z.of_nat (length (filter (fun r => find_containing_line r = Some c) rs)) /\
    out_events (_out p') = out_events (_out p) /\
    _global_delays p' = _global_delays p.
Proof.
  revert p st. induction rs as [|r rest IH]; intros p st Hall Hsel Hrs Hdc Hround Hmin Hfit.
  - exists p, st. simpl. split_and?; try reflexivity; try assumption; lia.
  - inversion Hall as [|? ? Hs Hrest]; subst. simpl length in *.
    destruct (process_record_counts p st r c Hs Hsel Hrs Hdc) as
      (p1 & st1 & Hone & Hsel1 & Hrs1 & Hdc1 & Hev1 & Hg1); [lia..|].
    assert (Hfilter : (length (filter (fun r => find_containing_line r = Some c) rest)
                       <= length rest)%nat) by apply length_filter.
    destruct (IH p1 st1 Hrest Hsel1) as (p' & st' & Hloop & Hsel' & Hrs' & Hdc' & Hev' & Hg').
    + rewrite Hrs1. unfold is_size_t in *. lia.
    + rewrite Hdc1. destruct (decide _); unfold is_size_t in *; lia.
    + lia.
    + exact Hmin.
    + rewrite Hdc1. destruct (decide _); lia.
    + exists p', st'. simpl. rewrite Hone. split; [exact Hloop|].
      split; [exact Hsel'|]. split; [lia|]. split; [|split; congruence].
      rewrite Hdc', Hdc1. destruct (decide (find_containing_line r = Some c)) as [Hin|Hout].
      * rewrite filter_cons_True by exact Hin. simpl length. lia.
      * rewrite filter_cons_False by exact Hout. lia.
Qed.

End Buffers.

(** ** The start of a round *)

Section RoundStart.
Context `{Tunables} `{Collaborators}.

(** The delay size a round starts with. *)
Lemma try_start_round_delay_size (x : line) (p : profiler) :
  _selected_line p = None ->
  _delay_size (fst (try_start_round x p)) =
    (if _fixed_delay_size p =? -1
     then wrap (Z.quot (wrap (fst (delay_dist (_generator p)) * SamplePeriod))
                 SpeedupDivisions)
     else wrap (_fixed_delay_size p)) /\
  _round_samples (fst (try_start_round x p)) = 0 /\
  _round_start_delays (fst (try_start_round x p)) = _global_delays p /\
  _global_delays (fst (try_start_round x p)) = _global_delays p /\
  _fixed_line (fst (try_start_round x p)) = _fixed_line p /\
  _fixed_delay_size (fst (try_start_round x p)) = _fixed_delay_size p.
Proof.
  intros Hsel. unfold try_start_round, compare_exchange_strong. rewrite Hsel.
  destruct (decide (None = None)) as [_|Hne]; [|contradiction]. simpl.
  destruct (_fixed_delay_size p =? -1); simpl.
  - destruct (delay_dist (_generator p)) as [drawn next]. simpl. repeat split.
  - repeat split.
Qed.

(** X7. A sample met between rounds opens a round whenever there is a line
    to open it on: the fixed line when one is configured, even for a sample
    out of scope or in another line, else the line of the sample. The round
    starts on that line, [start_round] is logged, [_round_start_delays] takes
    the global count, the sample is the first of the round and earns the
    thread a delay. When [MinRoundSamples] is 1 the same sample closes the
    round, with no delay in it. *)
Theorem process_record_starts_round (p : profiler) (st : thread_state) (r : record)
    (x : line) :
  is_sample r = true -> _selected_line p = None ->
  round_target (_fixed_line p) (find_containing_line r) = Some x ->
  exists p' st',
    process_record p st r = Continue (p', st') /\
    delay_count st' = wrap (delay_count st + 1) /\
    _round_samples p' = 1 /\
    _round_start_delays p' = _global_delays p /\
    _global_delays p' = _global_delays p /\
    (MinRoundSamples <> 1 ->
     _selected_line p' = Some x /\
     out_events (_out p') = out_events (_out p) ++ [ev_start_round x]) /\
    (MinRoundSamples = 1 ->
     _selected_line p' = None /\
     out_events (_out p') =
       out_events (_out p) ++ [ev_start_round x; ev_end_round 0 (_delay_size p')]).
Proof.
  intros Hs Hsel Htarget. unfold process_record. rewrite Hs.
  set (p0 := match find_containing_line r with
             | Some y => add_sample y p | None => p end).
  assert (Hp0 : _selected_line p0 = None /\ _fixed_line p0 = _fixed_line p /\
                out_events (_out p0) = out_events (_out p) /\
                _global_delays p0 = _global_delays p).
  { subst p0. destruct (find_containing_line r); simpl; repeat split; exact Hsel. }
  destruct Hp0 as (Hsel0 & Hfix0 & Hev0 & Hg0). rewrite Hsel0, Hfix0.
  unfold round_target in Htarget. rewrite Htarget.
  destruct (try_start_round_round_step x p0 Hsel0) as (_ & Hcur & Hnow & Hlog).
  destruct (try_start_round_delay_size x p0 Hsel0) as (_ & Hzero & Hstart & Hglobal & _).
  destruct (try_start_round x p0) as [p1 current_line]. simpl in *. subst current_line.
  unfold count_round_sample, increment_round_samples. rewrite Hzero.
  destruct (decide (Some x = Some x)) as [_|Hne]; [|contradiction].
  change (wrap (0 + 1)) with 1.
  destruct (Z.eqb_spec 1 MinRoundSamples) as [Hone|Hmore].
  - eexists. eexists. split; [reflexivity|]. simpl.
    split; [reflexivity|]. split; [reflexivity|]. split; [congruence|]. split; [congruence|].
    split; [intros Hne; congruence|]. intros _. split; [reflexivity|].
    rewrite Hlog, Hev0, Hglobal, Hstart, <- app_assoc. simpl.
    replace (_global_delays p0 - _global_delays p0) with 0 by lia. reflexivity.
  - eexists. eexists. split; [reflexivity|]. simpl.
    split; [reflexivity|]. split; [reflexivity|]. split; [congruence|]. split; [congruence|].
    split; [|intros Hone; congruence]. intros _. split; [exact Hnow|].
    rewrite Hlog, Hev0. reflexivity.
Qed.

End RoundStart.

(** ** Invariants of executions *)

(** A property of the profiler that one iteration of the loop of
    [process_samples] and [add_delays] keep, and that does not look at the
    sink, the shutdown flag or standard error, holds along every execution:
    every operation of the profiler is made of these. *)
Section ProfilerInvariants.
Context `{Tunables} `{Collaborators}.
Variable Inv : profiler -> Prop.
Hypothesis Inv_counters : forall p p', same_counters p p' -> Inv p -> Inv p'.
Hypothesis Inv_record : forall p st r,
  Inv p -> Inv (fst (flow_value (process_record p st r))).
Hypothesis Inv_delays : forall p st, Inv p -> Inv (fst (add_delays p st)).

Lemma process_records_invariant (rs : list record) (p : profiler) (st : thread_state) :
  Inv p -> Inv (fst (flow_value (process_records p st rs))).
Proof using All.
  revert p st. induction rs as [|r rest IH]; intros p st HI; simpl; [exact HI|].
  pose proof (Inv_record p st r HI) as Hone.
  destruct (process_record p st r) as [[p1 st1]|[p1 st1]]; simpl in *; [|exact Hone].
  apply IH; assumption.
Qed.

Lemma process_samples_invariant (p : profiler) (st : thread_state) (rs : list record) :
  Inv p -> Inv (fst (process_samples p st rs)).
Proof using All.
  intros HI. unfold process_samples.
  set (st0 := set_sampler (perf_stop (sampler st)) st).
  pose proof (process_records_invariant rs p st0 HI) as Hloop.
  destruct (process_records p st0 rs) as [[p1 st1]|[p1 st1]]; simpl in *; [|exact Hloop].
  pose proof (Inv_delays p1 st1 Hloop) as Hadd.
  destruct (add_delays p1 st1) as [p2 st2]. exact Hadd.
Qed.

Lemma end_sampling_invariant (p p' : profiler) (t t' : thread) (rs : list record) :
  end_sampling p t rs = Some (p', t') -> Inv p -> Inv p'.
Proof using All.
  unfold end_sampling, thread_state_get. destruct (latch_held t); [discriminate|]. simpl.
  intros Heq HI.
  pose proof (process_samples_invariant p (state t) rs HI) as Hps.
  destruct (process_samples p (state t) rs) as [p1 st1]. simpl in *.
  pose proof (Inv_delays p1 st1 Hps) as Hadd.
  destruct (add_delays p1 st1) as [p2 st2]. inversion Heq; subst. exact Hadd.
Qed.

Lemma shutdown_invariant (p p' : profiler) (t t' : thread) (rs : list record) (now : Z) :
  shutdown p t rs now = Some (p', t') -> Inv p -> Inv p'.
Proof using All.
  unfold shutdown, test_and_set. destruct (_shutdown_run p) eqn:Hrun; simpl.
  - intros Heq HI. inversion Heq; subst.
    apply (Inv_counters p); [repeat split|exact HI].
  - destruct (end_sampling (set_shutdown_run true p) t rs) as [[pe te]|] eqn:Hend;
      [|discriminate]. simpl.
    intros Heq HI.
    assert (Hpe : Inv pe).
    { apply (end_sampling_invariant _ _ _ _ _ Hend).
      apply (Inv_counters p); [repeat split|exact HI]. }
    destruct (_ && _); inversion Heq; subst;
      (apply (Inv_counters pe); [repeat split|exact Hpe]).
Qed.

Lemma step_invariant (s s' : system) (who : tid) (a : action) :
  step s who a = Some s' -> Inv (sys_profiler s) -> Inv (sys_profiler s').
Proof using All.
  intros Hstep. unfold step in Hstep.
  destruct (sys_threads s !! who) as [t|] eqn:Ht; [|discriminate]. simpl in Hstep.
  intros HI.
  destruct a as [r| |rs| | | | |rs|rs now|child init fn arg|rs].
  - pose proof (Inv_record (sys_profiler s) (state t) r HI) as Hone.
    destruct (flow_value (process_record (sys_profiler s) (state t) r)) as [p1 st1].
    inversion Hstep; subst. exact Hone.
  - pose proof (Inv_delays (sys_profiler s) (state t) HI) as Hadd.
    destruct (add_delays (sys_profiler s) (state t)) as [p1 st1].
    inversion Hstep; subst. exact Hadd.
  - unfold samples_ready, thread_state_get in Hstep. destruct (latch_held t).
    + inversion Hstep; subst. exact HI.
    + pose proof (process_samples_invariant (sys_profiler s) (state t) rs HI) as Hps.
      destruct (process_samples (sys_profiler s) (state t) rs) as [p1 st1].
      inversion Hstep; subst. exact Hps.
  - destruct (snapshot_delays (sys_profiler s) t); [|discriminate].
    inversion Hstep; subst. exact HI.
  - destruct (skip_delays (sys_profiler s) t); [|discriminate].
    inversion Hstep; subst. exact HI.
  - unfold catch_up, thread_state_get in Hstep. destruct (latch_held t); [discriminate|].
    simpl in Hstep.
    pose proof (Inv_delays (sys_profiler s) (state t) HI) as Hadd.
    destruct (add_delays (sys_profiler s) (state t)) as [p1 st1].
    inversion Hstep; subst. exact Hadd.
  - destruct (begin_sampling t); [|discriminate]. inversion Hstep; subst. exact HI.
  - destruct (end_sampling (sys_profiler s) t rs) as [[p1 t1]|] eqn:Hend; [|discriminate].
    inversion Hstep; subst. eapply end_sampling_invariant; eassumption.
  - destruct (shutdown (sys_profiler s) t rs now) as [[p1 t1]|] eqn:Hdown; [|discriminate].
    inversion Hstep; subst. eapply shutdown_invariant; eassumption.
  - destruct (handle_pthread_create t fn arg); [|discriminate]. simpl in Hstep.
    destruct (sys_threads s !! child); [discriminate|].
    inversion Hstep; subst. exact HI.
  - unfold handle_pthread_exit in Hstep.
    destruct (end_sampling (sys_profiler s) t rs) as [[p1 t1]|] eqn:Hend; [|discriminate].
    inversion Hstep; subst. eapply end_sampling_invariant; eassumption.
Qed.

Lemma run_invariant (sched : schedule) (s s' : system) :
  run s sched = Some s' -> Inv (sys_profiler s) -> Inv (sys_profiler s').
Proof using All.
  revert s. induction sched as [|[who a] rest IH]; intros s; simpl.
  - intros Heq HI. inversion Heq; subst. exact HI.
  - destruct (step s who a) as [s1|] eqn:Hstep; [|discriminate]. simpl.
    intros Hrun HI. apply (IH s1 Hrun). apply (step_invariant s s1 who a Hstep HI).
Qed.

End ProfilerInvariants.

(** The same for an invariant that holds of well-formed states only: the
    two hypotheses on the loop body and the delay engine may use that the
    counters hold values of [size_t]. *)
Section WellFormedInvariants.
Context `{Tunables} `{Collaborators}.
Variable Inv : profiler -> Prop.
Hypothesis Inv_counters : forall p p', same_counters p p' -> Inv p -> Inv p'.
Hypothesis Inv_record : forall p st r,
  wf_profiler p -> wf_thread_state st -> Inv p ->
  Inv (fst (flow_value (process_record p st r))).
Hypothesis Inv_delays : forall p st,
  wf_profiler p -> wf_thread_state st -> Inv p -> Inv (fst (add_delays p st)).







End WellFormedInvariants.

(** ** What one iteration does to the counters *)

Section IterationCases.
Context `{Tunables} `{Collaborators}.

Lemma count_round_sample_fields (l : option line) (c : line) (p : profiler)
    (st : thread_state) :
  let q := fst (count_round_sample l (Some c) p st) in
  _round_samples q = wrap (_round_samples p + 1) /\
  _selected_line q =
    (if wrap (_round_samples p + 1) =? MinRoundSamples then None else _selected_line p) /\
  _delay_size q = _delay_size p /\ _global_delays q = _global_delays p /\
  _round_start_delays q = _round_start_delays p /\
  _fixed_line q = _fixed_line p /\ _fixed_delay_size q = _fixed_delay_size p /\
  _start_time q = _start_time p.
Proof.
  unfold count_round_sample, increment_round_samples. simpl.
  destruct (decide (l = Some c)), (_ =? MinRoundSamples); simpl; repeat split.
Qed.

Lemma try_start_round_fields (x : line) (p : profiler) :
  _selected_line p = None ->
  let q := fst (try_start_round x p) in
  snd (try_start_round x p) = Some x /\
  _selected_line q = Some x /\
  _round_samples q = 0 /\
  _round_start_delays q = _global_delays p /\
  _global_delays q = _global_delays p /\
  _delay_size q =
    (if _fixed_delay_size p =? -1
     then wrap (Z.quot (wrap (fst (delay_dist (_generator p)) * SamplePeriod))
                 SpeedupDivisions)
     else wrap (_fixed_delay_size p)) /\
  _fixed_line q = _fixed_line p /\ _fixed_delay_size q = _fixed_delay_size p /\
  _start_time q = _start_time p.
Proof.
  intros Hsel. cbv zeta.
  destruct (try_start_round_round_step x p Hsel) as (_ & Hcur & Hnow & _).
  destruct (try_start_round_delay_size x p Hsel) as (Hd & Hrs & Hrd & Hg & Hfl & Hfs).
  split_and?; try assumption.
  unfold try_start_round, compare_exchange_strong. rewrite Hsel.
  destruct (decide (None = None)) as [_|Hne]; [|contradiction]. simpl.
  destruct (_fixed_delay_size p =? -1); simpl; [|reflexivity].
  destruct (delay_dist (_generator p)); reflexivity.
Qed.

(** The three ways an iteration goes: nothing but, possibly, a sample
    counted for a line; a sample counted in the round in progress; a round
    started on the target line and its first sample counted. *)
Lemma process_record_cases (p : profiler) (st : thread_state) (r : record) :
  exists p0,
    same_settings p p0 /\
    (fst (flow_value (process_record p st r)) = p0 \/
     (exists l c,
         _selected_line p = Some c /\
         fst (flow_value (process_record p st r)) = fst (count_round_sample l (Some c) p0 st)) \/
     (exists x,
         _selected_line p = None /\
         round_target (_fixed_line p) (find_containing_line r) = Some x /\
         fst (flow_value (process_record p st r)) =
           fst (count_round_sample (Some x) (Some x) (fst (try_start_round x p0)) st))).
Proof.
  unfold process_record. destruct (is_sample r).
  - set (p0 := match find_containing_line r with
               | Some y => add_sample y p | None => p end).
    assert (Hp0 : same_settings p p0).
    { subst p0. destruct (find_containing_line r); repeat split. }
    exists p0. split; [exact Hp0|].
    destruct Hp0 as (Hsel & _ & _ & _ & _ & Hfl & _). rewrite Hsel, Hfl.
    destruct (_selected_line p) as [c|] eqn:Hc.
    + right. left. exists (find_containing_line r), c. split; reflexivity.
    + fold (round_target (_fixed_line p) (find_containing_line r)).
      destruct (round_target (_fixed_line p) (find_containing_line r)) as [x|] eqn:Htarget;
        [|left; reflexivity].
      right. right. exists x. split; [reflexivity|]. split; [reflexivity|].
      assert (Hsel0 : _selected_line p0 = None) by congruence.
      destruct (try_start_round_fields x p0 Hsel0) as (Hcur & _).
      destruct (try_start_round x p0) as [p1 current_line]. simpl in *. subst current_line.
      reflexivity.
  - exists p. split; [repeat split|]. left. reflexivity.
Qed.

Lemma add_delays_settings (p : profiler) (st : thread_state) :
  let q := fst (add_delays p st) in
  line_samples q = line_samples p /\ _selected_line q = _selected_line p /\
  _delay_size q = _delay_size p /\ _round_samples q = _round_samples p /\
  _round_start_delays q = _round_start_delays p /\
  _fixed_line q = _fixed_line p /\ _fixed_delay_size q = _fixed_delay_size p /\
  _generator q = _generator p /\ _start_time q = _start_time p.
Proof.
  unfold add_delays.
  destruct (delay_count st >? _global_delays p); [repeat split|].
  destruct (delay_count st <? _global_delays p); [|repeat split].
  destruct (excess_delay st >? _); repeat split.
Qed.

End IterationCases.

(** ** Invariants of the rounds and of the configuration *)

Section RoundInvariants.
Context `{Tunables} `{Collaborators}.

(** No step touches the configuration. *)
Lemma run_keeps_configuration (sched : schedule) (s s' : system) :
  run s sched = Some s' ->
  _fixed_line (sys_profiler s') = _fixed_line (sys_profiler s) /\
  _fixed_delay_size (sys_profiler s') = _fixed_delay_size (sys_profiler s) /\
  _start_time (sys_profiler s') = _start_time (sys_profiler s).
Proof.
  intros Hrun.
  apply (run_invariant
           (fun p => _fixed_line p = _fixed_line (sys_profiler s) /\
                     _fixed_delay_size p = _fixed_delay_size (sys_profiler s) /\
                     _start_time p = _start_time (sys_profiler s))) with (sched := sched)
    (s := s); [| | |exact Hrun|repeat split].
  - intros p p' (_ & _ & _ & _ & _ & _ & Hfl & Hfs & _ & Hst) (H1 & H2 & H3).
    split_and?; congruence.
  - intros p st r (H1 & H2 & H3).
    destruct (process_record_frame p st r) as [(Hfl & Hfs & _ & _ & Hst & _) _].
    split_and?; congruence.
  - intros p st (H1 & H2 & H3).
    destruct (add_delays_session p st) as (Hfl & Hfs & _ & Hst & _).
    split_and?; congruence.
Qed.

(** X8. The configuration is read-only: no execution, whatever its threads
    and steps, changes the fixed line, the fixed delay size or the start
    time that [startup] left. *)
Theorem configuration_is_read_only (s s' : system) (sched : schedule) :
  run s sched = Some s' ->
  _fixed_line (sys_profiler s') = _fixed_line (sys_profiler s) /\
  _fixed_delay_size (sys_profiler s') = _fixed_delay_size (sys_profiler s) /\
  _start_time (sys_profiler s') = _start_time (sys_profiler s).
Proof. apply run_keeps_configuration. Qed.

Lemma process_record_selected (p : profiler) (st : thread_state) (r : record) :
  let q := fst (flow_value (process_record p st r)) in
  _selected_line q = _selected_line p \/ _selected_line q = None \/
  (_selected_line p = None /\
   _selected_line q = round_target (_fixed_line p) (find_containing_line r)).
Proof.
  cbv zeta. destruct (process_record_cases p st r) as (p0 & Hp0 & Hcases).
  destruct Hp0 as (Hsel0 & _).
  destruct Hcases as [Hres|[(l & c & Hsel & Hres)|(x & Hsel & Htarget & Hres)]];
    rewrite Hres.
  - left. exact Hsel0.
  - destruct (count_round_sample_fields l c p0 st) as (_ & Hq & _). rewrite Hq.
    destruct (_ =? MinRoundSamples); [right; left; reflexivity|left; exact Hsel0].
  - assert (Hnone : _selected_line p0 = None) by congruence.
    destruct (try_start_round_fields x p0 Hnone) as (_ & Hnow & _).
    destruct (count_round_sample_fields (Some x) x (fst (try_start_round x p0)) st)
      as (_ & Hq & _). rewrite Hq.
    destruct (_ =? MinRoundSamples); [right; left; reflexivity|].
    right. right. split; [exact Hsel|]. rewrite Hnow, Htarget. reflexivity.
Qed.

(** X9. With a fixed line configured, no round is ever on another line: in
    every state an execution reaches from a state between rounds, the
    selected line is nil or the fixed line. *)
Theorem fixed_line_locks_rounds (s s' : system) (sched : schedule) (f : line) :
  run s sched = Some s' ->
  _fixed_line (sys_profiler s) = Some f ->
  _selected_line (sys_profiler s) = None ->
  _selected_line (sys_profiler s') = None \/ _selected_line (sys_profiler s') = Some f.
Proof.
  intros Hrun Hfixed Hsel.
  apply (run_invariant
           (fun p => _fixed_line p = Some f /\
                     (_selected_line p = None \/ _selected_line p = Some f)))
    with (sched := sched) (s := s); [| | |exact Hrun|split; [exact Hfixed|left; exact Hsel]].
  - intros p p' (_ & Hs & _ & _ & _ & _ & Hfl & _) (H1 & H2).
    split; [congruence|]. rewrite Hs. exact H2.
  - intros p st r (H1 & H2).
    destruct (process_record_frame p st r) as [(Hfl & _) _].
    split; [congruence|].
    destruct (process_record_selected p st r) as [Hq|[Hq|[_ Hq]]]; rewrite Hq.
    + exact H2.
    + left. reflexivity.
    + rewrite H1. right. reflexivity.
  - intros p st (H1 & H2).
    destruct (add_delays_settings p st) as (_ & Hs & _ & _ & _ & Hfl & _).
    split; [congruence|]. rewrite Hs. exact H2.
Qed.

(** The bound on the delay size a round starts with: the product the
    source forms in [size_t] is exact when the largest one,
    [SpeedupDivisions * SamplePeriod], fits. *)
Lemma drawn_delay_bounded (drawn : Z) :
  0 <= SamplePeriod -> 0 < SpeedupDivisions ->
  SpeedupDivisions * SamplePeriod < size_modulus ->
  0 <= drawn <= SpeedupDivisions ->
  0 <= wrap (Z.quot (wrap (drawn * SamplePeriod)) SpeedupDivisions) <= SamplePeriod /\
  wrap (Z.quot (wrap (drawn * SamplePeriod)) SpeedupDivisions) =
    drawn * SamplePeriod / SpeedupDivisions.
Proof.
  intros Hsp Hsd Hfit Hdrawn.
  assert (Hprod : wrap (drawn * SamplePeriod) = drawn * SamplePeriod).
  { apply wrap_id. unfold is_size_t. nia. }
  rewrite Hprod.
  assert (Hq : 0 <= Z.quot (drawn * SamplePeriod) SpeedupDivisions <= SamplePeriod).
  { rewrite Z.quot_div_nonneg by nia. split; [apply Z.div_pos; nia|].
    apply Z.div_le_upper_bound; nia. }
  rewrite wrap_id by (unfold is_size_t; nia).
  split; [exact Hq|]. apply Z.quot_div_nonneg; nia.
Qed.

(** The delay size along an execution of whole operations. *)
Lemma run_delay_size (sched : schedule) (s s' : system) :
  0 <= SamplePeriod -> 0 < SpeedupDivisions ->
  SpeedupDivisions * SamplePeriod < size_modulus ->
  (forall g, 0 <= fst (delay_dist g) <= SpeedupDivisions) ->
  _fixed_delay_size (sys_profiler s) = -1 \/
    0 <= _fixed_delay_size (sys_profiler s) <= SamplePeriod ->
  0 <= _delay_size (sys_profiler s) <= SamplePeriod ->
  run s sched = Some s' ->
  0 <= _delay_size (sys_profiler s') <= SamplePeriod.
Proof.
  intros Hsp Hsd Hfit Hdist Hfixed Hsize Hrun.
  assert (Hperiod : SamplePeriod < size_modulus) by nia.
  apply (run_invariant
           (fun p => (_fixed_delay_size p = -1 \/ 0 <= _fixed_delay_size p <= SamplePeriod) /\
                     0 <= _delay_size p <= SamplePeriod))
    with (sched := sched) (s := s); [| | |exact Hrun|split; assumption].
  - intros p p' (_ & _ & Hd & _ & _ & _ & _ & Hfs & _) (H1 & H2).
    rewrite Hd, Hfs. split; assumption.
  - intros p st r (H1 & H2).
    destruct (process_record_cases p st r) as (p0 & Hp0 & Hcases).
    destruct Hp0 as (Hs0 & Hd0 & _ & _ & _ & _ & Hfs0 & _).
    destruct Hcases as [Hres|[(l & c & Hsel & Hres)|(x & Hsel & Htarget & Hres)]];
      rewrite Hres.
    + rewrite Hd0, Hfs0. split; assumption.
    + destruct (count_round_sample_fields l c p0 st) as (_ & _ & Hd & _ & _ & _ & Hfs & _).
      rewrite Hd, Hfs, Hd0, Hfs0. split; assumption.
    + assert (Hnone : _selected_line p0 = None) by congruence.
      destruct (try_start_round_fields x p0 Hnone)
        as (_ & _ & _ & _ & _ & Hd1 & _ & Hfs1 & _).
      destruct (count_round_sample_fields (Some x) x (fst (try_start_round x p0)) st)
        as (_ & _ & Hd & _ & _ & _ & Hfs & _).
      rewrite Hd, Hfs, Hd1, Hfs1, Hfs0. split; [exact H1|].
      destruct (Z.eqb_spec (_fixed_delay_size p) (-1)) as [_|Hset].
      * apply drawn_delay_bounded; [assumption..|apply Hdist].
      * destruct H1 as [H1|H1]; [contradiction|].
        rewrite wrap_id by (unfold is_size_t; lia). exact H1.
  - intros p st (H1 & H2).
    destruct (add_delays_settings p st) as (_ & _ & Hd & _ & _ & _ & Hfs & _).
    rewrite Hd, Hfs. split; assumption.
Qed.


End RoundInvariants.

(** ** Calls that end in the delay engine *)

Section Calls.
Context `{Tunables} `{Collaborators}.

Lemma process_samples_wf (p : profiler) (st : thread_state) (rs : list record) :
  wf_profiler p -> wf_thread_state st ->
  wf_profiler (fst (process_samples p st rs)) /\
  wf_thread_state (snd (process_samples p st rs)).
Proof.
  intros Hp Hst. destruct (process_samples_advances p st rs Hp Hst) as (Hp' & Hst' & _).
  split; assumption.
Qed.

(** X13. [end_sampling], and with it [handle_pthread_exit], always
    reconciles the thread: whatever is buffered, also when the loop of
    [process_samples] returned early and skipped its own [add_delays], the
    thread ends level with the global delay count, its sampler stopped and
    closed. [catch_up] leaves the thread level as well. *)
Theorem end_sampling_reconciles (p : profiler) (t : thread) (rs : list record) :
  wf_profiler p -> wf_thread_state (state t) -> latch_held t = false ->
  (exists p' t',
      end_sampling p t rs = Some (p', t') /\
      handle_pthread_exit p t rs = Some (p', t') /\
      delay_count (state t') = _global_delays p' /\
      pe_running (sampler (state t')) = false /\
      pe_open (sampler (state t')) = false) /\
  (exists p' t',
      catch_up p t = Some (p', t') /\
      delay_count (state t') = _global_delays p').
Proof.
  intros Hp Hst Hfree. split.
  - unfold handle_pthread_exit, end_sampling.
    rewrite (thread_state_get_free _ _ Hfree). simpl.
    destruct (process_samples_wf p (state t) rs Hp Hst) as [(Hg1 & _) (Hc1 & _)].
    destruct (process_samples p (state t) rs) as [p1 st1]. simpl in *.
    pose proof (add_delays_reaches_level p1 st1 Hc1 Hg1) as Hlevel.
    destruct (add_delays p1 st1) as [p2 st2]. simpl in *.
    eexists. eexists. split; [reflexivity|]. split; [reflexivity|]. simpl.
    split; [exact Hlevel|]. split; reflexivity.
  - unfold catch_up. rewrite (thread_state_get_free _ _ Hfree). simpl.
    destruct Hp as (Hg & _). destruct Hst as (Hc & _).
    pose proof (add_delays_reaches_level p (state t) Hc Hg) as Hlevel.
    destruct (add_delays p (state t)) as [p2 st2]. simpl in *.
    eexists. eexists. split; [reflexivity|]. exact Hlevel.
Qed.

(** The snapshots survive the sample handler. *)
Lemma process_samples_snapshots (p : profiler) (st : thread_state) (rs : list record) :
  global_delay_snapshot (snd (process_samples p st rs)) = global_delay_snapshot st /\
  local_delay_snapshot (snd (process_samples p st rs)) = local_delay_snapshot st.
Proof.
  unfold process_samples.
  pose proof (process_records_frame rs p (set_sampler (perf_stop (sampler st)) st))
    as [_ (_ & _ & _ & Hgs & Hls)].
  destruct (process_records p _ rs) as [[p1 st1]|[p1 st1]]; simpl in *;
    [|split; assumption].
  assert (Hadd : global_delay_snapshot (snd (add_delays p1 st1)) = global_delay_snapshot st1 /\
                 local_delay_snapshot (snd (add_delays p1 st1)) = local_delay_snapshot st1).
  { unfold add_delays.
    destruct (delay_count st1 >? _global_delays p1); [split; reflexivity|].
    destruct (delay_count st1 <? _global_delays p1); [|split; reflexivity].
    destruct (excess_delay st1 >? _); split; reflexivity. }
  destruct (add_delays p1 st1) as [p2 st2]. simpl in *.
  destruct Hadd as [Hg2 Hl2]. split; congruence.
Qed.

(** X14. [skip_delays] overrides what the sample handler did since the
    snapshot: after [snapshot_delays], any run of [samples_ready] on the
    thread, and [skip_delays], the delay count is the one of the snapshot plus
    the delays issued globally since, whatever delays the handler had counted
    or paid for the thread in between. *)
Theorem skip_delays_overrides_handler (p p1 p3 : profiler) (t : thread)
    (rs : list record) :
  latch_held t = false ->
  exists t1 t3,
    snapshot_delays p t = Some t1 /\
    skip_delays p3 (snd (samples_ready p1 t1 rs)) = Some t3 /\
    delay_count (state t3) =
      wrap (delay_count (state t) + wrap (_global_delays p3 - _global_delays p)).
Proof.
  intros Hfree.
  set (t1 := set_state
               (set_local_delay_snapshot (delay_count (state t))
                  (set_global_delay_snapshot (_global_delays p) (state t))) t).
  assert (Hsnap : snapshot_delays p t = Some t1).
  { unfold snapshot_delays. rewrite (thread_state_get_free _ _ Hfree). reflexivity. }
  assert (Hfree1 : latch_held t1 = false) by exact Hfree.
  destruct (process_samples_snapshots p1 (state t1) rs) as [Hgs Hls].
  set (t2 := set_state (snd (process_samples p1 (state t1) rs)) t1).
  assert (Hready : snd (samples_ready p1 t1 rs) = t2).
  { rewrite (samples_ready_latch_free p1 t1 rs Hfree1). reflexivity. }
  assert (Hfree2 : latch_held t2 = false) by exact Hfree.
  exists t1. eexists. split; [exact Hsnap|]. rewrite Hready.
  split; [apply (skip_delays_result p3 t2 Hfree2)|].
  unfold t2. cbn [state set_state delay_count set_delay_count].
  rewrite Hgs, Hls. reflexivity.
Qed.

End Calls.

(** ** Startup and the session *)

Section Session.
Context `{Tunables} `{Collaborators}.

Lemma startup_counters (names : list string) (p : profiler) :
  let q := foldl (fun p line_name =>
                    match find_line_by_name line_name with
                    | Some l => register_counter line_name l p
                    | None => p
                    end) p names in
  out_events (_out q) = out_events (_out p) ++ registered_counters names /\
  out_deleted (_out q) = out_deleted (_out p) /\
  out_filename (_out q) = out_filename (_out p) /\
  same_counters p q /\ stderr q = stderr p /\ _shutdown_run q = _shutdown_run p.
Proof.
  revert p. induction names as [|name names IH]; intros p; cbv zeta; simpl.
  - rewrite app_nil_r. repeat split.
  - destruct (IH (match find_line_by_name name with
                  | Some l => register_counter name l p | None => p end))
      as (Hev & Hdel & Hfn & Hsame & Herr & Hflag).
    cbv zeta in *. rewrite Hev, Hdel, Hfn, Herr, Hflag.
    unfold registered_counters. simpl.
    destruct (find_line_by_name name) as [l|]; simpl.
    + rewrite <- app_assoc. split_and?; try reflexivity.
      destruct Hsame as (?&?&?&?&?&?&?&?&?&?). repeat split; assumption.
    + split_and?; try reflexivity. exact Hsame.
Qed.

(** What [startup] leaves, field by field. *)
Lemma startup_result (p : profiler) (t : thread) (output_filename : string)
    (source_progress_names : list string) (fixed_line_name : string)
    (fixed_speedup now : Z) :
  latch_held t = false ->
  exists p' t',
    startup p t output_filename source_progress_names fixed_line_name fixed_speedup now
      = Some (p', t') /\
    out_events (_out p') =
      registered_counters source_progress_names ++ [ev_startup SamplePeriod] /\
    out_deleted (_out p') = false /\ out_filename (_out p') = output_filename /\
    _start_time p' = now /\
    _fixed_line p' =
      (if String.eqb fixed_line_name EmptyString then _fixed_line p
       else find_line_by_name fixed_line_name) /\
    _fixed_delay_size p' =
      (if (0 <=? fixed_speedup) && (fixed_speedup <=? 100)
       then Z.quot (SamplePeriod * fixed_speedup) 100 else _fixed_delay_size p) /\
    _selected_line p' = _selected_line p /\ _global_delays p' = _global_delays p /\
    stderr p' = stderr p /\ _shutdown_run p' = _shutdown_run p /\
    sampler (state t') = mk_perf_event true true SamplePeriod /\
    process_timer (state t') = Some (SamplePeriod * SampleWakeupCount) /\
    delay_count (state t') = delay_count (state t) /\
    latch_held t' = false.
Proof.
  intros Hfree. unfold startup, begin_sampling.
  rewrite (thread_state_get_free _ _ Hfree). simpl.
  eexists. eexists. split; [reflexivity|].
  match goal with
  | |- context [foldl ?f ?q source_progress_names] =>
      destruct (startup_counters source_progress_names q)
        as (Hev & Hdel & Hfn & Hsame & Herr & Hflag)
  end.
  cbv zeta in *.
  destruct Hsame as (_ & Hsel & _ & Hg & _ & _ & Hfl & Hfs & _ & _).
  simpl. rewrite Hev, Hdel, Hfn, Hsel, Hg, Hfl, Hfs, Herr, Hflag. simpl.
  split_and?; try reflexivity; try exact Hfree.
  - destruct (negb (String.eqb fixed_line_name EmptyString)) eqn:Hname;
      destruct ((0 <=? fixed_speedup) && (fixed_speedup <=? 100));
      destruct (String.eqb fixed_line_name EmptyString); simpl in *;
      try discriminate; reflexivity.
  - destruct (negb (String.eqb fixed_line_name EmptyString));
      destruct ((0 <=? fixed_speedup) && (fixed_speedup <=? 100)); reflexivity.
  - destruct (negb (String.eqb fixed_line_name EmptyString));
      destruct ((0 <=? fixed_speedup) && (fixed_speedup <=? 100)); reflexivity.
  - destruct (negb (String.eqb fixed_line_name EmptyString));
      destruct ((0 <=? fixed_speedup) && (fixed_speedup <=? 100)); reflexivity.
  - destruct (negb (String.eqb fixed_line_name EmptyString));
      destruct ((0 <=? fixed_speedup) && (fixed_speedup <=? 100)); reflexivity.
  - destruct (negb (String.eqb fixed_line_name EmptyString));
      destruct ((0 <=? fixed_speedup) && (fixed_speedup <=? 100)); reflexivity.
Qed.

(** X15. [startup] opens the session: with the latch free it goes through,
    the sink is a new one whose log holds one counter for each progress name
    the address map resolves, in the order given and none for the others,
    followed by the startup call with the sample period; the start time is
    recorded, and the sampler of the calling thread is open and running with
    its timer set to [SamplePeriod * SampleWakeupCount]. *)
Theorem startup_opens_the_session (p : profiler) (t : thread) (output_filename : string)
    (source_progress_names : list string) (fixed_line_name : string)
    (fixed_speedup now : Z) :
  latch_held t = false ->
  exists p' t',
    startup p t output_filename source_progress_names fixed_line_name fixed_speedup now
      = Some (p', t') /\
    out_events (_out p') =
      registered_counters source_progress_names ++ [ev_startup SamplePeriod] /\
    out_deleted (_out p') = false /\
    _start_time p' = now /\
    sampler (state t') = mk_perf_event true true SamplePeriod /\
    process_timer (state t') = Some (SamplePeriod * SampleWakeupCount).
Proof.
  intros Hfree.
  destruct (startup_result p t output_filename source_progress_names fixed_line_name
              fixed_speedup now Hfree)
    as (p' & t' & Hstart & Hev & Hdel & _ & Htime & _ & _ & _ & _ & _ & _ & Hsampler & Htimer & _).
  exists p', t'. split_and?; assumption.
Qed.

(** X16. The fixed delay size [startup] sets: a speedup from 0 to 100 gives
    [SamplePeriod * fixed_speedup / 100], which lies between 0 and
    [SamplePeriod] and so is never the sentinel -1; it is 0 for 0 and
    [SamplePeriod] for 100. Any other speedup leaves the field as it was. *)
Theorem startup_fixed_delay_size (p p' : profiler) (t t' : thread)
    (output_filename : string) (source_progress_names : list string)
    (fixed_line_name : string) (fixed_speedup now : Z) :
  startup p t output_filename source_progress_names fixed_line_name fixed_speedup now
    = Some (p', t') ->
  (0 <= fixed_speedup <= 100 -> 0 <= SamplePeriod ->
   _fixed_delay_size p' = Z.quot (SamplePeriod * fixed_speedup) 100 /\
   0 <= _fixed_delay_size p' <= SamplePeriod) /\
  (fixed_speedup = 0 -> _fixed_delay_size p' = 0) /\
  (fixed_speedup = 100 -> _fixed_delay_size p' = SamplePeriod) /\
  (fixed_speedup < 0 \/ 100 < fixed_speedup ->
   _fixed_delay_size p' = _fixed_delay_size p).
Proof.
  intros Hstart.
  assert (Hfree : latch_held t = false).
  { unfold startup, begin_sampling, thread_state_get in Hstart.
    destruct (latch_held t); [discriminate|reflexivity]. }
  destruct (startup_result p t output_filename source_progress_names fixed_line_name
              fixed_speedup now Hfree)
    as (p2 & t2 & Hstart2 & _ & _ & _ & _ & _ & Hsize & _).
  rewrite Hstart in Hstart2. inversion Hstart2; subst p2 t2. rewrite Hsize.
  split_and?.
  - intros Hrange Hperiod.
    destruct (Z.leb_spec 0 fixed_speedup); [|lia].
    destruct (Z.leb_spec fixed_speedup 100); [|lia]. simpl.
    split; [reflexivity|].
    rewrite Z.quot_div_nonneg by nia.
    split; [apply Z.div_pos; nia | apply Z.div_le_upper_bound; nia].
  - intros ->. simpl. rewrite Z.mul_0_r. reflexivity.
  - intros ->. simpl. apply Z.quot_mul. discriminate.
  - intros Hout.
    destruct (Z.leb_spec 0 fixed_speedup); simpl; [|reflexivity].
    destruct (Z.leb_spec fixed_speedup 100); [lia|reflexivity].
Qed.

(** Standard error is written by the first [shutdown] only. *)
Lemma step_stderr (s s' : system) (who : tid) (a : action) :
  step s who a = Some s' ->
  _shutdown_run (sys_profiler s') = false ->
  stderr (sys_profiler s') = stderr (sys_profiler s).
Proof.
  unfold step. destruct (sys_threads s !! who) as [t|] eqn:Ht; [|discriminate]. simpl.
  intros Hstep.
  destruct a as [r| |rs| | | | |rs|rs now|child init fn arg|rs].
  - pose proof (process_record_frame (sys_profiler s) (state t) r) as [Hframe _].
    destruct (flow_value (process_record (sys_profiler s) (state t) r)) as [p1 st1].
    inversion Hstep; subst. simpl in *. intros _. apply Hframe.
  - pose proof (add_delays_session (sys_profiler s) (state t)) as Hsess.
    destruct (add_delays (sys_profiler s) (state t)) as [p1 st1].
    inversion Hstep; subst. simpl in *. intros _. apply Hsess.
  - unfold samples_ready, thread_state_get in Hstep. destruct (latch_held t).
    + inversion Hstep; subst. reflexivity.
    + pose proof (process_samples_session (sys_profiler s) (state t) rs) as Hsess.
      destruct (process_samples (sys_profiler s) (state t) rs) as [p1 st1].
      inversion Hstep; subst. simpl in *. intros _. apply Hsess.
  - destruct (snapshot_delays (sys_profiler s) t); [|discriminate].
    inversion Hstep; subst. reflexivity.
  - destruct (skip_delays (sys_profiler s) t); [|discriminate].
    inversion Hstep; subst. reflexivity.
  - unfold catch_up, thread_state_get in Hstep. destruct (latch_held t); [discriminate|].
    simpl in Hstep.
    pose proof (add_delays_session (sys_profiler s) (state t)) as Hsess.
    destruct (add_delays (sys_profiler s) (state t)) as [p1 st1].
    inversion Hstep; subst. simpl in *. intros _. apply Hsess.
  - destruct (begin_sampling t); [|discriminate]. inversion Hstep; subst. reflexivity.
  - destruct (end_sampling (sys_profiler s) t rs) as [[p1 t1]|] eqn:Hend; [|discriminate].
    inversion Hstep; subst. simpl. intros _.
    apply end_sampling_session in Hend. apply Hend.
  - destruct (shutdown (sys_profiler s) t rs now) as [[p1 t1]|] eqn:Hdown; [|discriminate].
    inversion Hstep; subst. simpl. intros Hflag.
    apply shutdown_sets_flag in Hdown. congruence.
  - destruct (handle_pthread_create t fn arg); [|discriminate]. simpl in Hstep.
    destruct (sys_threads s !! child); [discriminate|].
    inversion Hstep; subst. reflexivity.
  - unfold handle_pthread_exit in Hstep.
    destruct (end_sampling (sys_profiler s) t rs) as [[p1 t1]|] eqn:Hend; [|discriminate].
    inversion Hstep; subst. simpl. intros _.
    apply end_sampling_session in Hend. apply Hend.
Qed.

Lemma run_flag_clear (sched : schedule) (s s' : system) :
  run s sched = Some s' -> _shutdown_run (sys_profiler s') = false ->
  _shutdown_run (sys_profiler s) = false.
Proof.
  intros Hrun Hclear. destruct (_shutdown_run (sys_profiler s)) eqn:Hflag; [|reflexivity].
  rewrite (run_keeps_flag sched s s' Hrun Hflag) in Hclear. discriminate.
Qed.

Lemma run_stderr (sched : schedule) (s s' : system) :
  run s sched = Some s' -> _shutdown_run (sys_profiler s') = false ->
  stderr (sys_profiler s') = stderr (sys_profiler s).
Proof.
  revert s. induction sched as [|[who a] rest IH]; intros s; simpl.
  - intros Heq _. inversion Heq; subst. reflexivity.
  - destruct (step s who a) as [s1|] eqn:Hstep; [|discriminate]. simpl.
    intros Hrun Hclear. rewrite (IH s1 Hrun Hclear).
    apply (step_stderr s s1 who a Hstep). apply (run_flag_clear rest s1 s' Hrun Hclear).
Qed.

(** The first [shutdown] of a session, taken apart. *)
Lemma shutdown_tears_down (p p' : profiler) (t t' : thread) (rs : list record) (now : Z) :
  shutdown p t rs now = Some (p', t') -> _shutdown_run p = false ->
  exists pe,
    end_sampling (set_shutdown_run true p) t rs = Some (pe, t') /\
    out_events (_out p') = out_events (_out pe) ++ [ev_shutdown] /\
    out_deleted (_out p') = true /\
    _selected_line p' = _selected_line pe /\
    _global_delays p' = _global_delays pe /\
    stderr p' =
      stderr p ++
        (if bool_decide (is_Some (_fixed_line p)) && negb (_fixed_delay_size p =? -1)
         then end_to_end_report p now (_global_delays pe) else []).
Proof.
  intros Hdown Hclear.
  assert (Hfree : latch_held t = false).
  { unfold shutdown, test_and_set in Hdown. rewrite Hclear in Hdown. simpl in Hdown.
    unfold end_sampling, thread_state_get in Hdown.
    destruct (latch_held t); [discriminate|reflexivity]. }
  destruct (shutdown_first p t rs now Hclear Hfree) as (pe & t1 & Hend & Hdown1 & _).
  rewrite Hdown in Hdown1. inversion Hdown1; subst.
  exists pe. split; [exact Hend|]. simpl. repeat split.
Qed.

(** X17. The event stream of a session in which one thread does all the
    work of the profiler, so that nothing runs between the operations of a
    call: after [startup] on a profiler with no line selected, any sequence
    of calls by that thread, and its first [shutdown], the sink has received
    the counters of [startup], the startup call, then the round calls with
    [start_round] and [end_round] alternating from no round, and last the
    shutdown call; the sink is deleted. With several threads in
    [process_samples] the order of the round calls is not fixed. *)
Theorem session_event_stream (p p1 : profiler) (t t1 : thread)
    (output_filename : string) (source_progress_names : list string)
    (fixed_line_name : string) (fixed_speedup now later : Z)
    (threads : gmap tid thread) (sched : schedule) (s2 s3 : system) (who : tid)
    (rs : list record) :
  startup p t output_filename source_progress_names fixed_line_name fixed_speedup now
    = Some (p1, t1) ->
  _selected_line p = None ->
  Forall (fun taken => fst taken = who) sched ->
  run (mk_system p1 threads) sched = Some s2 ->
  _shutdown_run (sys_profiler s2) = false ->
  step s2 who (act_shutdown rs later) = Some s3 ->
  exists rounds,
    out_events (_out (sys_profiler s3)) =
      registered_counters source_progress_names ++
      [ev_startup SamplePeriod] ++ rounds ++ [ev_shutdown] /\
    round_status false rounds = Some (selected (sys_profiler s3)) /\
    out_deleted (_out (sys_profiler s3)) = true.
Proof.
  intros Hstart Hsel _ Hrun Hclear Hstep.
  assert (Hfree : latch_held t = false).
  { unfold startup, begin_sampling, thread_state_get in Hstart.
    destruct (latch_held t); [discriminate|reflexivity]. }
  destruct (startup_result p t output_filename source_progress_names fixed_line_name
              fixed_speedup now Hfree)
    as (p' & t' & Hstart2 & Hev & _ & _ & _ & _ & _ & Hsel1 & _).
  rewrite Hstart in Hstart2. inversion Hstart2; subst p' t'.
  destruct (run_round_step sched _ s2 Hrun) as (new1 & Hnew1 & Hstatus1).
  simpl in Hnew1, Hstatus1.
  assert (Hnone : selected p1 = false).
  { unfold selected. rewrite Hsel1, Hsel. reflexivity. }
  rewrite Hnone in Hstatus1.
  unfold step in Hstep. destruct (sys_threads s2 !! who) as [t2|]; [|discriminate].
  simpl in Hstep.
  destruct (shutdown (sys_profiler s2) t2 rs later) as [[p3 t3]|] eqn:Hdown; [|discriminate].
  simpl in Hstep. inversion Hstep; subst s3. simpl.
  destruct (shutdown_tears_down _ _ _ _ _ _ Hdown Hclear)
    as (pe & Hend & Hev3 & Hdel & Hsel3 & _).
  destruct (end_sampling_round_step _ _ _ _ _ Hend) as (new2 & Hnew2 & Hstatus2).
  simpl in Hnew2. change (selected (set_shutdown_run true (sys_profiler s2)))
    with (selected (sys_profiler s2)) in Hstatus2.
  exists (new1 ++ new2). split_and?.
  - rewrite Hev3, Hnew2, Hnew1, Hev. rewrite <- !app_assoc. reflexivity.
  - rewrite round_status_app, Hstatus1.
    unfold selected at 2. rewrite Hsel3. exact Hstatus2.
  - exact Hdel.
Qed.

(** X18. The end-to-end report of a session: after [startup] on a profiler
    without fixed line or fixed delay size, any execution without shutdown,
    and the first [shutdown], standard error has gained the report line
    exactly when the fixed line name is not empty and resolves and the fixed
    speedup is between 0 and 100; the line carries
    [SamplePeriod * fixed_speedup / 100] over [SamplePeriod] and the run time
    from the time of [startup], less the delays issued. *)
Theorem session_report (p p1 : profiler) (t t1 : thread)
    (output_filename : string) (source_progress_names : list string)
    (fixed_line_name : string) (fixed_speedup now later : Z)
    (threads : gmap tid thread) (sched : schedule) (s2 s3 : system) (who : tid)
    (rs : list record) :
  startup p t output_filename source_progress_names fixed_line_name fixed_speedup now
    = Some (p1, t1) ->
  _fixed_line p = None -> _fixed_delay_size p = -1 -> 0 <= SamplePeriod ->
  run (mk_system p1 threads) sched = Some s2 ->
  _shutdown_run (sys_profiler s2) = false ->
  step s2 who (act_shutdown rs later) = Some s3 ->
  let configured :=
    negb (String.eqb fixed_line_name EmptyString) &&
    bool_decide (is_Some (find_line_by_name fixed_line_name)) &&
    ((0 <=? fixed_speedup) && (fixed_speedup <=? 100)) in
  stderr (sys_profiler s3) =
    stderr p ++
      (if configured then
         [item_float_quotient (Z.quot (SamplePeriod * fixed_speedup) 100) SamplePeriod;
          item_tab;
          item_ulong
            (wrap (wrap (later - now) -
                   wrap (_global_delays (sys_profiler s3) *
                         Z.quot (SamplePeriod * fixed_speedup) 100)));
          item_newline]
       else []).
Proof.
  intros Hstart Hline Hsize Hperiod Hrun Hclear Hstep configured.
  assert (Hfree : latch_held t = false).
  { unfold startup, begin_sampling, thread_state_get in Hstart.
    destruct (latch_held t); [discriminate|reflexivity]. }
  destruct (startup_result p t output_filename source_progress_names fixed_line_name
              fixed_speedup now Hfree)
    as (p' & t' & Hstart2 & _ & _ & _ & Htime & Hfl & Hfs & _ & _ & Herr & _).
  rewrite Hstart in Hstart2. inversion Hstart2; subst p' t'.
  destruct (run_keeps_configuration sched _ s2 Hrun) as (Hfl2 & Hfs2 & Htime2).
  pose proof (run_stderr sched _ s2 Hrun Hclear) as Herr2. simpl in *.
  unfold step in Hstep. destruct (sys_threads s2 !! who) as [t2|]; [|discriminate].
  simpl in Hstep.
  destruct (shutdown (sys_profiler s2) t2 rs later) as [[p3 t3]|] eqn:Hdown; [|discriminate].
  simpl in Hstep. inversion Hstep; subst s3. simpl.
  destruct (shutdown_tears_down _ _ _ _ _ _ Hdown Hclear)
    as (pe & _ & _ & _ & _ & Hg3 & Herr3).
  rewrite Herr3, Herr2, Herr, Hfl2, Hfs2, Hfl, Hfs, Hline, Hsize.
  unfold end_to_end_report. rewrite Hfs2, Htime2, Hfs, Htime, Hsize, Hg3.
  subst configured. f_equal.
  destruct (String.eqb fixed_line_name EmptyString); simpl.
  - reflexivity.
  - destruct (bool_decide (is_Some (find_line_by_name fixed_line_name))); simpl;
      [|reflexivity].
    destruct (Z.leb_spec 0 fixed_speedup); simpl; [|reflexivity].
    destruct (Z.leb_spec fixed_speedup 100); simpl; [|reflexivity].
    assert (Hq : 0 <= Z.quot (SamplePeriod * fixed_speedup) 100).
    { rewrite Z.quot_div_nonneg by nia. apply Z.div_pos; nia. }
    destruct (Z.eqb_spec (Z.quot (SamplePeriod * fixed_speedup) 100) (-1)); [lia|].
    reflexivity.
Qed.

End Session.

(** ** When the loop gets through the buffer *)

Section Completion.
Context `{Tunables} `{Collaborators}.

(** The early return is taken by a sample out of scope, between rounds and
    without fixed line, and by nothing else. *)
Lemma process_record_return (p : profiler) (st : thread_state) (r : record)
    (x : profiler * thread_state) :
  process_record p st r = Return x ->
  is_sample r = true /\ find_containing_line r = None /\
  _selected_line p = None /\ _fixed_line p = None.
Proof.
  unfold process_record. destruct (is_sample r); [|discriminate].
  destruct (find_containing_line r) as [l|] eqn:Hline; simpl.
  - destruct (_selected_line p); [discriminate|].
    destruct (_fixed_line p); destruct (try_start_round _ _); discriminate.
  - destruct (_selected_line p); [discriminate|].
    destruct (_fixed_line p) as [f|]; [destruct (try_start_round _ _); discriminate|].
    intros _. repeat split.
Qed.

Lemma process_records_complete (rs : list record) (p : profiler) (st : thread_state) :
  is_Some (_fixed_line p) \/
    Forall (fun r => is_sample r = true -> is_Some (find_containing_line r)) rs ->
  exists p' st', process_records p st rs = Continue (p', st').
Proof.
  revert p st. induction rs as [|r rest IH]; intros p st Hok; simpl.
  - exists p, st. reflexivity.
  - pose proof (process_record_frame p st r) as [(Hfl & _) _].
    destruct (process_record p st r) as [[p1 st1]|x] eqn:Hone.
    + apply IH. simpl in Hfl. destruct Hok as [Hfixed|Hall].
      * left. rewrite Hfl. exact Hfixed.
      * right. inversion Hall; assumption.
    + apply process_record_return in Hone. destruct Hone as (Hs & Hline & _ & Hnofix).
      destruct Hok as [Hfixed|Hall].
      * rewrite Hnofix in Hfixed. destruct Hfixed; discriminate.
      * inversion Hall as [|? ? Hr _]; subst. specialize (Hr Hs).
        rewrite Hline in Hr. destruct Hr; discriminate.
Qed.

(** X19. With a fixed line configured, or on a buffer whose samples all
    resolve to a line, [process_samples] never takes the early return: the
    loop gets through the buffer, [add_delays] runs, so that the thread ends
    level with the global delay count, and the sampler is running again. *)
Theorem process_samples_completes (p : profiler) (st : thread_state) (rs : list record) :
  wf_profiler p -> wf_thread_state st ->
  is_Some (_fixed_line p) \/
    Forall (fun r => is_sample r = true -> is_Some (find_containing_line r)) rs ->
  (exists p1 st1,
      process_records p (set_sampler (perf_stop (sampler st)) st) rs
        = Continue (p1, st1) /\
      process_samples p st rs =
        (fst (add_delays p1 st1),
         set_sampler (perf_start (sampler (snd (add_delays p1 st1))))
           (snd (add_delays p1 st1)))) /\
  pe_running (sampler (snd (process_samples p st rs))) = true /\
  delay_count (snd (process_samples p st rs)) = _global_delays (fst (process_samples p st rs)).
Proof.
  intros Hp Hst Hok.
  set (st0 := set_sampler (perf_stop (sampler st)) st).
  destruct (process_records_complete rs p st0 Hok) as (p1 & st1 & Hloop).
  assert (Hst0 : wf_thread_state st0) by exact Hst.
  pose proof (process_records_advances rs p st0 Hp Hst0) as Hadv.
  rewrite Hloop in Hadv. simpl in Hadv. destruct Hadv as ((Hg1 & _) & (Hc1 & _) & _).
  pose proof (add_delays_reaches_level p1 st1 Hc1 Hg1) as Hlevel.
  assert (Hfull : process_samples p st rs =
    (fst (add_delays p1 st1),
     set_sampler (perf_start (sampler (snd (add_delays p1 st1)))) (snd (add_delays p1 st1)))).
  { unfold process_samples. fold st0. rewrite Hloop.
    destruct (add_delays p1 st1); reflexivity. }
  split; [exists p1, st1; split; [exact Hloop|exact Hfull]|].
  rewrite Hfull. simpl. split; [reflexivity|exact Hlevel].
Qed.

(** One iteration moves the delay count up by one at most. *)
Lemma process_record_delay_count (p : profiler) (st : thread_state) (r : record) :
  let st' := snd (flow_value (process_record p st r)) in
  delay_count st' = delay_count st \/ delay_count st' = wrap (delay_count st + 1).
Proof.
  assert (Hcount : forall l c q,
    let st' := snd (count_round_sample l c q st) in
    delay_count st' = delay_count st \/ delay_count st' = wrap (delay_count st + 1)).
  { intros l c q. unfold count_round_sample, increment_round_samples.
    destruct c as [c|]; simpl; [|left; reflexivity].
    destruct (decide (l = Some c)), (_ =? MinRoundSamples); simpl;
      [right|right|left|left]; reflexivity. }
  unfold process_record. destruct (is_sample r); [|left; reflexivity].
  set (p0 := match find_containing_line r with
             | Some y => add_sample y p | None => p end).
  destruct (_selected_line p0) as [c|].
  - apply Hcount.
  - destruct (match _fixed_line p0 with
              | Some f => Some f | None => find_containing_line r end) as [x|];
      [|left; reflexivity].
    destruct (try_start_round x p0) as [p1 current_line]. apply Hcount.
Qed.

Lemma process_records_delay_count (rs : list record) (p : profiler) (st : thread_state) :
  is_size_t (delay_count st) ->
  delay_count st + Z.of_nat (length rs) < size_modulus ->
  let st' := snd (flow_value (process_records p st rs)) in
  delay_count st <= delay_count st' <= delay_count st + Z.of_nat (length rs).
Proof.
  revert p st. induction rs as [|r rest IH]; intros p st Hc Hfit; cbv zeta; simpl.
  - lia.
  - pose proof (process_record_delay_count p st r) as Hone. cbv zeta in Hone.
    simpl length in Hfit.
    assert (Hstep : delay_count st <=
                    delay_count (snd (flow_value (process_record p st r)))
                    <= delay_count st + 1).
    { destruct Hone as [-> | ->]; [lia|].
      rewrite wrap_id by (unfold is_size_t in *; lia). lia. }
    destruct (process_record p st r) as [[p1 st1]|[p1 st1]]; simpl in *; [|lia].
    assert (Hc1 : is_size_t (delay_count st1)) by (unfold is_size_t in *; lia).
    assert (Hfit1 : delay_count st1 + Z.of_nat (length rest) < size_modulus) by lia.
    pose proof (IH p1 st1 Hc1 Hfit1) as Hrest. cbv zeta in Hrest. lia.
Qed.

(** X20. The delay count of a thread only goes up in sample processing and
    in the delay engine: [add_delays] never lowers it, and [process_samples]
    on a buffer of [n] records never lowers it as long as the count plus [n]
    fits a [size_t]; the loop raises it by [n] at most. *)
Theorem delay_count_never_lowered (p : profiler) (st : thread_state) (rs : list record) :
  is_size_t (delay_count st) ->
  delay_count st + Z.of_nat (length rs) < size_modulus ->
  delay_count st <= delay_count (snd (add_delays p st)) /\
  delay_count st <= delay_count (snd (process_samples p st rs)) /\
  delay_count (snd (flow_value
                      (process_records p (set_sampler (perf_stop (sampler st)) st) rs)))
    <= delay_count st + Z.of_nat (length rs).
Proof.
  intros Hst Hfit.
  assert (Hadd : forall q sq, delay_count sq <= delay_count (snd (add_delays q sq))).
  { intros q sq. unfold add_delays.
    destruct (Z.gtb_spec (delay_count sq) (_global_delays q)); simpl; [lia|].
    destruct (Z.ltb_spec (delay_count sq) (_global_delays q)); simpl; [|lia].
    destruct (excess_delay sq >? _); simpl; lia. }
  set (st0 := set_sampler (perf_stop (sampler st)) st).
  assert (Hc0 : is_size_t (delay_count st0)) by exact Hst.
  pose proof (process_records_delay_count rs p st0 Hc0 Hfit) as Hloop. cbv zeta in Hloop.
  change (delay_count st0) with (delay_count st) in Hloop.
  split; [apply Hadd|]. split; [|apply Hloop].
  unfold process_samples. fold st0.
  destruct (process_records p st0 rs) as [[p1 st1]|[p1 st1]]; simpl in *; [|lia].
  pose proof (Hadd p1 st1) as Hlast.
  destruct (add_delays p1 st1) as [p2 st2]. simpl in *. lia.
Qed.

End Completion.

(** * The atomic operations of process_samples *)

(** ** What one operation does *)

Section OperationCases.
Context `{Tunables} `{Collaborators}.

Lemma atomic_operation_effect (p : profiler) (st : thread_state) (pt : point) :
  let '(p', _, pt') := atomic_operation p st pt in round_effect p pt p' pt'.
Proof.
  destruct pt as [|[|r rs]|x rs|l rs|l rs|x rs|x rs|x rs|x g rs|x rs|x rs|x rs|x d rs|x rs
                  |x rs|l [c|] rs|rs|g rs|g s rs|d z rs|rs| |g|g d|]; simpl.
  all: try (apply effect_none; (reflexivity || discriminate)).
  - destruct (is_sample r); [destruct (find_containing_line r)|];
      apply effect_none; (reflexivity || discriminate).
  - destruct (_selected_line p); apply effect_none; (reflexivity || discriminate).
  - destruct (_fixed_line p); [|destruct l];
      apply effect_none; (reflexivity || discriminate).
  - unfold compare_exchange_strong.
    destruct (decide (_selected_line p = None)) as [Hnone|Hsome].
    + eapply effect_begin; (reflexivity || assumption).
    + apply effect_none; (reflexivity || discriminate).
  - eapply effect_reset; reflexivity.
  - destruct (negb _); apply effect_none; (reflexivity || discriminate).
  - destruct (delay_dist (_generator p)). apply effect_none; (reflexivity || discriminate).
  - destruct (decide (l = Some c)); destruct (_ =? MinRoundSamples) eqn:Hlast;
      eapply effect_count; try reflexivity; simpl; rewrite Hlast; reflexivity.
  - eapply effect_clear; reflexivity.
  - destruct (delay_count st >? g); [|destruct (delay_count st <? g);
      [destruct (excess_delay st >? _)|]];
      apply effect_none; (reflexivity || discriminate).
Qed.

(** No operation writes the configuration. *)
Lemma atomic_operation_configuration (p : profiler) (st : thread_state) (pt : point) :
  let '(p', _, _) := atomic_operation p st pt in
  _fixed_line p' = _fixed_line p /\ _fixed_delay_size p' = _fixed_delay_size p /\
  _start_time p' = _start_time p.
Proof.
  destruct pt as [|[|r rs]|x rs|l rs|l rs|x rs|x rs|x rs|x g rs|x rs|x rs|x rs|x d rs|x rs
                  |x rs|l [c|] rs|rs|g rs|g s rs|d z rs|rs| |g|g d|]; simpl;
    try (repeat split; reflexivity).
  - destruct (is_sample r); [destruct (find_containing_line r)|]; simpl; repeat split.
  - destruct (_selected_line p); simpl; repeat split.
  - destruct (_fixed_line p) eqn:Hf; [|destruct l]; simpl; repeat split; exact Hf.
  - unfold compare_exchange_strong. destruct (decide _); simpl; repeat split.
  - destruct (negb _); simpl; repeat split.
  - destruct (delay_dist (_generator p)). simpl. repeat split.
  - destruct (decide _), (_ =? MinRoundSamples); simpl; repeat split.
  - destruct (delay_count st >? g); [|destruct (delay_count st <? g);
      [destruct (excess_delay st >? _)|]]; simpl; repeat split.
Qed.

Lemma closing_in_transition (pt : point) : closing pt = true -> in_transition pt = true.
Proof. unfold in_transition. intros ->. apply orb_true_r. Qed.

Lemma not_in_transition_closing (pt : point) : in_transition pt = false -> closing pt = false.
Proof. unfold in_transition. intros Hno. apply orb_false_elim in Hno. apply Hno. Qed.

Lemma transition_at_quiet (who : tid) (pt : point) :
  resetting pt = false -> (forall rs, pt <> at_end_load_global rs) ->
  transition_at who pt = [].
Proof.
  destruct pt; simpl; try reflexivity; [discriminate|].
  intros _ Hne. exfalso. eapply Hne. reflexivity.
Qed.

Lemma transition_at_idle (who : tid) (pt : point) :
  in_transition pt = false -> transition_at who pt = [].
Proof. destruct pt; simpl; (reflexivity || discriminate). Qed.

End OperationCases.

(** ** A thread on its own *)

(** The operations of one thread, with no other thread in between, compute
    what the functions compute: the two granularities agree on a call that
    is not interrupted. *)
Section Alone.
Context `{Tunables} `{Collaborators}.

Lemma alone_add (n k : nat) (p : profiler) (st : thread_state) (pt : point) :
  alone (n + k) p st pt =
    match alone n p st pt with
    | Some (p, st, pt) => alone k p st pt
    | None => None
    end.
Proof.
  revert p st pt. induction n as [|n IH]; intros p st pt; simpl; [reflexivity|].
  destruct (inside pt); [|reflexivity].
  destruct (atomic_operation p st pt) as [[p1 st1] pt1]. apply IH.
Qed.

Lemma alone_round_sample (l current_line : option line) (p : profiler) (st : thread_state)
    (rs : list record) :
  exists n,
    alone n p st (at_round_sample l current_line rs) =
      Some (count_round_sample l current_line p st, at_record rs).
Proof.
  destruct current_line as [c|]; [|exists 1%nat; reflexivity].
  unfold count_round_sample, increment_round_samples.
  destruct (wrap (_round_samples p + 1) =? MinRoundSamples) eqn:Hlast.
  - exists 6%nat. simpl. rewrite Hlast. reflexivity.
  - exists 1%nat. simpl. rewrite Hlast. reflexivity.
Qed.

Lemma alone_start_round (x : line) (p : profiler) (st : thread_state) (rs : list record) :
  exists n,
    alone n p st (at_exchange x rs) =
      Some (let '(p1, current_line) := try_start_round x p in
            (p1, st, at_round_sample (Some x) current_line rs)).
Proof.
  unfold try_start_round, compare_exchange_strong.
  destruct (decide (_selected_line p = None)) as [Hnone|Hsome].
  - destruct (negb (_fixed_delay_size p =? -1)) eqn:Hfixed.
    + exists 7%nat. simpl. unfold compare_exchange_strong.
      destruct (decide (_selected_line p = None)); [|contradiction]. simpl.
      rewrite Hfixed. simpl. reflexivity.
    + destruct (delay_dist (_generator p)) as [drawn next] eqn:Hdraw.
      exists 8%nat. simpl. unfold compare_exchange_strong.
      destruct (decide (_selected_line p = None)); [|contradiction]. simpl.
      rewrite Hfixed. simpl. rewrite Hdraw. simpl. reflexivity.
  - exists 2%nat. simpl. unfold compare_exchange_strong.
    destruct (decide (_selected_line p = None)); [contradiction|]. reflexivity.
Qed.

Lemma alone_record (r : record) (rs : list record) (p : profiler) (st : thread_state) :
  exists n,
    alone n p st (at_record (r :: rs)) =
      Some (after_loop (process_record p st r) (at_record rs)).
Proof.
  unfold process_record.
  destruct (is_sample r) eqn:Hs; [|exists 1%nat; simpl; rewrite Hs; reflexivity].
  set (l := find_containing_line r).
  set (p0 := match l with Some x => add_sample x p | None => p end).
  assert (Hhead : exists n,
    alone n p st (at_record (r :: rs)) = Some (p0, st, at_load_selected l rs)).
  { subst p0 l. destruct (find_containing_line r) as [x|] eqn:Hl.
    - exists 2%nat. simpl. rewrite Hs, Hl. reflexivity.
    - exists 1%nat. simpl. rewrite Hs, Hl. reflexivity. }
  destruct Hhead as [n0 Hhead].
  assert (Hbody : exists n, alone n p0 st (at_load_selected l rs) =
    Some (after_loop
      match _selected_line p0 with
      | Some _ => Continue (count_round_sample l (_selected_line p0) p0 st)
      | None =>
          match match _fixed_line p0 with Some f => Some f | None => l end with
          | Some x =>
              let '(p1, current_line) := try_start_round x p0 in
              Continue (count_round_sample
                          match _fixed_line p0 with Some f => Some f | None => l end
                          current_line p1 st)
          | None => Return (p0, st)
          end
      end (at_record rs))).
  { destruct (_selected_line p0) as [c|] eqn:Hsel.
    - destruct (alone_round_sample l (Some c) p0 st rs) as [n Hn].
      exists (1 + n)%nat. rewrite alone_add. cbn [alone atomic_operation inside].
      rewrite Hsel, Hn.
      destruct (count_round_sample l (Some c) p0 st). reflexivity.
    - destruct (match _fixed_line p0 with Some f => Some f | None => l end)
        as [x|] eqn:Hl'.
      + destruct (alone_start_round x p0 st rs) as [n1 Hn1].
        destruct (try_start_round x p0) as [p1 current_line].
        destruct (alone_round_sample (Some x) current_line p1 st rs) as [n2 Hn2].
        exists (2 + (n1 + n2))%nat. rewrite alone_add. cbn [alone atomic_operation inside].
        rewrite Hsel. cbn [alone atomic_operation inside]. rewrite Hl'.
        rewrite alone_add, Hn1, Hn2.
        destruct (count_round_sample (Some x) current_line p1 st). reflexivity.
      + exists 2%nat. cbn [alone atomic_operation inside]. rewrite Hsel.
        cbn [alone atomic_operation inside]. rewrite Hl'. reflexivity. }
  destruct Hbody as [n1 Hbody].
  exists (n0 + n1)%nat. rewrite alone_add, Hhead, Hbody.
  destruct (_selected_line p0); reflexivity.
Qed.

Lemma alone_records (rs : list record) (p : profiler) (st : thread_state) :
  exists n,
    alone n p st (at_record rs) =
      Some (after_loop (process_records p st rs) at_add_delays_global).
Proof.
  revert p st. induction rs as [|r rs IH]; intros p st.
  - exists 1%nat. reflexivity.
  - destruct (alone_record r rs p st) as [n1 Hn1]. simpl.
    destruct (process_record p st r) as [[p1 st1]|[p1 st1]]; simpl in Hn1.
    + destruct (IH p1 st1) as [n2 Hn2]. exists (n1 + n2)%nat.
      rewrite alone_add, Hn1. exact Hn2.
    + exists n1. exact Hn1.
Qed.

Lemma alone_add_delays (p : profiler) (st : thread_state) :
  alone 3 p st at_add_delays_global = Some (add_delays p st, at_resume).
Proof.
  unfold add_delays. simpl.
  destruct (delay_count st >? _global_delays p); [reflexivity|].
  destruct (delay_count st <? _global_delays p); [|reflexivity].
  destruct (excess_delay st >? _); reflexivity.
Qed.

Lemma alone_process_samples (rs : list record) (p : profiler) (st : thread_state) :
  exists n,
    alone n p (set_sampler (perf_stop (sampler st)) st) (at_record rs) =
      Some (process_samples p st rs, outside).
Proof.
  unfold process_samples.
  destruct (alone_records rs p (set_sampler (perf_stop (sampler st)) st)) as [n Hn].
  destruct (process_records p _ rs) as [[p1 st1]|[p1 st1]]; simpl in Hn.
  - exists (n + (3 + 1))%nat. rewrite alone_add, Hn, alone_add, alone_add_delays.
    destruct (add_delays p1 st1) as [p2 st2]. reflexivity.
  - exists n. exact Hn.
Qed.

Lemma alone_atomic_run (n : nat) (m : machine) (who : tid) (st st' : thread_state)
    (pt pt' : point) (p' : profiler) :
  m_workers m !! who = Some (mk_worker st pt) ->
  alone n (m_profiler m) st pt = Some (p', st', pt') ->
  atomic_run m (operations who n) =
    Some (mk_machine p' (<[who := mk_worker st' pt']> (m_workers m))).
Proof.
  revert m st pt. induction n as [|n IH]; intros m st pt Hw; simpl.
  - intros Heq. inversion Heq; subst. rewrite insert_id by exact Hw. destruct m; reflexivity.
  - unfold atomic_step. rewrite Hw. simpl. destruct (inside pt); [|discriminate].
    destruct (atomic_operation (m_profiler m) st pt) as [[p1 st1] pt1]. simpl.
    intros Hrest.
    rewrite (IH (mk_machine p1 (<[who := mk_worker st1 pt1]> (m_workers m))) st1 pt1
               (lookup_insert_eq _ _ _) Hrest).
    simpl. rewrite insert_insert_eq. reflexivity.
Qed.

(** On the machine: a call of [process_samples] whose operations no other
    thread interrupts leaves what the function computes. *)
Lemma uninterrupted_process_samples (m : machine) (who : tid) (w : worker)
    (rs : list record) :
  m_workers m !! who = Some w -> w_point w = outside ->
  exists n,
    atomic_run m ((who, call_process_samples rs) :: operations who n) =
      Some (let '(p, st) := process_samples (m_profiler m) (w_state w) rs in
            mk_machine p (<[who := mk_worker st outside]> (m_workers m))).
Proof.
  intros Hw Hout.
  destruct (alone_process_samples rs (m_profiler m) (w_state w)) as [n Hn].
  exists n. simpl. unfold atomic_step. rewrite Hw. simpl. rewrite Hout. simpl.
  destruct (process_samples (m_profiler m) (w_state w) rs) as [p' st'].
  erewrite alone_atomic_run; [|apply lookup_insert_eq|exact Hn].
  simpl. rewrite insert_insert_eq. reflexivity.
Qed.

End Alone.

(** ** The protocol of the rounds *)

Section Protocol.
Context `{Tunables} `{Collaborators}.

(** Every operation keeps the protocol, and the transitions it performs
    alternate. The counter is assumed not to wrap. *)
Lemma protocol_step (m : machine) (who : tid) (w w' : worker) (p' : profiler) (b : bool) :
  m_workers m !! who = Some w ->
  round_effect (m_profiler m) (w_point w) p' (w_point w') ->
  0 < MinRoundSamples -> _round_samples (m_profiler m) + 1 < size_modulus ->
  round_protocol m -> round_open b m ->
  let m' := mk_machine p' (<[who := w']> (m_workers m)) in
  round_protocol m' /\
  _round_samples p' <= _round_samples (m_profiler m) + 1 /\
  exists b',
    rounds_alternate b (transition_at who (w_point w')) = Some b' /\ round_open b' m'.
Proof.
  intros Hw Heffect Hmin Hfit (Hsingle & Hbusy & Hidle & Hcounting & Hcount) [Hopen Hshut].
  cbv zeta.
  destruct Heffect as [x rs Hpt Hsel Hsel' Hrs' Hpt'|x rs Hpt Hsel' Hrs' Hpt'
                      |l c rs Hpt Hsel' Hrs' Hpt'|rs Hpt Hsel' Hrs' Hpt'
                      |Hsel' Hrs' Hr Hr' Hc Hnc Hne].
  - (* the exchange that selects the line *)
    assert (Hquiet : forall i wi, m_workers m !! i = Some wi ->
                                  in_transition (w_point wi) = false).
    { intros i wi Hi. destruct (in_transition (w_point wi)) eqn:Hin; [|reflexivity].
      destruct (Hbusy i wi Hi Hin) as [[y Hy] _]. congruence. }
    assert (Hin' : in_transition (w_point w') = true) by (rewrite Hpt'; reflexivity).
    split; [|split].
    + unfold round_protocol. simpl. rewrite Hsel', Hrs'. split_and?.
      * intros i j wi wj Hi Hj Hini Hinj.
        at_worker i who Hi; at_worker j who Hj; try reflexivity.
        -- rewrite (Hquiet j wj Hj) in Hinj. discriminate.
        -- rewrite (Hquiet i wi Hi) in Hini. discriminate.
        -- rewrite (Hquiet i wi Hi) in Hini. discriminate.
      * intros i wi Hi Hini. split; [eexists; reflexivity|]. apply Hidle, Hsel.
      * discriminate.
      * intros _. right. exists who, w'. rewrite lookup_insert_eq. split; [reflexivity|exact Hin'].
      * exact Hcount.
    + rewrite Hrs'. lia.
    + assert (Hb : b = false).
      { destruct b; [|reflexivity]. destruct (Hopen eq_refl) as [[y Hy] _]. congruence. }
      subst b. rewrite Hpt'. simpl. exists true. split; [reflexivity|].
      split; [|discriminate]. intros _. simpl. rewrite Hsel'. split; [eexists; reflexivity|].
      intros i wi Hi. at_worker i who Hi.
      * rewrite Hpt'. reflexivity.
      * apply not_in_transition_closing, (Hquiet i wi Hi).
  - (* the reset of the counter *)
    assert (Hin : in_transition (w_point w) = true) by (rewrite Hpt; reflexivity).
    destruct (Hbusy who w Hw Hin) as [Hsome _].
    assert (Hquiet : forall i wi, <[who := w']> (m_workers m) !! i = Some wi ->
                                  in_transition (w_point wi) = false).
    { intros i wi Hi. at_worker i who Hi; [exact Hpt'|].
      destruct (in_transition (w_point wi)) eqn:Hini; [|reflexivity].
      exfalso. apply n. apply (Hsingle i who wi w Hi Hw Hini Hin). }
    split; [|split].
    + unfold round_protocol. simpl. rewrite Hsel', Hrs'. split_and?.
      * intros i j wi wj Hi Hj Hini Hinj. rewrite (Hquiet i wi Hi) in Hini. discriminate.
      * intros i wi Hi Hini. rewrite (Hquiet i wi Hi) in Hini. discriminate.
      * intros Hnone. destruct Hsome as [y Hy]. congruence.
      * intros Hle. lia.
      * lia.
    + rewrite Hrs'. lia.
    + rewrite (transition_at_idle who _ Hpt'). simpl. exists b. split; [reflexivity|].
      split.
      * intros Hb. simpl. rewrite Hsel'. split; [exact Hsome|].
        intros i wi Hi. apply not_in_transition_closing, (Hquiet i wi Hi).
      * intros Hb. destruct (Hshut Hb) as [Hnone|(i & wi & Hi & Hci)].
        -- destruct Hsome as [y Hy]. congruence.
        -- exfalso. assert (i = who).
           { apply (Hsingle i who wi w Hi Hw); [apply closing_in_transition, Hci|exact Hin]. }
           subst i. rewrite Hw in Hi. inversion Hi; subst wi.
           rewrite Hpt in Hci. discriminate.
  - (* the increment *)
    assert (Hnot : in_transition (w_point w) = false) by (rewrite Hpt; reflexivity).
    assert (Hexact : wrap (_round_samples (m_profiler m) + 1) = _round_samples (m_profiler m) + 1).
    { apply wrap_id. unfold is_size_t. lia. }
    rewrite Hexact in *.
    destruct (Z.eqb_spec (_round_samples (m_profiler m) + 1) MinRoundSamples) as [Hlast|Hmore].
    + (* it reaches the length *)
      assert (Hquiet : forall i wi, m_workers m !! i = Some wi ->
                                    in_transition (w_point wi) = false).
      { intros i wi Hi. destruct (in_transition (w_point wi)) eqn:Hin; [|reflexivity].
        destruct (Hbusy i wi Hi Hin) as [_ Hle]. lia. }
      assert (Hsome : is_Some (_selected_line (m_profiler m))).
      { destruct (_selected_line (m_profiler m)) eqn:Hs; [eexists; reflexivity|].
        specialize (Hidle eq_refl). lia. }
      assert (Hin' : in_transition (w_point w') = true) by (rewrite Hpt'; reflexivity).
      split; [|split].
      * unfold round_protocol. simpl. rewrite Hsel', Hrs'. split_and?.
        -- intros i j wi wj Hi Hj Hini Hinj.
           at_worker i who Hi; at_worker j who Hj; try reflexivity.
           ++ rewrite (Hquiet j wj Hj) in Hinj. discriminate.
           ++ rewrite (Hquiet i wi Hi) in Hini. discriminate.
           ++ rewrite (Hquiet i wi Hi) in Hini. discriminate.
        -- intros i wi Hi Hini. split; [exact Hsome|lia].
        -- intros Hnone. destruct Hsome as [y Hy]. congruence.
        -- intros _. right. exists who, w'. rewrite lookup_insert_eq.
           split; [reflexivity|exact Hin'].
        -- lia.
      * rewrite Hrs'. lia.
      * assert (Hb : b = true).
        { destruct b; [reflexivity|]. destruct (Hshut eq_refl) as [Hnone|(i & wi & Hi & Hci)].
          - destruct Hsome as [y Hy]. congruence.
          - apply closing_in_transition in Hci. rewrite (Hquiet i wi Hi) in Hci. discriminate. }
        subst b. rewrite Hpt'. simpl. exists false. split; [reflexivity|].
        split; [discriminate|]. intros _. right. exists who, w'. simpl.
        rewrite lookup_insert_eq. split; [reflexivity|]. rewrite Hpt'. reflexivity.
    + (* it does not *)
      assert (Hnot' : in_transition (w_point w') = false) by (rewrite Hpt'; reflexivity).
      split; [|split].
      * unfold round_protocol. simpl. rewrite Hsel', Hrs'. split_and?.
        -- intros i j wi wj Hi Hj Hini Hinj.
           at_worker i who Hi; [rewrite Hnot' in Hini; discriminate|].
           at_worker j who Hj; [rewrite Hnot' in Hinj; discriminate|].
           apply (Hsingle i j wi wj Hi Hj Hini Hinj).
        -- intros i wi Hi Hini.
           at_worker i who Hi; [rewrite Hnot' in Hini; discriminate|].
           destruct (Hbusy i wi Hi Hini) as [Hs Hle]. split; [exact Hs|lia].
        -- intros Hnone. specialize (Hidle Hnone). lia.
        -- intros Hle. assert (Hle0 : MinRoundSamples <= _round_samples (m_profiler m)) by lia.
           destruct (Hcounting Hle0) as [Hnone|(i & wi & Hi & Hini)]; [left; exact Hnone|].
           right. exists i, wi. split; [|exact Hini].
           rewrite lookup_insert_ne; [exact Hi|].
           intros ->. rewrite Hw in Hi. inversion Hi; subst wi. rewrite Hnot in Hini. discriminate.
        -- lia.
      * rewrite Hrs'. lia.
      * rewrite (transition_at_idle who _ Hnot'). simpl. exists b. split; [reflexivity|].
        split.
        -- intros Hb. destruct (Hopen Hb) as [Hs Hall]. simpl. rewrite Hsel'.
           split; [exact Hs|]. intros i wi Hi.
           at_worker i who Hi; [apply not_in_transition_closing, Hnot'|apply (Hall i wi Hi)].
        -- intros Hb. simpl. rewrite Hsel'.
           destruct (Hshut Hb) as [Hnone|(i & wi & Hi & Hci)]; [left; exact Hnone|].
           right. exists i, wi. split; [|exact Hci].
           rewrite lookup_insert_ne; [exact Hi|].
           intros ->. rewrite Hw in Hi. inversion Hi; subst wi.
           apply closing_in_transition in Hci. rewrite Hnot in Hci. discriminate.
  - (* the clearing store *)
    assert (Hin : in_transition (w_point w) = true) by (rewrite Hpt; reflexivity).
    destruct (Hbusy who w Hw Hin) as [_ Hle].
    assert (Hquiet : forall i wi, <[who := w']> (m_workers m) !! i = Some wi ->
                                  in_transition (w_point wi) = false).
    { intros i wi Hi. at_worker i who Hi; [exact Hpt'|].
      destruct (in_transition (w_point wi)) eqn:Hini; [|reflexivity].
      exfalso. apply n. apply (Hsingle i who wi w Hi Hw Hini Hin). }
    split; [|split].
    + unfold round_protocol. simpl. rewrite Hsel', Hrs'. split_and?.
      * intros i j wi wj Hi Hj Hini Hinj. rewrite (Hquiet i wi Hi) in Hini. discriminate.
      * intros i wi Hi Hini. rewrite (Hquiet i wi Hi) in Hini. discriminate.
      * intros _. exact Hle.
      * intros _. left. reflexivity.
      * exact Hcount.
    + rewrite Hrs'. lia.
    + rewrite (transition_at_idle who _ Hpt'). simpl. exists b. split; [reflexivity|].
      split.
      * intros Hb. destruct (Hopen Hb) as [_ Hall].
        specialize (Hall who w Hw). rewrite Hpt in Hall. discriminate.
      * intros _. left. exact Hsel'.
  - (* any other operation *)
    assert (Hsame : in_transition (w_point w') = in_transition (w_point w)).
    { unfold in_transition. rewrite Hr, Hr', Hc. reflexivity. }
    split; [|split].
    + unfold round_protocol. simpl. rewrite Hsel', Hrs'. split_and?.
      * intros i j wi wj Hi Hj Hini Hinj.
        at_worker i who Hi; at_worker j who Hj; try reflexivity.
        -- rewrite Hsame in Hini. apply (Hsingle who j w wj Hw Hj Hini Hinj).
        -- rewrite Hsame in Hinj. apply (Hsingle i who wi w Hi Hw Hini Hinj).
        -- apply (Hsingle i j wi wj Hi Hj Hini Hinj).
      * intros i wi Hi Hini. at_worker i who Hi.
        -- rewrite Hsame in Hini. apply (Hbusy who w Hw Hini).
        -- apply (Hbusy i wi Hi Hini).
      * exact Hidle.
      * intros Hle. destruct (Hcounting Hle) as [Hnone|(i & wi & Hi & Hini)];
          [left; exact Hnone|].
        right. destruct (decide (i = who)) as [->|Hne'].
        -- exists who, w'. rewrite lookup_insert_eq. split; [reflexivity|].
           rewrite Hw in Hi. inversion Hi; subst wi. rewrite Hsame. exact Hini.
        -- exists i, wi. rewrite lookup_insert_ne by congruence. split; assumption.
      * exact Hcount.
    + rewrite Hrs'. lia.
    + rewrite (transition_at_quiet who _ Hr' Hne). simpl. exists b. split; [reflexivity|].
      split.
      * intros Hb. destruct (Hopen Hb) as [Hs Hall]. simpl. rewrite Hsel'.
        split; [exact Hs|]. intros i wi Hi. at_worker i who Hi.
        -- rewrite Hc. apply (Hall who w Hw).
        -- apply (Hall i wi Hi).
      * intros Hb. simpl. rewrite Hsel'.
        destruct (Hshut Hb) as [Hnone|(i & wi & Hi & Hci)]; [left; exact Hnone|].
        right. destruct (decide (i = who)) as [->|Hne'].
        -- exists who, w'. rewrite lookup_insert_eq. split; [reflexivity|].
           rewrite Hw in Hi. inversion Hi; subst wi. rewrite Hc. exact Hci.
        -- exists i, wi. rewrite lookup_insert_ne by congruence. split; assumption.
Qed.

Lemma atomic_step_protocol (m m' : machine) (who : tid) (a : move) (b : bool) :
  atomic_step m who a = Some m' ->
  0 < MinRoundSamples -> _round_samples (m_profiler m) + 1 < size_modulus ->
  round_protocol m -> round_open b m ->
  round_protocol m' /\
  _round_samples (m_profiler m') <= _round_samples (m_profiler m) + 1 /\
  exists b',
    rounds_alternate b (transition_at who (point_of m' who)) = Some b' /\ round_open b' m'.
Proof.
  unfold atomic_step. destruct (m_workers m !! who) as [w|] eqn:Hw; [|discriminate]. simpl.
  intros Hstep Hmin Hfit Hprot Hopen.
  assert (Hgoal : forall p' w',
    m' = mk_machine p' (<[who := w']> (m_workers m)) ->
    round_effect (m_profiler m) (w_point w) p' (w_point w') ->
    round_protocol m' /\
    _round_samples (m_profiler m') <= _round_samples (m_profiler m) + 1 /\
    exists b',
      rounds_alternate b (transition_at who (point_of m' who)) = Some b' /\ round_open b' m').
  { intros p' w' -> Heffect. unfold point_of. simpl. rewrite lookup_insert_eq. simpl.
    apply (protocol_step m who w w' p' b Hw Heffect Hmin Hfit Hprot Hopen). }
  destruct a as [rs|]; destruct (inside (w_point w)) eqn:Hin; try discriminate.
  - inversion Hstep; subst m'; clear Hstep.
    eapply Hgoal; [reflexivity|]. simpl.
    destruct (w_point w); try discriminate.
    apply effect_none; (reflexivity || discriminate).
  - pose proof (atomic_operation_effect (m_profiler m) (w_state w) (w_point w)) as Heffect.
    destruct (atomic_operation (m_profiler m) (w_state w) (w_point w)) as [[p' st'] pt'].
    inversion Hstep; subst m'; clear Hstep.
    eapply Hgoal; [reflexivity|exact Heffect].
Qed.

Lemma atomic_run_protocol (sched : interleaving) (m m' : machine) (b : bool) :
  atomic_run m sched = Some m' ->
  0 < MinRoundSamples ->
  _round_samples (m_profiler m) + Z.of_nat (length sched) < size_modulus ->
  round_protocol m -> round_open b m ->
  round_protocol m' /\
  exists b', rounds_alternate b (transitions m sched) = Some b' /\ round_open b' m'.
Proof.
  revert m b. induction sched as [|[who a] rest IH]; intros m b; simpl.
  - intros Heq _ _ Hprot Hopen. inversion Heq; subst. split; [exact Hprot|].
    exists b. split; [reflexivity|exact Hopen].
  - destruct (atomic_step m who a) as [m1|] eqn:Hstep; [|discriminate]. simpl.
    intros Hrun Hmin Hfit Hprot Hopen.
    destruct (atomic_step_protocol m m1 who a b Hstep Hmin ltac:(lia) Hprot Hopen)
      as (Hprot1 & Hgrow & b1 & Halt1 & Hopen1).
    destruct (IH m1 b1 Hrun Hmin ltac:(lia) Hprot1 Hopen1) as (Hprot' & b' & Halt' & Hopen').
    split; [exact Hprot'|]. exists b'. split; [|exact Hopen'].
    clear - Halt1 Halt'.
    revert b Halt1. generalize (transition_at who (point_of m1 who)) as ts.
    induction ts as [|t ts IHts]; intros b Halt1; simpl in *.
    + inversion Halt1; subst. exact Halt'.
    + destruct t, b; try discriminate; apply IHts, Halt1.
Qed.

End Protocol.

(** ** The delay size *)

Section DelaySize.
Context `{Tunables} `{Collaborators}.

Lemma atomic_operation_delay_size (p : profiler) (st : thread_state) (pt : point) :
  0 <= SamplePeriod -> 0 < SpeedupDivisions ->
  SpeedupDivisions * SamplePeriod < size_modulus ->
  (forall g, 0 <= fst (delay_dist g) <= SpeedupDivisions) ->
  delay_size_in_range p -> delay_in_hand p pt ->
  let '(p', _, pt') := atomic_operation p st pt in
  delay_size_in_range p' /\ delay_in_hand p' pt'.
Proof.
  intros Hsp Hsd Hfit Hdist [Hfixed Hsize] Hhand.
  destruct pt as [|[|r rs]|x rs|l rs|l rs|x rs|x rs|x rs|x g rs|x rs|x rs|x rs|x d rs|x rs
                  |x rs|l [c|] rs|rs|g rs|g s rs|d z rs|rs| |g|g d|]; simpl in *;
    try (split; [split; assumption|exact I]).
  - destruct (is_sample r); [destruct (find_containing_line r)|];
      (split; [split; assumption|exact I]).
  - destruct (_selected_line p); (split; [split; assumption|exact I]).
  - destruct (_fixed_line p); [|destruct l]; (split; [split; assumption|exact I]).
  - unfold compare_exchange_strong. destruct (decide _);
      (split; [split; assumption|exact I]).
  - destruct (Z.eqb_spec (_fixed_delay_size p) (-1)); simpl;
      (split; [split; assumption|]); [exact I|assumption].
  - split; [|exact I]. split; [exact Hfixed|].
    destruct Hfixed as [Hunset|Hrange]; [contradiction|].
    rewrite wrap_id by (unfold is_size_t; nia). exact Hrange.
  - pose proof (Hdist (_generator p)) as Hdrawn.
    destruct (delay_dist (_generator p)) as [drawn next]. simpl in *.
    split; [split; assumption|].
    apply drawn_delay_bounded; assumption.
  - destruct (decide _), (_ =? MinRoundSamples); (split; [split; assumption|exact I]).
  - destruct (delay_count st >? g); [|destruct (delay_count st <? g);
      [destruct (excess_delay st >? _)|]]; (split; [split; assumption|exact I]).
Qed.

Lemma delay_in_hand_configuration (p p' : profiler) (pt : point) :
  _fixed_delay_size p' = _fixed_delay_size p -> delay_in_hand p pt -> delay_in_hand p' pt.
Proof. intros Hfs. destruct pt; simpl; try trivial. rewrite Hfs. trivial. Qed.

Lemma atomic_step_delay_size (m m' : machine) (who : tid) (a : move) :
  0 <= SamplePeriod -> 0 < SpeedupDivisions ->
  SpeedupDivisions * SamplePeriod < size_modulus ->
  (forall g, 0 <= fst (delay_dist g) <= SpeedupDivisions) ->
  atomic_step m who a = Some m' -> delays_in_range m -> delays_in_range m'.
Proof.
  intros Hsp Hsd Hfit Hdist Hstep [Hrange Hhands]. unfold atomic_step in Hstep.
  destruct (m_workers m !! who) as [w|] eqn:Hw; [|discriminate]. simpl in Hstep.
  destruct a as [rs|]; destruct (inside (w_point w)); try discriminate.
  - inversion Hstep; subst m'; clear Hstep. split; [exact Hrange|]. simpl.
    intros i wi Hi. destruct (decide (i = who)) as [->|Hne].
    + rewrite lookup_insert_eq in Hi. inversion Hi; subst wi. exact I.
    + rewrite lookup_insert_ne in Hi by congruence. apply (Hhands i wi Hi).
  - pose proof (atomic_operation_delay_size (m_profiler m) (w_state w) (w_point w)
                  Hsp Hsd Hfit Hdist Hrange (Hhands who w Hw)) as Hop.
    pose proof (atomic_operation_configuration (m_profiler m) (w_state w) (w_point w))
      as Hconf.
    destruct (atomic_operation (m_profiler m) (w_state w) (w_point w)) as [[p' st'] pt'].
    inversion Hstep; subst m'; clear Hstep. destruct Hop as [Hrange' Hhand'].
    destruct Hconf as (_ & Hfs & _).
    split; [exact Hrange'|]. simpl.
    intros i wi Hi. destruct (decide (i = who)) as [->|Hne].
    + rewrite lookup_insert_eq in Hi. inversion Hi; subst wi. exact Hhand'.
    + rewrite lookup_insert_ne in Hi by congruence.
      apply (delay_in_hand_configuration (m_profiler m)); [exact Hfs|apply (Hhands i wi Hi)].
Qed.

Lemma atomic_run_delay_size (sched : interleaving) (m m' : machine) :
  0 <= SamplePeriod -> 0 < SpeedupDivisions ->
  SpeedupDivisions * SamplePeriod < size_modulus ->
  (forall g, 0 <= fst (delay_dist g) <= SpeedupDivisions) ->
  atomic_run m sched = Some m' -> delays_in_range m -> delays_in_range m'.
Proof.
  intros Hsp Hsd Hfit Hdist. revert m.
  induction sched as [|[who a] rest IH]; intros m; simpl.
  - intros Heq Hm. inversion Heq; subst. exact Hm.
  - destruct (atomic_step m who a) as [m1|] eqn:Hstep; [|discriminate]. simpl.
    intros Hrun Hm. apply (IH m1 Hrun).
    apply (atomic_step_delay_size m m1 who a Hsp Hsd Hfit Hdist Hstep Hm).
Qed.

End DelaySize.

(** ** The delay counts *)

Section Sums.
Variable f : worker -> Z.

Lemma sum_workers_delete (ws : gmap tid worker) (i : tid) (w : worker) :
  ws !! i = Some w -> sum_workers f ws = f w + sum_workers f (delete i ws).
Proof.
  intros Hw. unfold sum_workers.
  apply (map_fold_delete_L (fun _ w acc => f w + acc)); [|exact Hw].
  intros. lia.
Qed.

Lemma sum_workers_insert (ws : gmap tid worker) (i : tid) (w : worker) :
  sum_workers f (<[i := w]> ws) = f w + sum_workers f (delete i ws).
Proof.
  rewrite <- insert_delete_eq. unfold sum_workers.
  apply (map_fold_insert_L (fun _ w acc => f w + acc)); [|apply lookup_delete_eq].
  intros. lia.
Qed.

End Sums.

Lemma sum_workers_le (f f' : worker -> Z) (ws : gmap tid worker) :
  (forall i w, ws !! i = Some w -> f w <= f' w) ->
  sum_workers f ws <= sum_workers f' ws.
Proof.
  induction ws as [|i w ws Hi IH] using map_ind; intros Hle.
  - unfold sum_workers. rewrite !map_fold_empty. lia.
  - rewrite !sum_workers_insert. rewrite (delete_id ws i Hi).
    assert (Hw : f w <= f' w) by (apply (Hle i), lookup_insert_eq).
    assert (Hrest : sum_workers f ws <= sum_workers f' ws).
    { apply IH. intros j wj Hj. apply (Hle j). rewrite lookup_insert_ne; [exact Hj|].
      intros ->. congruence. }
    lia.
Qed.

Lemma sum_workers_nonneg (f : worker -> Z) (ws : gmap tid worker) :
  (forall w, 0 <= f w) -> 0 <= sum_workers f ws.
Proof.
  intros Hf. induction ws as [|i w ws Hi IH] using map_ind.
  - unfold sum_workers. rewrite map_fold_empty. lia.
  - rewrite sum_workers_insert, (delete_id ws i Hi). specialize (Hf w). lia.
Qed.

Lemma held_nonneg (g : Z) (w : worker) : 0 <= held g w.
Proof. unfold held. lia. Qed.

Lemma held_mono (g g' : Z) (w : worker) : g <= g' -> held g' w <= held g w.
Proof. unfold held, reference. intros Hle. destruct (w_point w); lia. Qed.

Section DelayCounts.
Context `{Tunables} `{Collaborators}.

Lemma atomic_operation_delay_effect (p : profiler) (st : thread_state) (pt : point) :
  let '(p', st', pt') := atomic_operation p st pt in delay_effect p st pt p' st' pt'.
Proof.
  destruct pt as [|[|r rs]|x rs|l rs|l rs|x rs|x rs|x rs|x g rs|x rs|x rs|x rs|x d rs|x rs
                  |x rs|l [c|] rs|rs|g rs|g s rs|d z rs|rs| |g|g d|]; simpl.
  all: try (apply effect_keep; reflexivity).
  - destruct (is_sample r); [destruct (find_containing_line r)|];
      apply effect_keep; reflexivity.
  - destruct (_selected_line p); apply effect_keep; reflexivity.
  - destruct (_fixed_line p); [|destruct l]; apply effect_keep; reflexivity.
  - unfold compare_exchange_strong. destruct (decide _); apply effect_keep; reflexivity.
  - destruct (negb _); apply effect_keep; reflexivity.
  - destruct (delay_dist (_generator p)). apply effect_keep; reflexivity.
  - destruct (decide (l = Some c)); destruct (_ =? MinRoundSamples);
      (apply effect_earn; reflexivity) || (apply effect_keep; reflexivity).
  - destruct (Z.gtb_spec (delay_count st) g) as [Hgt|Hle].
    + eapply effect_add; (reflexivity || assumption).
    + destruct (Z.ltb_spec (delay_count st) g) as [Hlt|Hge].
      * destruct (excess_delay st >? _); eapply effect_level; (reflexivity || assumption).
      * eapply effect_level; try reflexivity; [exact Hle|lia].
Qed.

Lemma delays_fit_step (m : machine) (who : tid) (w : worker) (budget : Z)
    (p' : profiler) (st' : thread_state) (pt' : point) :
  m_workers m !! who = Some w ->
  delay_effect (m_profiler m) (w_state w) (w_point w) p' st' pt' ->
  0 <= budget -> delays_fit m (budget + 1) ->
  let m' := mk_machine p' (<[who := mk_worker st' pt']> (m_workers m)) in
  delays_fit m' budget /\ _global_delays (m_profiler m) <= _global_delays p' /\
  delay_count (w_state w) <= delay_count st'.
Proof.
  intros Hw Heffect Hbudget (_ & Hworkers & Hglobal & Hfit). cbv zeta.
  set (g := _global_delays (m_profiler m)) in *.
  destruct (Hworkers who w Hw) as (Hdc & Href0 & Href).
  unfold delays_held in Hfit. fold g in Hfit.
  rewrite (sum_workers_delete _ _ who w Hw) in Hfit.
  pose proof (sum_workers_nonneg (held g) (delete who (m_workers m)) (held_nonneg g))
    as Hrest.
  assert (Hothers : forall g', g <= g' ->
    sum_workers (held g') (delete who (m_workers m))
      <= sum_workers (held g) (delete who (m_workers m))).
  { intros g' Hle. apply sum_workers_le. intros i wi _. apply held_mono, Hle. }
  assert (Hkeep : forall g', g <= g' -> _global_delays p' = g' ->
    0 <= delay_count st' -> 0 <= reference g' pt' <= g' ->
    g' + (held g' (mk_worker st' pt') + sum_workers (held g) (delete who (m_workers m)))
      + budget < size_modulus ->
    delay_count (w_state w) <= delay_count st' ->
    delays_fit (mk_machine p' (<[who := mk_worker st' pt']> (m_workers m))) budget /\
    g <= _global_delays p' /\ delay_count (w_state w) <= delay_count st').
  { intros g' Hle Hg' Hdc' Href' Hfit' Hup. split; [|split; [lia|exact Hup]].
    unfold delays_fit, delays_held. simpl. rewrite Hg'. split_and?.
    - lia.
    - intros i wi Hi. destruct (decide (i = who)) as [->|Hne].
      + rewrite lookup_insert_eq in Hi. inversion Hi; subst wi. simpl. split; assumption.
      + rewrite lookup_insert_ne in Hi by congruence.
        destruct (Hworkers i wi Hi) as (Hdci & Hrefi0 & Hrefi). split; [exact Hdci|].
        fold g in Hrefi0, Hrefi. unfold reference in *. destruct (w_point wi); lia.
    - lia.
    - rewrite sum_workers_insert. specialize (Hothers g' Hle). lia. }
  assert (Hheld : held g w = Z.max 0 (delay_count (w_state w) - reference g (w_point w)))
    by reflexivity.
  destruct Heffect as [Hg' Hdc' Hpt Hpt'|loaded size Hpt Hgt Hg' Hdc' Hpt'
                      |loaded size Hpt Hle Hg' Hdc' Hpt'|Hg' Hdc' Hpt'].
  - (* a delay earned *)
    fold g in Hg', Hpt, Hpt'. rewrite Hpt in Hheld.
    assert (Hexact : wrap (delay_count (w_state w) + 1) = delay_count (w_state w) + 1).
    { apply wrap_id. unfold is_size_t. lia. }
    rewrite Hexact in Hdc'.
    apply (Hkeep g); [lia|exact Hg'|lia|lia| |lia].
    unfold held at 1. simpl. rewrite Hdc', Hpt'. lia.
  - (* the atomic add *)
    fold g in Hg'. rewrite Hpt in Hheld, Href, Href0. simpl in Hheld, Href, Href0.
    assert (Hdiff : wrap (delay_count (w_state w) - loaded) = delay_count (w_state w) - loaded).
    { apply wrap_id. unfold is_size_t. lia. }
    assert (Hsum : wrap (g + (delay_count (w_state w) - loaded))
                   = g + (delay_count (w_state w) - loaded)).
    { apply wrap_id. unfold is_size_t. lia. }
    rewrite Hdiff, Hsum in Hg'.
    apply (Hkeep (g + (delay_count (w_state w) - loaded)));
      [lia|exact Hg'|lia|rewrite Hpt'; simpl; lia| |lia].
    unfold held at 1. simpl. rewrite Hdc', Hpt'. simpl. lia.
  - (* the thread catches up *)
    fold g in Hg'. rewrite Hpt in Hheld, Href, Href0. simpl in Hheld, Href, Href0.
    apply (Hkeep g); [lia|exact Hg'|lia|rewrite Hpt'; simpl; lia| |lia].
    unfold held at 1. simpl. rewrite Hdc', Hpt'. simpl. lia.
  - (* the delay counts are left alone *)
    fold g in Hg', Hpt'.
    apply (Hkeep g); [lia|exact Hg'|lia|lia| |lia].
    unfold held at 1. simpl. rewrite Hdc', Hpt'. lia.
Qed.

Lemma atomic_step_delays_fit (m m' : machine) (who : tid) (a : move) (budget : Z) :
  atomic_step m who a = Some m' -> 0 <= budget -> delays_fit m (budget + 1) ->
  delays_fit m' budget /\
  _global_delays (m_profiler m) <= _global_delays (m_profiler m') /\
  counts_kept (m_workers m) (m_workers m').
Proof.
  unfold atomic_step. destruct (m_workers m !! who) as [w|] eqn:Hw; [|discriminate]. simpl.
  intros Hstep Hbudget Hfit.
  assert (Hgoal : forall p' st' pt',
    m' = mk_machine p' (<[who := mk_worker st' pt']> (m_workers m)) ->
    delay_effect (m_profiler m) (w_state w) (w_point w) p' st' pt' ->
    delays_fit m' budget /\
    _global_delays (m_profiler m) <= _global_delays (m_profiler m') /\
    counts_kept (m_workers m) (m_workers m')).
  { intros p' st' pt' -> Heffect.
    destruct (delays_fit_step m who w budget p' st' pt' Hw Heffect Hbudget Hfit)
      as (Hfit' & Hle & Hup).
    split; [exact Hfit'|]. split; [exact Hle|]. simpl.
    intros i wi Hi. destruct (decide (i = who)) as [->|Hne].
    - rewrite Hw in Hi. inversion Hi; subst wi. eexists. rewrite lookup_insert_eq.
      split; [reflexivity|exact Hup].
    - exists wi. rewrite lookup_insert_ne by congruence. split; [exact Hi|lia]. }
  destruct a as [rs|]; destruct (inside (w_point w)) eqn:Hin; try discriminate.
  - inversion Hstep; subst m'; clear Hstep.
    eapply Hgoal; [reflexivity|].
    destruct (w_point w); try discriminate. apply effect_keep; reflexivity.
  - pose proof (atomic_operation_delay_effect (m_profiler m) (w_state w) (w_point w))
      as Heffect.
    destruct (atomic_operation (m_profiler m) (w_state w) (w_point w)) as [[p' st'] pt'].
    inversion Hstep; subst m'; clear Hstep.
    eapply Hgoal; [reflexivity|exact Heffect].
Qed.

Lemma atomic_run_delays_fit (sched : interleaving) (m m' : machine) (budget : Z) :
  atomic_run m sched = Some m' -> 0 <= budget ->
  delays_fit m (budget + Z.of_nat (length sched)) ->
  delays_fit m' budget /\
  _global_delays (m_profiler m) <= _global_delays (m_profiler m') /\
  counts_kept (m_workers m) (m_workers m').
Proof.
  revert m. induction sched as [|[who a] rest IH]; intros m; simpl length.
  - simpl. intros Heq _ Hfit. inversion Heq; subst.
    rewrite Z.add_0_r in Hfit. split; [exact Hfit|]. split; [lia|].
    intros i w Hi. exists w. split; [exact Hi|lia].
  - simpl. destruct (atomic_step m who a) as [m1|] eqn:Hstep; [|discriminate]. simpl.
    intros Hrun Hbudget Hfit.
    assert (Hfit1 : delays_fit m (budget + Z.of_nat (length rest) + 1)).
    { replace (budget + Z.of_nat (length rest) + 1)
        with (budget + Z.of_nat (S (length rest))) by lia. exact Hfit. }
    assert (Hroom : 0 <= budget + Z.of_nat (length rest)) by lia.
    destruct (atomic_step_delays_fit m m1 who a _ Hstep Hroom Hfit1)
      as (Hfit' & Hle1 & Hkept1).
    destruct (IH m1 Hrun Hbudget Hfit') as (Hfit'' & Hle' & Hkept').
    split; [exact Hfit''|]. split; [lia|].
    intros i w Hi. destruct (Hkept1 i w Hi) as (w1 & Hi1 & Hup1).
    destruct (Hkept' i w1 Hi1) as (w' & Hi' & Hup'). exists w'. split; [exact Hi'|lia].
Qed.

End DelayCounts.

(** ** Invariants of the interleavings *)

Section AtomicInvariants.
Context `{Tunables} `{Collaborators}.

(** X10. The virtual speedup never exceeds the sample period. When the
    largest product the source forms in [size_t],
    [SpeedupDivisions * SamplePeriod], fits, the distribution draws between
    0 and [SpeedupDivisions] and the fixed delay size is unset or at most
    [SamplePeriod], the delay size stays between 0 and [SamplePeriod]: in
    every state an execution of whole operations reaches, and in every
    state an interleaving of the atomic operations of [process_samples]
    reaches from threads outside it. *)
Theorem delay_size_bounded :
  0 <= SamplePeriod -> 0 < SpeedupDivisions ->
  SpeedupDivisions * SamplePeriod < size_modulus ->
  (forall g, 0 <= fst (delay_dist g) <= SpeedupDivisions) ->
  (forall (s s' : system) (sched : schedule),
      _fixed_delay_size (sys_profiler s) = -1 \/
        0 <= _fixed_delay_size (sys_profiler s) <= SamplePeriod ->
      0 <= _delay_size (sys_profiler s) <= SamplePeriod ->
      run s sched = Some s' ->
      0 <= _delay_size (sys_profiler s') <= SamplePeriod) /\
  (forall (m m' : machine) (sched : interleaving),
      (forall i w, m_workers m !! i = Some w -> w_point w = outside) ->
      _fixed_delay_size (m_profiler m) = -1 \/
        0 <= _fixed_delay_size (m_profiler m) <= SamplePeriod ->
      0 <= _delay_size (m_profiler m) <= SamplePeriod ->
      atomic_run m sched = Some m' ->
      0 <= _delay_size (m_profiler m') <= SamplePeriod).
Proof.
  intros Hsp Hsd Hfit Hdist. split.
  - intros s s' sched Hfixed Hsize Hrun.
    apply (run_delay_size sched s s' Hsp Hsd Hfit Hdist Hfixed Hsize Hrun).
  - intros m m' sched Hout Hfixed Hsize Hrun.
    assert (Hm : delays_in_range m).
    { split; [split; assumption|]. intros i w Hw. rewrite (Hout i w Hw). exact I. }
    destruct (atomic_run_delay_size sched m m' Hsp Hsd Hfit Hdist Hrun Hm) as [[_ Hsize'] _].
    exact Hsize'.
Qed.

(** X11. A round is counted once, at the granularity of the atomic
    operations. Say that a thread is in a transition when it stands between
    its exchange and its reset of the counter, or between the increment
    that reached [MinRoundSamples] and its clearing store. Take a state with
    no line selected, no thread in a transition and [_round_samples] at
    [MinRoundSamples] or above, as the end of a round leaves it, and any
    interleaving of the operations of the threads short enough for the
    counter not to wrap. Then, in the state reached: at most one thread is
    in a transition; while a line is selected and no thread is in a
    transition, the counter is below [MinRoundSamples]; with no line
    selected it is at [MinRoundSamples] or above and no thread is in a
    transition; and along the interleaving the rounds begun and the rounds
    ended alternate, so that no round is ended twice. *)
Theorem round_count_below_length (m m' : machine) (sched : interleaving) :
  0 < MinRoundSamples ->
  (forall i w, m_workers m !! i = Some w -> in_transition (w_point w) = false) ->
  _selected_line (m_profiler m) = None ->
  MinRoundSamples <= _round_samples (m_profiler m) ->
  _round_samples (m_profiler m) + Z.of_nat (length sched) < size_modulus ->
  atomic_run m sched = Some m' ->
  (forall i j wi wj,
      m_workers m' !! i = Some wi -> m_workers m' !! j = Some wj ->
      in_transition (w_point wi) = true -> in_transition (w_point wj) = true -> i = j) /\
  (is_Some (_selected_line (m_profiler m')) ->
   (forall i w, m_workers m' !! i = Some w -> in_transition (w_point w) = false) ->
   0 <= _round_samples (m_profiler m') < MinRoundSamples) /\
  (_selected_line (m_profiler m') = None ->
   MinRoundSamples <= _round_samples (m_profiler m') /\
   forall i w, m_workers m' !! i = Some w -> in_transition (w_point w) = false) /\
  is_Some (rounds_alternate false (transitions m sched)).
Proof.
  intros Hmin Hout Hsel Hhigh Hfit Hrun.
  assert (Hprot : round_protocol m).
  { unfold round_protocol. split_and?.
    - intros i j wi wj Hi _ Hini _. rewrite (Hout i wi Hi) in Hini. discriminate.
    - intros i w Hi Hini. rewrite (Hout i w Hi) in Hini. discriminate.
    - intros _. exact Hhigh.
    - intros _. left. exact Hsel.
    - lia. }
  assert (Hopen : round_open false m).
  { split; [discriminate|]. intros _. left. exact Hsel. }
  destruct (atomic_run_protocol sched m m' false Hrun Hmin Hfit Hprot Hopen)
    as ((Hsingle & Hbusy & Hidle & Hcounting & Hcount) & b' & Halt & _).
  split_and?.
  - exact Hsingle.
  - intros [x Hx] Hquiet. split; [exact Hcount|].
    destruct (Z.lt_ge_cases (_round_samples (m_profiler m')) MinRoundSamples)
      as [Hlt|Hge]; [exact Hlt|].
    destruct (Hcounting Hge) as [Hnone|(i & w & Hi & Hini)]; [congruence|].
    rewrite (Hquiet i w Hi) in Hini. discriminate.
  - intros Hnone. split; [apply Hidle, Hnone|].
    intros i w Hi. destruct (in_transition (w_point w)) eqn:Hini; [|reflexivity].
    destruct (Hbusy i w Hi Hini) as [[x Hx] _]. congruence.
  - rewrite Halt. eexists. reflexivity.
Qed.

(** X21. The global delay count never goes down, at the granularity of the
    atomic operations. Take threads outside [process_samples] and any
    interleaving of their operations, such that the global count, the
    delays the threads hold beyond it and one delay for each operation of
    the interleaving fit in [size_t]. Then no atomic add wraps: the global
    count at the end is at least the count at the start, whatever ran
    between the load (366) and the add (372) of a thread, and no thread's
    delay count has gone down. *)
Theorem global_delays_never_lowered (m m' : machine) (sched : interleaving) :
  0 <= _global_delays (m_profiler m) ->
  (forall i w, m_workers m !! i = Some w ->
     w_point w = outside /\ 0 <= delay_count (w_state w)) ->
  _global_delays (m_profiler m) + delays_held m + Z.of_nat (length sched) < size_modulus ->
  atomic_run m sched = Some m' ->
  _global_delays (m_profiler m) <= _global_delays (m_profiler m') /\
  (forall i w, m_workers m !! i = Some w ->
     exists w', m_workers m' !! i = Some w' /\
                delay_count (w_state w) <= delay_count (w_state w')).
Proof.
  intros Hglobal Hout Hfit Hrun.
  assert (Hstart : delays_fit m (0 + Z.of_nat (length sched))).
  { unfold delays_fit. split_and?; [lia| |exact Hglobal|lia].
    intros i w Hi. destruct (Hout i w Hi) as [Hpt Hdc]. rewrite Hpt. simpl.
    split; [exact Hdc|lia]. }
  destruct (atomic_run_delays_fit sched m m' 0 Hrun ltac:(lia) Hstart) as (_ & Hle & Hkept).
  split; [exact Hle|exact Hkept].
Qed.

End AtomicInvariants.

(** * Examples on the small configuration *)

Section Examples.
#[local] Existing Instance demo_tunables.
#[local] Existing Instance demo_collaborators.

(** C1. An out-of-scope sample met between rounds, without fixed line,
    ends the whole call: on the buffer [out of scope; line 1] nothing is
    attributed to line 1, no round starts, [add_delays] and the restart of
    the sampler are not reached. Had the first sample been skipped, the
    second would have been counted for line 1 and would have opened a
    round, as the buffer [line 1] alone shows. *)
Theorem out_of_scope_sample_ends_processing :
  let buffer := [sample_out_of_scope; sample_in_line_1] in
  let result := process_samples fresh_profiler fresh_thread_state buffer in
  let skipped := process_samples fresh_profiler fresh_thread_state [sample_in_line_1] in
  find_containing_line sample_out_of_scope = None /\
  result = (fresh_profiler, stopped fresh_thread_state) /\
  line_samples (fst result) !! 1%positive = None /\
  _selected_line (fst result) = None /\
  pe_running (sampler (snd result)) = false /\
  line_samples (fst skipped) !! 1%positive = Some 1 /\
  _selected_line (fst skipped) = Some 1%positive /\
  out_events (_out (fst skipped)) = [ev_start_round 1%positive] /\
  pe_running (sampler (snd skipped)) = true /\
  result <> skipped.
Proof.
  cbv zeta. split_and?; try (vm_compute; reflexivity).
  intros Heq. apply (f_equal (fun x => pe_running (sampler (snd x)))) in Heq.
  vm_compute in Heq. discriminate.
Qed.

Lemma add_delays_spec_witness :
  (is_size_t (delay_count lagging_state) /\ is_size_t (excess_delay lagging_state) /\
   is_size_t (_global_delays demo_profiler)) /\
  add_delays demo_profiler lagging_state =
    (demo_profiler, set_delay_count 5 (set_excess_delay 7 lagging_state)).
Proof.
  assert (Hc : is_size_t (delay_count lagging_state)) by solve_size_t.
  assert (He : is_size_t (excess_delay lagging_state)) by solve_size_t.
  assert (Hg : is_size_t (_global_delays demo_profiler)) by solve_size_t.
  split; [split; [exact Hc|split; [exact He|exact Hg]]|].
  destruct (add_delays_spec demo_profiler lagging_state Hc He Hg)
    as (_ & _ & Hsleep & _).
  apply Hsleep; vm_compute; [reflexivity | discriminate].
Defined.

Lemma snapshot_then_skip_witness :
  latch_held parent_thread = false /\
  exists t1 t2,
    snapshot_delays fresh_profiler parent_thread = Some t1 /\
    skip_delays demo_profiler t1 = Some t2 /\
    delay_count (state t2) = 8.
Proof.
  split; [reflexivity|].
  destruct (snapshot_then_skip fresh_profiler demo_profiler parent_thread eq_refl)
    as (t1 & t2 & Hsnap & Hskip & Hg & Hl & Hcount & _).
  exists t1, t2. split; [exact Hsnap|]. split; [exact Hskip|].
  rewrite Hcount, Hl, Hg. reflexivity.
Defined.

Lemma samples_ready_latch_held_witness :
  thread_state_get signal_context busy_thread = None /\
  samples_ready demo_profiler busy_thread round_buffer = (demo_profiler, busy_thread).
Proof.
  assert (Hnone : thread_state_get signal_context busy_thread = None) by reflexivity.
  split; [exact Hnone|].
  destruct (samples_ready_latch_held demo_profiler busy_thread round_buffer)
    as [_ Hdropped].
  apply Hdropped, Hnone.
Defined.

Lemma child_inherits_delays_witness :
  (latch_held parent_thread = false /\ latch_held fresh_thread = false) /\
  exists new_arg entered,
    handle_pthread_create parent_thread echo_fn 42 = Some new_arg /\
    start_thread_setup new_arg fresh_thread = Some entered /\
    delay_count (state entered) = 3 /\ excess_delay (state entered) = 100.
Proof.
  split; [split; reflexivity|].
  destruct (child_inherits_delays demo_profiler parent_thread fresh_thread echo_fn 42 []
              eq_refl eq_refl)
    as (new_arg & entered & Hcreate & Hsetup & Hcount & Hexcess & _).
  exists new_arg, entered. split; [exact Hcreate|]. split; [exact Hsetup|].
  split; [exact Hcount | exact Hexcess].
Defined.

Lemma process_samples_returns_early_witness :
  (process_records fresh_profiler (stopped fresh_thread_state) round_buffer
     = Continue (fst after_round, snd after_round) /\
   is_sample sample_out_of_scope = true /\
   find_containing_line sample_out_of_scope = None /\
   _selected_line (fst after_round) = None /\
   _fixed_line fresh_profiler = None) /\
  process_samples fresh_profiler fresh_thread_state
    (round_buffer ++ sample_out_of_scope :: [sample_in_line_1])
    = (fst after_round, snd after_round) /\
  pe_running (sampler (snd after_round)) = false.
Proof.
  assert (Hpre : process_records fresh_profiler (stopped fresh_thread_state) round_buffer
                 = Continue (fst after_round, snd after_round))
    by (vm_compute; reflexivity).
  assert (Hsample : is_sample sample_out_of_scope = true) by reflexivity.
  assert (Hline : find_containing_line sample_out_of_scope = None)
    by (vm_compute; reflexivity).
  assert (Hselected : _selected_line (fst after_round) = None)
    by (vm_compute; reflexivity).
  assert (Hfixed : _fixed_line fresh_profiler = None) by reflexivity.
  split; [split_and?; assumption|].
  destruct (process_samples_returns_early fresh_profiler (fst after_round)
              fresh_thread_state (snd after_round) round_buffer [sample_in_line_1]
              sample_out_of_scope Hpre Hsample Hline Hselected Hfixed)
    as (Hresult & Hstopped & _).
  split; [exact Hresult | exact Hstopped].
Defined.

Lemma wf_two_threads : wf_system two_threads.
Proof.
  split; [split_wf_profiler; solve_size_t|]. simpl.
  apply map_Forall_insert_2; [split; solve_size_t|].
  apply map_Forall_insert_2; [split; solve_size_t|]. apply map_Forall_empty.
Defined.

Lemma global_delays_monotone_witness :
  (wf_system two_threads /\ run two_threads interleaved = Some two_threads_after) /\
  _global_delays (sys_profiler two_threads) = 0 /\
  _global_delays (sys_profiler two_threads_after) = 2 /\
  _global_delays (sys_profiler two_threads)
    <= _global_delays (sys_profiler two_threads_after).
Proof.
  assert (Hrun : run two_threads interleaved = Some two_threads_after)
    by (vm_compute; reflexivity).
  split; [split; [exact wf_two_threads | exact Hrun]|].
  split; [reflexivity|]. split; [vm_compute; reflexivity|].
  apply (global_delays_monotone two_threads two_threads_after interleaved
           wf_two_threads Hrun).
Defined.

(** C3. The end of a round can be performed twice. Two threads find
    three samples of line 1 each, on a fresh profiler whose rounds last three
    samples. Thread 0 selects line 1 by its exchange (305) and is held
    there; thread 1 counts its three samples, its third increment (345)
    returns [MinRoundSamples] and it calls [end_round] (347); thread 0 then
    resets the counter (310), logs [start_round] (322) and counts its three
    samples, and its third increment returns [MinRoundSamples] again. One
    round was begun and two threads end it: both stand before the clearing
    store (350) with line 1 still selected, and the sink has received
    [end_round], [start_round], [end_round]. *)
Theorem end_round_performed_twice :
  atomic_run two_workers race_until_both_close = Some both_closing /\
  atomic_run both_closing race_finish = Some after_race /\
  transitions two_workers racing =
    [round_begun 0%nat 1%positive; round_ended 1%nat; round_ended 0%nat] /\
  rounds_alternate false (transitions two_workers racing) = None /\
  point_of both_closing 0%nat = at_clear_selected [] /\
  point_of both_closing 1%nat = at_clear_selected [] /\
  _selected_line (m_profiler both_closing) = Some 1%positive /\
  out_events (_out (m_profiler both_closing)) =
    [ev_end_round 0 0; ev_start_round 1%positive; ev_end_round 0 250000] /\
  out_events (_out (m_profiler after_race)) =
    [ev_end_round 0 0; ev_start_round 1%positive; ev_end_round 0 250000] /\
  round_status false (out_events (_out (m_profiler after_race))) = None /\
  point_of after_race 0%nat = outside /\ point_of after_race 1%nat = outside.
Proof. split_and?; vm_compute; reflexivity. Qed.

Lemma shutdown_end_to_end_report_witness :
  (_shutdown_run end_to_end_profiler = false /\ latch_held fresh_thread = false) /\
  exists p' t',
    shutdown end_to_end_profiler fresh_thread [] 5000000 = Some (p', t') /\
    stderr p' =
      [item_float_quotient 500000 1000000; item_tab; item_ulong 2999000; item_newline].
Proof.
  split; [split; reflexivity|].
  destruct (shutdown_end_to_end_report end_to_end_profiler fresh_thread [] 5000000
              eq_refl eq_refl) as (p' & t' & Hdown & Hreport & _ & _).
  exists p', t'. split; [exact Hdown|].
  assert (Hglobal : _global_delays p' = 4).
  { vm_compute in Hdown. inversion Hdown. reflexivity. }
  rewrite Hreport; [rewrite Hglobal; reflexivity|].
  split; [eexists; reflexivity | discriminate].
Defined.

Lemma shutdown_idempotent_witness :
  (step two_threads 0%nat (act_shutdown [] 2000) = Some two_threads_shut_down /\
   run two_threads_shut_down [(1%nat, act_samples_ready round_buffer)]
     = Some (default two_threads
               (run two_threads_shut_down [(1%nat, act_samples_ready round_buffer)]))) /\
  let later :=
    default two_threads
      (run two_threads_shut_down [(1%nat, act_samples_ready round_buffer)]) in
  step later 1%nat (act_shutdown round_buffer 3000) = Some later /\
  out_events (_out (sys_profiler two_threads_shut_down)) = [ev_shutdown] /\
  out_deleted (_out (sys_profiler two_threads_shut_down)) = true.
Proof.
  assert (Hfirst : step two_threads 0%nat (act_shutdown [] 2000)
                   = Some two_threads_shut_down) by (vm_compute; reflexivity).
  assert (Hrun : run two_threads_shut_down [(1%nat, act_samples_ready round_buffer)]
                 = Some (default two_threads
                           (run two_threads_shut_down
                              [(1%nat, act_samples_ready round_buffer)])))
    by (vm_compute; reflexivity).
  split; [split; [exact Hfirst | exact Hrun]|]. cbv zeta.
  destruct shutdown_idempotent as (_ & _ & Hlater).
  split; [|split; vm_compute; reflexivity].
  apply (Hlater two_threads two_threads_shut_down _ 0%nat 1%nat [] round_buffer 2000 3000
           [(1%nat, act_samples_ready round_buffer)] Hfirst Hrun).
  vm_compute. eexists. reflexivity.
Defined.

End Examples.

(** * Further examples on the small configuration *)

Section MoreExamples.
#[local] Existing Instance demo_tunables.
#[local] Existing Instance demo_collaborators.

Lemma add_delays_levels_witness :
  (is_size_t (delay_count leading_state) /\ is_size_t (_global_delays demo_profiler)) /\
  delay_count (snd (add_delays demo_profiler leading_state)) = 8 /\
  _global_delays (fst (add_delays demo_profiler leading_state)) = 8.
Proof.
  assert (Hc : is_size_t (delay_count leading_state)) by solve_size_t.
  assert (Hg : is_size_t (_global_delays demo_profiler)) by solve_size_t.
  split; [split; assumption|].
  destruct (add_delays_levels demo_profiler leading_state Hc Hg) as [Hlevel _].
  split; [rewrite Hlevel|]; vm_compute; reflexivity.
Defined.

Lemma add_delays_pays_the_delay_witness :
  (is_size_t (delay_count lagging_state) /\ is_size_t (excess_delay lagging_state) /\
   is_size_t (_global_delays demo_profiler) /\
   delay_count lagging_state < _global_delays demo_profiler) /\
  100 + 499907 = 500000 + excess_delay (snd (add_delays demo_profiler lagging_state)).
Proof.
  assert (Hc : is_size_t (delay_count lagging_state)) by solve_size_t.
  assert (He : is_size_t (excess_delay lagging_state)) by solve_size_t.
  assert (Hg : is_size_t (_global_delays demo_profiler)) by solve_size_t.
  assert (Hlt : delay_count lagging_state < _global_delays demo_profiler) by reflexivity.
  split; [repeat first [assumption | split]|].
  destruct (add_delays_pays_the_delay demo_profiler lagging_state Hc He Hg Hlt)
    as [Hpaid _]; [|exact Hpaid].
  intros _. vm_compute. split; [discriminate|reflexivity].
Defined.

Lemma process_records_attributes_samples_witness :
  process_records fresh_profiler (stopped fresh_thread_state) round_buffer
    = Continue (fst after_round, snd after_round) /\
  default 0 (line_samples (fst after_round) !! 1%positive) = 2.
Proof.
  assert (Hloop : process_records fresh_profiler (stopped fresh_thread_state) round_buffer
                  = Continue (fst after_round, snd after_round))
    by (vm_compute; reflexivity).
  split; [exact Hloop|].
  etrans;
    [exact (process_records_attributes_samples round_buffer fresh_profiler (fst after_round)
              (stopped fresh_thread_state) (snd after_round) 1%positive Hloop)|].
  vm_compute. reflexivity.
Defined.

Lemma process_records_in_round_witness :
  (Forall (fun r => is_sample r = true) mixed_buffer /\
   _selected_line round_open_profiler = Some 1%positive /\
   is_size_t (_round_samples round_open_profiler) /\
   is_size_t (delay_count lagging_state) /\
   _round_samples round_open_profiler + Z.of_nat (length mixed_buffer) < MinRoundSamples /\
   MinRoundSamples <= size_modulus /\
   delay_count lagging_state + Z.of_nat (length mixed_buffer) < size_modulus) /\
  exists p' st',
    process_records round_open_profiler lagging_state mixed_buffer = Continue (p', st') /\
    _round_samples p' = 2 /\ delay_count st' = 4.
Proof.
  assert (Hall : Forall (fun r => is_sample r = true) mixed_buffer)
    by (repeat constructor).
  assert (Hsel : _selected_line round_open_profiler = Some 1%positive) by reflexivity.
  assert (Hrs : is_size_t (_round_samples round_open_profiler)) by solve_size_t.
  assert (Hdc : is_size_t (delay_count lagging_state)) by solve_size_t.
  assert (Hround : _round_samples round_open_profiler + Z.of_nat (length mixed_buffer)
                   < MinRoundSamples) by reflexivity.
  assert (Hmin : MinRoundSamples <= size_modulus) by discriminate.
  assert (Hfit : delay_count lagging_state + Z.of_nat (length mixed_buffer) < size_modulus)
    by reflexivity.
  split; [repeat first [assumption | split]|].
  destruct (process_records_in_round mixed_buffer round_open_profiler lagging_state
              1%positive Hall Hsel Hrs Hdc Hround Hmin Hfit)
    as (p' & st' & Hloop & _ & Hcount & Hdelays & _).
  exists p', st'. split; [exact Hloop|]. split; [rewrite Hcount|rewrite Hdelays];
    vm_compute; reflexivity.
Defined.

Lemma process_record_starts_round_witness :
  (is_sample sample_out_of_scope = true /\ _selected_line end_to_end_profiler = None /\
   round_target (_fixed_line end_to_end_profiler)
     (find_containing_line sample_out_of_scope) = Some 1%positive) /\
  exists p' st',
    process_record end_to_end_profiler fresh_thread_state sample_out_of_scope
      = Continue (p', st') /\
    delay_count st' = 1 /\ _selected_line p' = Some 1%positive /\
    out_events (_out p') = [ev_start_round 1%positive].
Proof.
  assert (Htarget : round_target (_fixed_line end_to_end_profiler)
                      (find_containing_line sample_out_of_scope) = Some 1%positive)
    by reflexivity.
  split; [repeat first [assumption | reflexivity | split]|].
  destruct (process_record_starts_round end_to_end_profiler fresh_thread_state
              sample_out_of_scope 1%positive eq_refl eq_refl Htarget)
    as (p' & st' & Hone & Hdelay & _ & _ & _ & Hround & _).
  exists p', st'. split; [exact Hone|]. split; [rewrite Hdelay; reflexivity|].
  apply Hround. discriminate.
Defined.

Lemma configuration_is_read_only_witness :
  run fixed_threads interleaved = Some fixed_threads_after /\
  _fixed_line (sys_profiler fixed_threads_after) = Some 1%positive /\
  _fixed_delay_size (sys_profiler fixed_threads_after) = 500000 /\
  _start_time (sys_profiler fixed_threads_after) = 1000.
Proof.
  assert (Hrun : run fixed_threads interleaved = Some fixed_threads_after)
    by (vm_compute; reflexivity).
  split; [exact Hrun|].
  destruct (configuration_is_read_only fixed_threads fixed_threads_after interleaved Hrun)
    as (Hline & Hsize & Htime).
  rewrite Hline, Hsize, Htime. repeat split.
Defined.

Lemma fixed_line_locks_rounds_witness :
  (run fixed_threads interleaved = Some fixed_threads_after /\
   _fixed_line (sys_profiler fixed_threads) = Some 1%positive /\
   _selected_line (sys_profiler fixed_threads) = None) /\
  (_selected_line (sys_profiler fixed_threads_after) = None \/
   _selected_line (sys_profiler fixed_threads_after) = Some 1%positive).
Proof.
  assert (Hrun : run fixed_threads interleaved = Some fixed_threads_after)
    by (vm_compute; reflexivity).
  split; [repeat first [assumption | reflexivity | split]|].
  apply (fixed_line_locks_rounds fixed_threads fixed_threads_after interleaved 1%positive
           Hrun eq_refl eq_refl).
Defined.

Lemma delay_size_bounded_witness :
  (0 <= SamplePeriod /\ 0 < SpeedupDivisions /\
   SpeedupDivisions * SamplePeriod < size_modulus /\
   (forall g, 0 <= fst (delay_dist g) <= SpeedupDivisions)) /\
  0 <= _delay_size (sys_profiler two_threads_after) <= SamplePeriod /\
  0 <= _delay_size (m_profiler after_race) <= SamplePeriod.
Proof.
  assert (Hsp : 0 <= SamplePeriod) by discriminate.
  assert (Hsd : 0 < SpeedupDivisions) by reflexivity.
  assert (Hfit : SpeedupDivisions * SamplePeriod < size_modulus) by reflexivity.
  assert (Hdist : forall g, 0 <= fst (delay_dist g) <= SpeedupDivisions)
    by (intros g; split; discriminate).
  assert (Hrun : run two_threads interleaved = Some two_threads_after)
    by (vm_compute; reflexivity).
  assert (Hrace : atomic_run two_workers racing = Some after_race)
    by (vm_compute; reflexivity).
  assert (Hout : forall i w, m_workers two_workers !! i = Some w -> w_point w = outside).
  { intros i w Hw. unfold two_workers in Hw. simpl in Hw.
    apply lookup_insert_Some in Hw. destruct Hw as [[_ <-]|[_ Hw]]; [reflexivity|].
    apply lookup_insert_Some in Hw. destruct Hw as [[_ <-]|[_ Hw]]; [reflexivity|].
    rewrite lookup_empty in Hw. discriminate. }
  split; [repeat first [assumption | split]|].
  destruct (delay_size_bounded Hsp Hsd Hfit Hdist) as [Hwhole Hatomic].
  split.
  - apply (Hwhole two_threads two_threads_after interleaved);
      [left; reflexivity|split; discriminate|exact Hrun].
  - apply (Hatomic two_workers after_race racing Hout);
      [left; reflexivity|split; discriminate|exact Hrace].
Defined.

Lemma round_count_below_length_witness :
  (0 < MinRoundSamples /\
   (forall i w, m_workers between_rounds !! i = Some w ->
                in_transition (w_point w) = false) /\
   _selected_line (m_profiler between_rounds) = None /\
   MinRoundSamples <= _round_samples (m_profiler between_rounds) /\
   _round_samples (m_profiler between_rounds) + Z.of_nat (length overlapping)
     < size_modulus /\
   atomic_run between_rounds overlapping = Some after_overlap) /\
  transitions between_rounds overlapping = [round_begun 0%nat 1%positive; round_ended 0%nat] /\
  out_events (_out (m_profiler after_overlap)) =
    [ev_start_round 1%positive; ev_end_round 0 250000] /\
  MinRoundSamples <= _round_samples (m_profiler after_overlap) /\
  is_Some (rounds_alternate false (transitions between_rounds overlapping)).
Proof.
  assert (Hmin : 0 < MinRoundSamples) by reflexivity.
  assert (Hout : forall i w, m_workers between_rounds !! i = Some w ->
                             in_transition (w_point w) = false).
  { intros i w Hw. unfold between_rounds, two_workers in Hw. simpl in Hw.
    apply lookup_insert_Some in Hw. destruct Hw as [[_ <-]|[_ Hw]]; [reflexivity|].
    apply lookup_insert_Some in Hw. destruct Hw as [[_ <-]|[_ Hw]]; [reflexivity|].
    rewrite lookup_empty in Hw. discriminate. }
  assert (Hsel : _selected_line (m_profiler between_rounds) = None) by reflexivity.
  assert (Hhigh : MinRoundSamples <= _round_samples (m_profiler between_rounds))
    by discriminate.
  assert (Hfit : _round_samples (m_profiler between_rounds) +
                 Z.of_nat (length overlapping) < size_modulus)
    by (vm_compute; reflexivity).
  assert (Hrun : atomic_run between_rounds overlapping = Some after_overlap)
    by (vm_compute; reflexivity).
  split; [repeat first [assumption | split]|].
  split; [vm_compute; reflexivity|]. split; [vm_compute; reflexivity|].
  destruct (round_count_below_length between_rounds after_overlap overlapping
              Hmin Hout Hsel Hhigh Hfit Hrun) as (_ & _ & Hidle & Halt).
  split; [|exact Halt]. apply Hidle. vm_compute; reflexivity.
Defined.


Lemma end_sampling_reconciles_witness :
  (wf_profiler demo_profiler /\ wf_thread_state (state parent_thread) /\
   latch_held parent_thread = false) /\
  exists p' t',
    end_sampling demo_profiler parent_thread [sample_out_of_scope] = Some (p', t') /\
    delay_count (state t') = _global_delays p' /\
    pe_open (sampler (state t')) = false.
Proof.
  assert (Hp : wf_profiler demo_profiler) by (split_wf_profiler; solve_size_t).
  assert (Hst : wf_thread_state (state parent_thread)) by (split; solve_size_t).
  split; [split; [exact Hp|split; [exact Hst|reflexivity]]|].
  destruct (end_sampling_reconciles demo_profiler parent_thread [sample_out_of_scope]
              Hp Hst eq_refl) as [(p' & t' & Hend & _ & Hlevel & _ & Hclosed) _].
  exists p', t'. split; [exact Hend|split; [exact Hlevel|exact Hclosed]].
Defined.

Lemma skip_delays_overrides_handler_witness :
  latch_held parent_thread = false /\
  exists t1 t3,
    snapshot_delays fresh_profiler parent_thread = Some t1 /\
    skip_delays demo_profiler (snd (samples_ready round_open_profiler t1 mixed_buffer))
      = Some t3 /\
    delay_count (state t3) = 8.
Proof.
  split; [reflexivity|].
  destruct (skip_delays_overrides_handler fresh_profiler round_open_profiler demo_profiler
              parent_thread mixed_buffer eq_refl) as (t1 & t3 & Hsnap & Hskip & Hcount).
  exists t1, t3. split; [exact Hsnap|]. split; [exact Hskip|].
  rewrite Hcount. vm_compute. reflexivity.
Defined.

Lemma startup_opens_the_session_witness :
  latch_held fresh_thread = false /\
  exists p' t',
    startup fresh_profiler fresh_thread "profile.coz" session_names "main.c:1" 50 1000
      = Some (p', t') /\
    out_events (_out p') = [ev_add_counter "main.c:2" 2%positive; ev_startup 1000000] /\
    pe_running (sampler (state t')) = true.
Proof.
  split; [reflexivity|].
  destruct (startup_opens_the_session fresh_profiler fresh_thread "profile.coz"
              session_names "main.c:1" 50 1000 eq_refl)
    as (p' & t' & Hstart & Hlog & _ & _ & Hsampler & _).
  exists p', t'. split; [exact Hstart|]. split; [rewrite Hlog|rewrite Hsampler];
    vm_compute; reflexivity.
Defined.

Lemma startup_fixed_delay_size_witness :
  startup fresh_profiler fresh_thread "profile.coz" session_names "main.c:1" 50 1000
    = Some (fst session_opened, snd session_opened) /\
  _fixed_delay_size (fst session_opened) = 500000 /\
  0 <= _fixed_delay_size (fst session_opened) <= SamplePeriod.
Proof.
  assert (Hstart : startup fresh_profiler fresh_thread "profile.coz" session_names
                     "main.c:1" 50 1000 = Some (fst session_opened, snd session_opened))
    by (vm_compute; reflexivity).
  split; [exact Hstart|].
  destruct (startup_fixed_delay_size fresh_profiler (fst session_opened) fresh_thread
              (snd session_opened) "profile.coz" session_names "main.c:1" 50 1000 Hstart)
    as (Hrange & _).
  destruct Hrange as [Hvalue Hbounds]; [split; discriminate|discriminate|].
  split; [rewrite Hvalue; reflexivity|exact Hbounds].
Defined.

Lemma session_event_stream_witness :
  (startup fresh_profiler fresh_thread "profile.coz" session_names "main.c:1" 50 1000
     = Some (fst session_opened, snd session_opened) /\
   _selected_line fresh_profiler = None /\
   Forall (fun taken => fst taken = 0%nat) session_schedule /\
   run (mk_system (fst session_opened) session_threads) session_schedule
     = Some session_running /\
   _shutdown_run (sys_profiler session_running) = false /\
   step session_running 0%nat (act_shutdown [] 5000000) = Some session_closed) /\
  (exists rounds,
      out_events (_out (sys_profiler session_closed)) =
        registered_counters session_names ++
        [ev_startup SamplePeriod] ++ rounds ++ [ev_shutdown] /\
      round_status false rounds = Some (selected (sys_profiler session_closed)) /\
      out_deleted (_out (sys_profiler session_closed)) = true) /\
  out_events (_out (sys_profiler session_closed)) =
    [ev_add_counter "main.c:2" 2%positive; ev_startup 1000000;
     ev_start_round 1%positive; ev_end_round 0 500000; ev_shutdown].
Proof.
  assert (Hstart : startup fresh_profiler fresh_thread "profile.coz" session_names
                     "main.c:1" 50 1000 = Some (fst session_opened, snd session_opened))
    by (vm_compute; reflexivity).
  assert (Hrun : run (mk_system (fst session_opened) session_threads) session_schedule
                 = Some session_running) by (vm_compute; reflexivity).
  assert (Hclear : _shutdown_run (sys_profiler session_running) = false)
    by (vm_compute; reflexivity).
  assert (Hstep : step session_running 0%nat (act_shutdown [] 5000000)
                  = Some session_closed) by (vm_compute; reflexivity).
  assert (Hone : Forall (fun taken : tid * action => fst taken = 0%nat) session_schedule)
    by (repeat constructor).
  split; [repeat first [assumption | reflexivity | split]|].
  split; [|vm_compute; reflexivity].
  exact (session_event_stream fresh_profiler (fst session_opened) fresh_thread
           (snd session_opened) "profile.coz" session_names "main.c:1" 50 1000 5000000
           session_threads session_schedule session_running session_closed 0%nat []
           Hstart eq_refl Hone Hrun Hclear Hstep).
Defined.

Lemma session_report_witness :
  (startup fresh_profiler fresh_thread "profile.coz" session_names "main.c:1" 50 1000
     = Some (fst session_opened, snd session_opened) /\
   _fixed_line fresh_profiler = None /\ _fixed_delay_size fresh_profiler = -1 /\
   0 <= SamplePeriod /\
   run (mk_system (fst session_opened) session_threads) session_schedule
     = Some session_running /\
   _shutdown_run (sys_profiler session_running) = false /\
   step session_running 0%nat (act_shutdown [] 5000000) = Some session_closed) /\
  stderr (sys_profiler session_closed) =
    [item_float_quotient 500000 1000000; item_tab; item_ulong 3999000; item_newline].
Proof.
  assert (Hstart : startup fresh_profiler fresh_thread "profile.coz" session_names
                     "main.c:1" 50 1000 = Some (fst session_opened, snd session_opened))
    by (vm_compute; reflexivity).
  assert (Hperiod : 0 <= SamplePeriod) by discriminate.
  assert (Hrun : run (mk_system (fst session_opened) session_threads) session_schedule
                 = Some session_running) by (vm_compute; reflexivity).
  assert (Hclear : _shutdown_run (sys_profiler session_running) = false)
    by (vm_compute; reflexivity).
  assert (Hstep : step session_running 0%nat (act_shutdown [] 5000000)
                  = Some session_closed) by (vm_compute; reflexivity).
  split; [repeat first [assumption | reflexivity | split]|].
  rewrite (session_report fresh_profiler (fst session_opened) fresh_thread
             (snd session_opened) "profile.coz" session_names "main.c:1" 50 1000 5000000
             session_threads session_schedule session_running session_closed 0%nat []
             Hstart eq_refl eq_refl Hperiod Hrun Hclear Hstep).
  vm_compute. reflexivity.
Defined.

Lemma process_samples_completes_witness :
  (wf_profiler end_to_end_profiler /\ wf_thread_state fresh_thread_state /\
   (is_Some (_fixed_line end_to_end_profiler) \/
    Forall (fun r => is_sample r = true -> is_Some (find_containing_line r))
      [sample_out_of_scope; sample_in_line_1])) /\
  pe_running
    (sampler (snd (process_samples end_to_end_profiler fresh_thread_state
                     [sample_out_of_scope; sample_in_line_1]))) = true.
Proof.
  assert (Hp : wf_profiler end_to_end_profiler) by (split_wf_profiler; solve_size_t).
  assert (Hst : wf_thread_state fresh_thread_state) by (split; solve_size_t).
  assert (Hfixed : is_Some (_fixed_line end_to_end_profiler) \/
                   Forall (fun r => is_sample r = true -> is_Some (find_containing_line r))
                     [sample_out_of_scope; sample_in_line_1])
    by (left; eexists; reflexivity).
  split; [repeat first [assumption | split]|].
  apply (process_samples_completes end_to_end_profiler fresh_thread_state
           [sample_out_of_scope; sample_in_line_1] Hp Hst Hfixed).
Defined.

Lemma delay_count_never_lowered_witness :
  (is_size_t (delay_count lagging_state) /\
   delay_count lagging_state + Z.of_nat (length round_buffer) < size_modulus) /\
  delay_count lagging_state
    <= delay_count (snd (process_samples fresh_profiler lagging_state round_buffer)).
Proof.
  assert (Hc : is_size_t (delay_count lagging_state)) by solve_size_t.
  assert (Hfit : delay_count lagging_state + Z.of_nat (length round_buffer) < size_modulus)
    by reflexivity.
  split; [split; assumption|].
  apply (delay_count_never_lowered fresh_profiler lagging_state round_buffer Hc Hfit).
Defined.

Lemma global_delays_never_lowered_witness :
  (0 <= _global_delays (m_profiler two_workers) /\
   (forall i w, m_workers two_workers !! i = Some w ->
      w_point w = outside /\ 0 <= delay_count (w_state w)) /\
   _global_delays (m_profiler two_workers) + delays_held two_workers +
     Z.of_nat (length racing) < size_modulus /\
   atomic_run two_workers racing = Some after_race) /\
  _global_delays (m_profiler two_workers) = 0 /\
  _global_delays (m_profiler after_race) = 3 /\
  _global_delays (m_profiler two_workers) <= _global_delays (m_profiler after_race).
Proof.
  assert (Hglobal : 0 <= _global_delays (m_profiler two_workers)) by discriminate.
  assert (Hout : forall i w, m_workers two_workers !! i = Some w ->
                   w_point w = outside /\ 0 <= delay_count (w_state w)).
  { intros i w Hw. unfold two_workers in Hw. simpl in Hw.
    apply lookup_insert_Some in Hw.
    destruct Hw as [[_ <-]|[_ Hw]]; [split; [reflexivity|discriminate]|].
    apply lookup_insert_Some in Hw.
    destruct Hw as [[_ <-]|[_ Hw]]; [split; [reflexivity|discriminate]|].
    rewrite lookup_empty in Hw. discriminate. }
  assert (Hfit : _global_delays (m_profiler two_workers) + delays_held two_workers +
                 Z.of_nat (length racing) < size_modulus) by (vm_compute; reflexivity).
  assert (Hrun : atomic_run two_workers racing = Some after_race)
    by (vm_compute; reflexivity).
  split; [repeat first [assumption | split]|].
  split; [reflexivity|]. split; [vm_compute; reflexivity|].
  apply (global_delays_never_lowered two_workers after_race racing Hglobal Hout Hfit Hrun).
Defined.

End MoreExamples.
